(** * Range-covered history cache of [StockDataProvider]

    A shallow embedding of [src/data_tools/stock_data_provider.py] and the
    properties of its symbol parser ([_parse_symbol]), of the range-covered
    history cache ([get_stock_history]), of the whole-table snapshot
    caches and of the stock information cache ([get_stock_info]), with the
    colour lists of [src/data_tools/stock_visualizer.py].

    Modelling conventions.
    - A Python [str] is a [string]; the embedding covers ASCII text (ticker
      symbols, exchange suffixes, exception messages).  Case mapping and
      whitespace of code points above 127 are not modelled.
    - A [datetime.date] is its proleptic ordinal, an integer ([Z]); the
      order on dates is the order on ordinals.
    - A table is seen through the one column the provider computes with,
      its date column.  The other cells of a row are opaque; what is kept
      of them is whether they are the cells of a frame in memory or the
      cells [read_csv] inferred from a file ([Reread]), which need not be
      the cells that were written.
    - The date of a scalar, [pd.to_datetime(x).date()], is a date or [NaT]
      ([pydate]): an empty string and a missing value read as [NaT], and
      ordering [NaT] against a date raises [TypeError].
    - The data directory is a finite map from the name of a stock directory
      (the pure code) to the files in it; distinct names are distinct
      directories.
    - A provider method takes the disk, and the remote source as it
      answers at that call, and yields an [Outcome]: the value returned or
      the exception raised, the disk afterwards and the remote calls made.
    - [print] calls and input/output errors of the disk are not modelled. *)

From stdpp Require Import base option gmap strings.
From Stdlib Require Import ZArith Ascii String List Bool Lia Permutation Sorted.
Import ListNotations.
Open Scope string_scope.
Open Scope Z_scope.

(** ** Python string primitives used by the provider *)

Module PyStr.

(** [str.isspace] on ASCII: TAB, LF, VT, FF, CR, the separators FS, GS, RS,
    US and the space. *)
Definition is_space (c : ascii) : bool :=
  let n := nat_of_ascii c in
  ((9 <=? n)%nat && (n <=? 13)%nat) || ((28 <=? n)%nat && (n <=? 32)%nat).

Definition lower_char (c : ascii) : ascii :=
  let n := nat_of_ascii c in
  if ((65 <=? n)%nat && (n <=? 90)%nat) then ascii_of_nat (n + 32) else c.

Definition upper_char (c : ascii) : ascii :=
  let n := nat_of_ascii c in
  if ((97 <=? n)%nat && (n <=? 122)%nat) then ascii_of_nat (n - 32) else c.

Fixpoint map_chars (f : ascii -> ascii) (s : string) : string :=
  match s with
  | EmptyString => EmptyString
  | String c t => String (f c) (map_chars f t)
  end.

(** [s.lower()] and [s.upper()]. *)
Definition lower : string -> string := map_chars lower_char.
Definition upper : string -> string := map_chars upper_char.

Fixpoint lstrip (s : string) : string :=
  match s with
  | EmptyString => EmptyString
  | String c t => if is_space c then lstrip t else s
  end.

Fixpoint rstrip (s : string) : string :=
  match s with
  | EmptyString => EmptyString
  | String c t =>
      match rstrip t with
      | EmptyString => if is_space c then EmptyString else String c EmptyString
      | t' => String c t'
      end
  end.

(** [s.strip()]. *)
Definition strip (s : string) : string := rstrip (lstrip s).

(** [c in s] for a one-character [c]. *)
Fixpoint contains_char (c : ascii) (s : string) : bool :=
  match s with
  | EmptyString => false
  | String d t => Ascii.eqb c d || contains_char c t
  end.

(** [s.split(c)] for a one-character separator: never the empty list. *)
Fixpoint split (c : ascii) (s : string) : list string :=
  match s with
  | EmptyString => [EmptyString]
  | String d t =>
      if Ascii.eqb c d then EmptyString :: split c t
      else match split c t with
           | h :: r => String d h :: r
           | [] => [String d EmptyString]
           end
  end.

(** [s.startswith(p)]. *)
Fixpoint startswith (p s : string) : bool :=
  match p, s with
  | EmptyString, _ => true
  | String a p', String b s' => Ascii.eqb a b && startswith p' s'
  | String _ _, EmptyString => false
  end.

(** [s.replace(c, by)] for a one-character [c]. *)
Fixpoint replace (c : ascii) (by_ : string) (s : string) : string :=
  match s with
  | EmptyString => EmptyString
  | String d t =>
      if Ascii.eqb c d then by_ ++ replace c by_ t else String d (replace c by_ t)
  end.

(** [p in s] for strings: [p] occurs as a contiguous run of [s]. *)
Fixpoint contains (p s : string) : bool :=
  startswith p s ||
  match s with
  | EmptyString => false
  | String _ t => contains p t
  end.

End PyStr.

(** ** Exceptions *)

(** The exceptions that reach the provider's [except] clauses.  [str e] is
    Python's [str(e)]. *)
Inductive exn : Type :=
| ProviderError (msg : string)   (* raised inside an akshare call *)
| ValueError (msg : string)      (* tuple unpacking, date parsing *)
| KeyError (key : string)        (* a column that is not in the frame *)
| TypeError (msg : string).      (* ordering [NaT] against a date *)

Definition str (e : exn) : string :=
  match e with
  | ProviderError m => m
  | ValueError m => m
  | KeyError k => "'" ++ k ++ "'"
  | TypeError m => m
  end.

(** Results of fallible code: [inl e] is [raise e], [inr v] is [return v]. *)
Definition result (A : Type) : Type := (exn + A)%type.

(** ** SymbolIdentity: [_parse_symbol] (lines 17-45) *)

Definition _parse_symbol (symbol_input : string) : result (string * string) :=
  let symbol_input := PyStr.lower (PyStr.strip symbol_input) in
  if PyStr.contains_char "." symbol_input then
    match PyStr.split "." symbol_input with
    | [code; exchange] => inr (code, PyStr.upper exchange ++ code)
    | [] | [_] => inl (ValueError "not enough values to unpack (expected 2, got 1)")
    | _ => inl (ValueError "too many values to unpack (expected 2)")
    end
  else
    let pure_code := symbol_input in
    if PyStr.startswith "6" symbol_input then
      inr (pure_code, "SH" ++ symbol_input)
    else if PyStr.startswith "0" symbol_input || PyStr.startswith "3" symbol_input then
      inr (pure_code, "SZ" ++ symbol_input)
    else if PyStr.startswith "4" symbol_input || PyStr.startswith "8" symbol_input then
      inr (pure_code, "BJ" ++ symbol_input)
    else
      inr (pure_code, "SZ" ++ symbol_input).

(** ** Tables *)

(** A [datetime.date], as its proleptic ordinal. *)
Definition date : Type := Z.

(** A cell of the date column of a table ([日期] for the price history and the
    research reports, [除权除息日] for the dividends, [date] for the valuation
    series): a date (a [datetime.date], or text that [pd.to_datetime] reads
    as that date), one of the two null values, or text that is not a date. *)
Inductive cell : Type :=
| Date (d : date)
| NaT
| NaN
| Text (s : string).

(** The other cells of a row.  The provider never looks into them, but
    they do not survive a file unchanged: [to_csv] writes their text and
    [read_csv] infers their types again from the whole column (the text
    [007] comes back as the number 7 unless some other row of the column
    stops it).  [Cells v] are cells with the content [v]; [Reread p among]
    are the cells [read_csv] gives for [p] after [p] was written in a table
    whose rows had the cells [among]. *)
#[warnings="-register-all"]
Inductive payload : Type :=
| Cells (v : string)
| Reread (p : payload) (among : list payload).

Coercion Cells : string >-> payload.

(** A row: its date cell, and its other cells. *)
Record Row : Type := mkRow { date_of : cell; data : payload }.

(** A [pd.DataFrame], by what the provider asks of it: [NoColumns] is
    [pd.DataFrame()], [Undated] has columns but not the date column,
    [Dated] has the date column. *)
Inductive DataFrame : Type :=
| NoColumns
| Undated (rows : list payload)
| Dated (rows : list Row).

(** The value of [pd.to_datetime(x).date()] for a scalar [x]: a
    [datetime.date], or [NaT]. *)
Inductive pydate : Type :=
| PyDate (d : date)
| PyNaT.

(** Ordering [NaT] against a [datetime.date] raises, whichever side [NaT]
    is on; [NaT] against [NaT] is [False]. *)
Definition cannot_compare : exn :=
  TypeError "Cannot compare NaT with datetime.date object".

(** [a <= b]; [a >= b] is [pydate_le b a]. *)
Definition pydate_le (a b : pydate) : result bool :=
  match a, b with
  | PyDate x, PyDate y => inr (x <=? y)
  | PyNaT, PyNaT => inr false
  | _, _ => inl cannot_compare
  end.

(** [a < b]; [a > b] is [pydate_lt b a]. *)
Definition pydate_lt (a b : pydate) : result bool :=
  match a, b with
  | PyDate x, PyDate y => inr (x <? y)
  | PyNaT, PyNaT => inr false
  | _, _ => inl cannot_compare
  end.

(** [min(a, b)] and [max(a, b)]: the second argument is taken when it is
    strictly below (above) the first. *)
Definition py_min (a b : pydate) : result pydate :=
  match pydate_lt b a with
  | inl e => inl e
  | inr true => inr b
  | inr false => inr a
  end.

Definition py_max (a b : pydate) : result pydate :=
  match pydate_lt a b with
  | inl e => inl e
  | inr true => inr b
  | inr false => inr a
  end.

Definition cell_eqb (a b : cell) : bool :=
  match a, b with
  | Date x, Date y => x =? y
  | NaT, NaT => true
  | NaN, NaN => true
  | Text s, Text t => String.eqb s t
  | _, _ => false
  end.

Definition isna (c : cell) : bool :=
  match c with NaT | NaN => true | _ => false end.

(** [pd.to_datetime(col).dt.date] on one cell: nulls become [NaT]; text that
    is not a date raises. *)
Definition to_datetime_cell (c : cell) : option cell :=
  match c with
  | Date d => Some (Date d)
  | NaT | NaN => Some NaT
  | Text _ => None
  end.

(** [df[col] = pd.to_datetime(df[col]).dt.date]; [None] when it raises. *)
Fixpoint to_datetime_col (rows : list Row) : option (list Row) :=
  match rows with
  | [] => Some []
  | r :: t =>
      match to_datetime_cell (date_of r), to_datetime_col t with
      | Some c, Some t' => Some (mkRow c (data r) :: t')
      | _, _ => None
      end
  end.

(** [pd.to_datetime(col, errors='coerce').dt.date]. *)
Definition coerce_cell (c : cell) : cell :=
  match c with Date d => Date d | _ => NaT end.

Definition coerce_col (rows : list Row) : list Row :=
  map (fun r => mkRow (coerce_cell (date_of r)) (data r)) rows.

(** [col >= d] and [col <= d] on one cell: comparing a null gives [False],
    and so does comparing with [NaT] (the column is compared element by
    element, without raising).  The column is converted before it is
    compared, so [Text] is not met. *)
Definition cell_ge (c : cell) (d : pydate) : bool :=
  match c, d with Date x, PyDate d => d <=? x | _, _ => false end.

Definition cell_le (c : cell) (d : pydate) : bool :=
  match c, d with Date x, PyDate d => x <=? d | _, _ => false end.

(** [(df[col] >= s) & (df[col] <= e)]. *)
Definition in_range (s e : pydate) (r : Row) : bool :=
  cell_ge (date_of r) s && cell_le (date_of r) e.

(** The order [sort_values] sorts the non-null cells by. *)
Definition cell_leb (a b : cell) : bool :=
  match a, b with
  | Date x, Date y => x <=? y
  | _, _ => true
  end.

Fixpoint insert_sorted (r : Row) (l : list Row) : list Row :=
  match l with
  | [] => [r]
  | x :: t => if cell_leb (date_of r) (date_of x) then r :: l else x :: insert_sorted r t
  end.

Fixpoint sort_dates (l : list Row) : list Row :=
  match l with
  | [] => []
  | r :: t => insert_sorted r (sort_dates t)
  end.

(** [df.sort_values(col)]: the rows with a date in ascending order, then the
    rows with a null date.  pandas does not promise an order among rows of
    equal date; no statement below depends on the one chosen here. *)
Definition sort_values (l : list Row) : list Row :=
  sort_dates (filter (fun r => negb (isna (date_of r))) l)
  ++ filter (fun r => isna (date_of r)) l.

(** [df.drop_duplicates(subset=[col], keep='last')]: a row is dropped when a
    later row has the same date cell.  Cells are compared as the hash table
    behind [duplicated] compares them ([cell_eqb]): a null equals a null of
    its own kind only. *)
Fixpoint drop_duplicates_last (l : list Row) : list Row :=
  match l with
  | [] => []
  | r :: t =>
      if existsb (fun r' => cell_eqb (date_of r) (date_of r')) t
      then drop_duplicates_last t
      else r :: drop_duplicates_last t
  end.

(** [pd.concat([cached_df, new_df])] where [cached_df] has the date column:
    rows of a frame without that column get [NaN] in it. *)
Definition concat (cached : list Row) (new_df : DataFrame) : list Row :=
  match new_df with
  | NoColumns => cached
  | Undated ps => (cached ++ map (mkRow NaN) ps)%list
  | Dated rows => (cached ++ rows)%list
  end.

(** ** Files *)

(** A CSV file: of size 0, not readable as CSV, or written from a frame.  A
    file written from [pd.DataFrame()] holds a lone line end, which
    [read_csv] rejects. *)
Inductive CsvFile : Type :=
| EmptyFile
| Garbled
| Csv (df : DataFrame).

(** [os.path.getsize(path) > 0]. *)
Definition nonempty (f : CsvFile) : bool :=
  match f with EmptyFile => false | _ => true end.

(** A null date cell is written as an empty field and read back as [NaN]. *)
Definition written_cell (c : cell) : cell :=
  match c with NaT => NaN | _ => c end.

(** A row of a table whose rows have the cells [among], as [read_csv] gives
    it back from the file written from that table. *)
Definition reread_row (among : list payload) (r : Row) : Row :=
  mkRow (written_cell (date_of r)) (Reread (data r) among).

(** [pd.read_csv(path, ...)]; [None] when it raises.  The frame read is not
    the frame written: a null date comes back as [NaN], and the other
    cells come back as [read_csv] infers them from the text of the whole
    column. *)
Definition read_csv (f : CsvFile) : option DataFrame :=
  match f with
  | Csv (Undated ps) => Some (Undated (map (fun p => Reread p ps) ps))
  | Csv (Dated rows) => Some (Dated (map (reread_row (map data rows)) rows))
  | Csv NoColumns | EmptyFile | Garbled => None
  end.

(** [df.to_csv(path, index=False, encoding='utf-8-sig')]. *)
Definition to_csv (df : DataFrame) : CsvFile := Csv df.

(** [history_meta.json]: not a JSON object, or an object with the values
    under [covered_start] and [covered_end] given by what
    [pd.to_datetime(meta.get(key)).date()] makes of them: a date, [NaT]
    (the text [NaT], an empty string; a missing key under pandas 3), or an
    exception ([None]). *)
Inductive MetaFile : Type :=
| BadJson
| MetaJson (covered_start covered_end : option pydate) (last_update : Z).

(** The files of one stock directory. *)
Record StockDir : Type := mkDir {
  history_data : option CsvFile;
  history_meta : option MetaFile;
  dividend_info : option CsvFile;
  research_report : option CsvFile;
  institute_recommendations : option CsvFile;
  valuation : gmap string CsvFile;
  financial : gmap string CsvFile
}.

Definition empty_dir : StockDir := mkDir None None None None None ∅ ∅.

(** The data directory: stock directories by name. *)
Abbreviation Store := (gmap string StockDir).

(** [_get_stock_dir] (lines 47-56): the directory is made when missing. *)
Definition _get_stock_dir (disk : Store) (symbol : string) : Store :=
  match disk !! symbol with
  | Some _ => disk
  | None => <[symbol := empty_dir]> disk
  end.

(** The files of the directory [symbol]; none when the directory is missing. *)
Definition files (disk : Store) (symbol : string) : StockDir :=
  default empty_dir (disk !! symbol).

(** ** The remote source *)

(** A date argument: a string that [pd.to_datetime] reads as a date, one
    that it reads as [NaT] (the empty string, the text [NaT]), or one that
    it rejects. *)
Inductive DateStr : Type :=
| Ymd (d : date)
| Blank
| Malformed (s : string).

(** [pd.to_datetime(a).date()]. *)
Definition to_datetime (a : DateStr) : result pydate :=
  match a with
  | Ymd d => inr (PyDate d)
  | Blank => inr PyNaT
  | Malformed s => inl (ValueError s)
  end.

(** The akshare endpoints, as they answer at the time of one call. *)
Record Akshare : Type := mkAk {
  stock_zh_a_hist : string -> DateStr -> DateStr -> string -> result DataFrame;
  stock_fhps_detail_em : string -> result DataFrame;
  stock_research_report_em : string -> result DataFrame;
  stock_institute_recommend_detail : string -> result DataFrame;
  stock_zh_valuation_baidu : string -> string -> string -> result DataFrame;
  stock_financial_report_sina : string -> string -> result DataFrame
}.

(** The remote calls made, in order. *)
Inductive Call : Type :=
| call_hist (symbol : string) (start_date end_date : DateStr) (adjust : string)
| call_fhps (symbol : string)
| call_research (symbol : string)
| call_institute (symbol : string)
| call_valuation (symbol indicator period : string)
| call_financial (stock symbol : string).

(** What a provider method does: the value returned or the exception raised,
    the data directory afterwards, and the remote calls made. *)
Record Outcome : Type := mkOutcome {
  returned : result DataFrame;
  disk_after : Store;
  calls : list Call
}.

(** ** RangeCoverageCache: [get_stock_history] (lines 113-243) *)

Definition with_history_data (f : CsvFile) (dir : StockDir) : StockDir :=
  mkDir (Some f) (history_meta dir) (dividend_info dir) (research_report dir)
        (institute_recommendations dir) (valuation dir) (financial dir).

Definition with_history_meta (m : MetaFile) (dir : StockDir) : StockDir :=
  mkDir (history_data dir) (Some m) (dividend_info dir) (research_report dir)
        (institute_recommendations dir) (valuation dir) (financial dir).

(** Lines 136-150: [covered_start] and [covered_end] as read from the
    metadata.  Both files must exist and the table file must not be empty;
    an exception while reading leaves what was assigned before it.  A value
    read as [NaT] is kept: it is not [None], and it is true in a test. *)
Definition read_coverage (dir : StockDir) : option pydate * option pydate :=
  match history_meta dir, history_data dir with
  | Some meta, Some f =>
      if nonempty f then
        match meta with
        | MetaJson (Some cs) (Some ce) _ => (Some cs, Some ce)
        | MetaJson (Some cs) None _ => (Some cs, None)
        | MetaJson None _ _ | BadJson => (None, None)
        end
      else (None, None)
  | _, _ => (None, None)
  end.

(** Lines 152 and 155: [covered_start and covered_end and
    covered_start <= req_start_dt and covered_end >= req_end_dt].  The
    comparisons stand outside every [try]: the [TypeError] of a [NaT]
    against a date leaves the method.  The second comparison is evaluated
    only when the first holds. *)
Definition covers (covered : option pydate * option pydate)
    (req_start_dt req_end_dt : pydate) : result bool :=
  match covered with
  | (Some covered_start, Some covered_end) =>
      match pydate_le covered_start req_start_dt with
      | inl e => inl e
      | inr false => inr false
      | inr true => pydate_le req_end_dt covered_end
      end
  | _ => inr false
  end.

(** Lines 156-164: the table read for a full hit; [None] when the code
    falls through to the fetch. *)
Definition read_slice (dir : StockDir) (req_start_dt req_end_dt : pydate)
  : option DataFrame :=
  match history_data dir with
  | Some f =>
      match read_csv f with
      | Some (Dated rows) =>
          match to_datetime_col rows with
          | Some rows =>
              Some (Dated (sort_values (filter (in_range req_start_dt req_end_dt) rows)))
          | None => None
          end
      | _ => None
      end
  | None => None
  end.

(** Lines 152-166: the exception of the coverage test, or the table
    returned on a full hit, or [None] when the code goes on to the fetch. *)
Definition serve_from_cache (dir : StockDir) (covered : option pydate * option pydate)
    (req_start_dt req_end_dt : pydate) : result (option DataFrame) :=
  match covers covered req_start_dt req_end_dt with
  | inl e => inl e
  | inr true => inr (read_slice dir req_start_dt req_end_dt)
  | inr false => inr None
  end.

(** Lines 169-184: [cached_df], the rows to merge with. *)
Definition load_cached (dir : StockDir) : option (list Row) :=
  match history_data dir with
  | Some f =>
      if nonempty f then
        match read_csv f with
        | Some (Dated rows) => to_datetime_col rows
        | _ => None
        end
      else None
  | None => None
  end.

(** Lines 198-202: the date column of the fetched frame, when it has one. *)
Definition convert_fetched (new_df : DataFrame) : result DataFrame :=
  match new_df with
  | Dated rows =>
      match to_datetime_col rows with
      | Some rows => inr (Dated rows)
      | None => inl (ValueError "Unknown datetime string format")
      end
  | _ => inr new_df
  end.

(** Lines 204-212: [final_df]. *)
Definition merge (cached_df : option (list Row)) (new_df : DataFrame) : DataFrame :=
  match cached_df with
  | Some cached => Dated (sort_values (drop_duplicates_last (concat cached new_df)))
  | None => new_df
  end.

(** Lines 221-227: the coverage written back; [min] and [max] can raise. *)
Definition new_coverage (covered : option pydate * option pydate)
    (req_start_dt req_end_dt : pydate) : result (pydate * pydate) :=
  match (match fst covered with
         | Some covered_start => py_min covered_start req_start_dt
         | None => inr req_start_dt
         end) with
  | inl e => inl e
  | inr new_covered_start =>
      match (match snd covered with
             | Some covered_end => py_max covered_end req_end_dt
             | None => inr req_end_dt
             end) with
      | inl e => inl e
      | inr new_covered_end => inr (new_covered_start, new_covered_end)
      end
  end.

(** Lines 186-243: fetch, merge, persist, slice.  The table is written
    before the coverage is computed: an exception of [min] or [max] leaves
    the new table beside the old metadata. *)
Definition fetch_and_merge (disk : Store) (pure_code : string)
    (covered : option pydate * option pydate) (cached_df : option (list Row))
    (start_date end_date : DateStr) (req_start_dt req_end_dt : pydate)
    (adjust : string) (ak : Akshare) (now : Z) : Outcome :=
  let made := [call_hist pure_code start_date end_date adjust] in
  match stock_zh_a_hist ak pure_code start_date end_date adjust with
  | inl e => mkOutcome (inl e) disk made
  | inr new_df =>
      match convert_fetched new_df with
      | inl e => mkOutcome (inl e) disk made
      | inr new_df =>
          let final_df := merge cached_df new_df in
          let disk :=
            <[pure_code := with_history_data (to_csv final_df) (files disk pure_code)]> disk in
          match new_coverage covered req_start_dt req_end_dt with
          | inl e => mkOutcome (inl e) disk made
          | inr (new_covered_start, new_covered_end) =>
              let meta := MetaJson (Some new_covered_start) (Some new_covered_end) now in
              let disk :=
                <[pure_code := with_history_meta meta (files disk pure_code)]> disk in
              match final_df with
              | Dated rows =>
                  mkOutcome (inr (Dated (filter (in_range req_start_dt req_end_dt) rows)))
                    disk made
              | _ => mkOutcome (inl (KeyError "日期")) disk made
              end
          end
      end
  end.

Definition get_stock_history (disk : Store) (symbol : string)
    (start_date end_date : DateStr) (adjust : string)
    (ak : Akshare) (now : Z) : Outcome :=
  match _parse_symbol symbol with
  | inl e => mkOutcome (inl e) disk []
  | inr (pure_code, _) =>
      let disk := _get_stock_dir disk pure_code in
      let dir := files disk pure_code in
      match to_datetime start_date with
      | inl e => mkOutcome (inl e) disk []
      | inr req_start_dt =>
          match to_datetime end_date with
          | inl e => mkOutcome (inl e) disk []
          | inr req_end_dt =>
              let covered := read_coverage dir in
              match serve_from_cache dir covered req_start_dt req_end_dt with
              | inl e => mkOutcome (inl e) disk []
              | inr (Some df) => mkOutcome (inr df) disk []
              | inr None =>
                  fetch_and_merge disk pure_code covered (load_cached dir)
                    start_date end_date req_start_dt req_end_dt adjust ak now
              end
          end
      end
  end.

(** ** SnapshotCache: the whole-table caches (lines 245-491) *)

Definition with_dividend_info (f : CsvFile) (dir : StockDir) : StockDir :=
  mkDir (history_data dir) (history_meta dir) (Some f) (research_report dir)
        (institute_recommendations dir) (valuation dir) (financial dir).

Definition with_research_report (f : CsvFile) (dir : StockDir) : StockDir :=
  mkDir (history_data dir) (history_meta dir) (dividend_info dir) (Some f)
        (institute_recommendations dir) (valuation dir) (financial dir).

Definition with_institute_recommendations (f : CsvFile) (dir : StockDir) : StockDir :=
  mkDir (history_data dir) (history_meta dir) (dividend_info dir) (research_report dir)
        (Some f) (valuation dir) (financial dir).

Definition with_valuation (name : string) (f : CsvFile) (dir : StockDir) : StockDir :=
  mkDir (history_data dir) (history_meta dir) (dividend_info dir) (research_report dir)
        (institute_recommendations dir) (<[name := f]> (valuation dir)) (financial dir).

Definition with_financial (name : string) (f : CsvFile) (dir : StockDir) : StockDir :=
  mkDir (history_data dir) (history_meta dir) (dividend_info dir) (research_report dir)
        (institute_recommendations dir) (valuation dir) (<[name := f]> (financial dir)).

(** [if not force_update and os.path.exists(path): try: df = pd.read_csv(path)
    except: df = None]. *)
Definition load_snapshot (force_update : bool) (file : option CsvFile) : option DataFrame :=
  if negb force_update then
    match file with
    | Some f => read_csv f
    | None => None
    end
  else None.

(** An optional date argument: [None] for [None] and for the empty string,
    which are both false in [if start_date or end_date]; [Some Blank] is
    then a text such as [NaT]. *)
Definition parse_bound (a : option DateStr) : result (option pydate) :=
  match a with
  | None => inr None
  | Some a =>
      match to_datetime a with
      | inl e => inl e
      | inr d => inr (Some d)
      end
  end.

Definition after_bound (s : option pydate) (r : Row) : bool :=
  match s with Some s => cell_ge (date_of r) s | None => true end.

Definition before_bound (e : option pydate) (r : Row) : bool :=
  match e with Some e => cell_le (date_of r) e | None => true end.

(** Lines 283-315 and 356-375: the filter on the returned frame.  An
    exception inside it is caught; the frame then keeps its converted
    date column and all of its rows. *)
Definition filter_dates (df : DataFrame) (start_date end_date : option DateStr) : DataFrame :=
  match start_date, end_date with
  | None, None => df
  | _, _ =>
      match df with
      | Dated rows =>
          let rows := coerce_col rows in
          match parse_bound start_date with
          | inl _ => Dated rows
          | inr s_dt =>
              match parse_bound end_date with
              | inl _ => Dated rows
              | inr e_dt =>
                  Dated (filter (fun r => after_bound s_dt r && before_bound e_dt r) rows)
              end
          end
      | _ => df
      end
  end.

(** Lines 245-317. *)
Definition get_stock_dividend_info (disk : Store) (symbol : string)
    (start_date end_date : option DateStr) (force_update : bool)
    (ak : Akshare) : Outcome :=
  match _parse_symbol symbol with
  | inl e => mkOutcome (inl e) disk []
  | inr (pure_code, _) =>
      let disk := _get_stock_dir disk pure_code in
      match load_snapshot force_update (dividend_info (files disk pure_code)) with
      | Some df => mkOutcome (inr (filter_dates df start_date end_date)) disk []
      | None =>
          match stock_fhps_detail_em ak pure_code with
          | inl e => mkOutcome (inl e) disk [call_fhps pure_code]
          | inr df =>
              let disk :=
                <[pure_code := with_dividend_info (to_csv df) (files disk pure_code)]> disk in
              mkOutcome (inr (filter_dates df start_date end_date)) disk [call_fhps pure_code]
          end
      end
  end.

(** Lines 319-377. *)
Definition get_stock_research_report (disk : Store) (symbol : string)
    (start_date end_date : option DateStr) (force_update : bool)
    (ak : Akshare) : Outcome :=
  match _parse_symbol symbol with
  | inl e => mkOutcome (inl e) disk []
  | inr (pure_code, _) =>
      let disk := _get_stock_dir disk pure_code in
      match load_snapshot force_update (research_report (files disk pure_code)) with
      | Some df => mkOutcome (inr (filter_dates df start_date end_date)) disk []
      | None =>
          match stock_research_report_em ak pure_code with
          | inl e => mkOutcome (inl e) disk [call_research pure_code]
          | inr df =>
              let disk :=
                <[pure_code := with_research_report (to_csv df) (files disk pure_code)]> disk in
              mkOutcome (inr (filter_dates df start_date end_date)) disk
                        [call_research pure_code]
          end
      end
  end.

(** Lines 379-416. *)
Definition get_stock_institute_recommendations (disk : Store) (symbol : string)
    (force_update : bool) (ak : Akshare) : Outcome :=
  match _parse_symbol symbol with
  | inl e => mkOutcome (inl e) disk []
  | inr (pure_code, xq_code) =>
      let disk := _get_stock_dir disk pure_code in
      match load_snapshot force_update (institute_recommendations (files disk pure_code)) with
      | Some df => mkOutcome (inr df) disk []
      | None =>
          let sina_symbol := PyStr.lower xq_code in
          match stock_institute_recommend_detail ak sina_symbol with
          | inr df =>
              let disk :=
                <[pure_code :=
                    with_institute_recommendations (to_csv df) (files disk pure_code)]> disk in
              mkOutcome (inr df) disk [call_institute sina_symbol]
          | inl e =>
              if PyStr.contains "Empty DataFrame" (str e)
                 || PyStr.contains "No tables found" (str e)
              then mkOutcome (inr NoColumns) disk [call_institute sina_symbol]
              else mkOutcome (inl e) disk [call_institute sina_symbol]
          end
      end
  end.

(** Lines 418-457.  The table is fetched for the whole period whatever
    [period] is asked. *)
Definition safe_indicator (indicator : string) : string :=
  PyStr.replace " " "_" (PyStr.replace ")" "" (PyStr.replace "(" "" indicator)).

(** Lines 434-442: the cached frame with its [date] column converted; [None]
    when the code goes on to fetch. *)
Definition load_valuation (force_update : bool) (file : option CsvFile) : option DataFrame :=
  match load_snapshot force_update file with
  | Some (Dated rows) =>
      match to_datetime_col rows with
      | Some rows => Some (Dated rows)
      | None => None
      end
  | Some df => Some df
  | None => None
  end.

Definition get_stock_valuation (disk : Store) (symbol : string)
    (indicator period : string) (force_update : bool) (ak : Akshare) : Outcome :=
  match _parse_symbol symbol with
  | inl e => mkOutcome (inl e) disk []
  | inr (pure_code, _) =>
      let disk := _get_stock_dir disk pure_code in
      let name := safe_indicator indicator in
      match load_valuation force_update (valuation (files disk pure_code) !! name) with
      | Some df => mkOutcome (inr df) disk []
      | None =>
          let made := [call_valuation pure_code indicator "全部"] in
          match stock_zh_valuation_baidu ak pure_code indicator "全部" with
          | inl e => mkOutcome (inl e) disk made
          | inr df =>
              match convert_fetched df with
              | inl e => mkOutcome (inl e) disk made
              | inr df =>
                  let disk :=
                    <[pure_code := with_valuation name (to_csv df) (files disk pure_code)]>
                      disk in
                  mkOutcome (inr df) disk made
              end
          end
      end
  end.

(** Lines 459-491. *)
Definition get_stock_financial_report (disk : Store) (symbol : string)
    (report_type : string) (force_update : bool) (ak : Akshare) : Outcome :=
  match _parse_symbol symbol with
  | inl e => mkOutcome (inl e) disk []
  | inr (pure_code, xq_code) =>
      let disk := _get_stock_dir disk pure_code in
      let name := PyStr.replace " " "_" report_type in
      match load_snapshot force_update (financial (files disk pure_code) !! name) with
      | Some df => mkOutcome (inr df) disk []
      | None =>
          let sina_symbol := PyStr.lower xq_code in
          let made := [call_financial sina_symbol report_type] in
          match stock_financial_report_sina ak sina_symbol report_type with
          | inl e => mkOutcome (inl e) disk made
          | inr df =>
              let disk :=
                <[pure_code := with_financial name (to_csv df) (files disk pure_code)]>
                  disk in
              mkOutcome (inr df) disk made
          end
      end
  end.

(** The five snapshot operations under one name. *)
Inductive SnapshotOp : Type :=
| Dividend (start_date end_date : option DateStr)
| ResearchReport (start_date end_date : option DateStr)
| InstituteRecommendations
| Valuation (indicator period : string)
| FinancialReport (report_type : string).

Definition run_snapshot (op : SnapshotOp) (disk : Store) (symbol : string)
    (force_update : bool) (ak : Akshare) : Outcome :=
  match op with
  | Dividend s e => get_stock_dividend_info disk symbol s e force_update ak
  | ResearchReport s e => get_stock_research_report disk symbol s e force_update ak
  | InstituteRecommendations => get_stock_institute_recommendations disk symbol force_update ak
  | Valuation i p => get_stock_valuation disk symbol i p force_update ak
  | FinancialReport t => get_stock_financial_report disk symbol t force_update ak
  end.

(** The cache file an operation reads and writes. *)
Definition snapshot_file (op : SnapshotOp) (dir : StockDir) : option CsvFile :=
  match op with
  | Dividend _ _ => dividend_info dir
  | ResearchReport _ _ => research_report dir
  | InstituteRecommendations => institute_recommendations dir
  | Valuation i _ => valuation dir !! safe_indicator i
  | FinancialReport t => financial dir !! PyStr.replace " " "_" t
  end.

(** ** Vocabulary of the statements *)

(** The rows of a frame that has the date column. *)
Definition frame_rows (df : DataFrame) : list Row :=
  match df with Dated rows => rows | _ => [] end.

(** The dates of a table, in row order; null cells carry no date. *)
Fixpoint date_values (l : list Row) : list date :=
  match l with
  | [] => []
  | r :: t =>
      match date_of r with
      | Date d => d :: date_values t
      | _ => date_values t
      end
  end.

(** The row has a date. *)
Definition has_date (r : Row) : Prop := exists d, date_of r = Date d.

(** The date column holds dates and nulls only. *)
Definition no_text (r : Row) : Prop :=
  match date_of r with Text _ => False | _ => True end.

(** Ascending by date, rows without a date last. *)
Definition row_le (a b : Row) : Prop :=
  match date_of a, date_of b with
  | Date x, Date y => x <= y
  | Date _, _ => True
  | _, Date _ => False
  | _, _ => True
  end.

Definition Ascending (l : list Row) : Prop := StronglySorted row_le l.

(** The persisted coverage of a directory: [coveredStart] and [coveredEnd]. *)
Definition coverage (dir : StockDir) : option (date * date) :=
  match history_meta dir with
  | Some (MetaJson (Some (PyDate cs)) (Some (PyDate ce)) _) => Some (cs, ce)
  | _ => None
  end.

(** The state the provider itself leaves behind: metadata is found only
    next to a table file that is not empty, and both of its values can be
    read (as a date or as [NaT]). *)
Definition consistent_dir (dir : StockDir) : Prop :=
  match history_meta dir with
  | None => True
  | Some (MetaJson (Some _) (Some _) _) =>
      match history_data dir with
      | Some f => nonempty f = true
      | None => False
      end
  | Some _ => False
  end.

Definition consistent (disk : Store) : Prop :=
  forall symbol, consistent_dir (files disk symbol).

(** One call of [get_stock_history], with the remote source and the clock
    as they are at that call. *)
Record HistoryCall : Type := mkCall {
  call_symbol : string;
  call_start : DateStr;
  call_end : DateStr;
  call_adjust : string;
  call_ak : Akshare;
  call_now : Z
}.

Definition history_step (disk : Store) (c : HistoryCall) : Store :=
  disk_after (get_stock_history disk (call_symbol c) (call_start c) (call_end c)
                (call_adjust c) (call_ak c) (call_now c)).

(** The data directory after a sequence of calls. *)
Definition history_run (disk : Store) (cs : list HistoryCall) : Store :=
  fold_left history_step cs disk.

(** The operation failed, made no remote call and left the disk alone:
    what rejecting a request means. *)
Definition rejected (disk : Store) (o : Outcome) : Prop :=
  (exists e, returned o = inl e) /\ calls o = [] /\ disk_after o = disk.

(** The exchange inferred from the leading character of a pure code, as the
    specification tabulates it. *)
Definition inferred_exchange (pure_code : string) : string :=
  match pure_code with
  | String "6" _ => "SH"
  | String "0" _ | String "3" _ => "SZ"
  | String "4" _ | String "8" _ => "BJ"
  | _ => "SZ"
  end.

(** The table a snapshot operation finds in its cache when it is not forced
    to refresh: the file must parse and, for the valuation series, its
    date column must convert. *)
Definition stored_table (op : SnapshotOp) (dir : StockDir) : option DataFrame :=
  match snapshot_file op dir with
  | Some f =>
      match read_csv f, op with
      | Some (Dated rows), Valuation _ _ =>
          match to_datetime_col rows with
          | Some rows => Some (Dated rows)
          | None => None
          end
      | Some df, _ => Some df
      | None, _ => None
      end
  | None => None
  end.

(** What the caller is handed of a table: the dividends and the research
    reports are filtered by the dates asked for, in memory. *)
Definition client_view (op : SnapshotOp) (df : DataFrame) : DataFrame :=
  match op with
  | Dividend s e | ResearchReport s e => filter_dates df s e
  | _ => df
  end.

(** The same operation without its date filter. *)
Definition unfiltered (op : SnapshotOp) : SnapshotOp :=
  match op with
  | Dividend _ _ => Dividend None None
  | ResearchReport _ _ => ResearchReport None None
  | _ => op
  end.

(** ** Disks and replies used in the examples *)

(** A remote source whose every endpoint answers [r]. *)
Definition ak_always (r : result DataFrame) : Akshare :=
  mkAk (fun _ _ _ _ => r) (fun _ => r) (fun _ => r) (fun _ => r)
       (fun _ _ _ => r) (fun _ _ => r).

(** A directory holding a history table and its metadata, and nothing else. *)
Definition history_dir (f : CsvFile) (m : MetaFile) : StockDir :=
  mkDir (Some f) (Some m) None None None ∅ ∅.

Definition january : list Row :=
  [mkRow (Date 3) "10.5"; mkRow (Date 4) "10.7"; mkRow (Date 5) "10.6"].

(** The rows of [january] as they are read from a file written from them. *)
Definition january_read : list Row := map (reread_row (map data january)) january.

(** A data directory whose only stock has the rows of [january] cached
    for the days 1 to 31. *)
Definition disk_january : Store :=
  {[ "000858" := history_dir (Csv (Dated january))
                    (MetaJson (Some (PyDate 1)) (Some (PyDate 31)) 0) ]}.

(** A remote source that is down. *)
Definition offline : Akshare := ak_always (inl (ProviderError "Connection aborted")).

(** A reply of the remote source that is neither ordered nor free of
    repeated dates. *)
Definition disordered_reply : DataFrame :=
  Dated [mkRow (Date 5) "11.2"; mkRow (Date 3) "11.0"; mkRow (Date 5) "11.3"].

(** A reply overlapping the table of [disk_january] on day 5. *)
Definition overlapping_reply : DataFrame :=
  Dated [mkRow (Date 5) "10.9"; mkRow (Date 32) "11.4"].

(** Two calls for one stock: a first range, then a later and disjoint one. *)
Definition first_call : HistoryCall :=
  mkCall "000858.sz" (Ymd 1) (Ymd 31) "qfq" (ak_always (inr (Dated january))) 7.

Definition later_call : HistoryCall :=
  mkCall "000858.sz" (Ymd 40) (Ymd 50) "qfq"
         (ak_always (inr (Dated [mkRow (Date 41) "11.9"]))) 8.

(** A call with two empty date strings. *)
Definition blank_call : HistoryCall :=
  mkCall "000858.sz" Blank Blank "qfq" (ak_always (inr (Dated january))) 6.

(** A directory whose history table cannot be read, next to metadata that
    claims the days 10 to 20. *)
Definition disk_garbled : Store :=
  {[ "000858" := history_dir Garbled (MetaJson (Some (PyDate 10)) (Some (PyDate 20)) 0) ]}.

(** The same with a table file of size 0. *)
Definition disk_truncated : Store :=
  {[ "000858" := history_dir EmptyFile (MetaJson (Some (PyDate 10)) (Some (PyDate 20)) 0) ]}.

(** A reply reaching beyond the interval asked for. *)
Definition wide_reply : DataFrame :=
  Dated [mkRow (Date 5) "10.9"; mkRow (Date 32) "11.4"; mkRow (Date 45) "12.0"].

Definition mid_reply : DataFrame :=
  Dated [mkRow (Date 12) "10.1"; mkRow (Date 13) "10.2"].

Definition dividends : list Row :=
  [mkRow (Date 100) "10 pai 25"; mkRow (Text "--") "plan"; mkRow (Date 465) "10 pai 30"].

Definition dividends_read : list Row := map (reread_row (map data dividends)) dividends.

Definition disk_dividends : Store :=
  {[ "000858" := mkDir None None (Some (Csv (Dated dividends))) None None ∅ ∅ ]}.

(** ** Further vocabulary *)

(** [s.count(c)] for a one-character [c]. *)
Fixpoint count_char (c : ascii) (s : string) : nat :=
  match s with
  | EmptyString => 0%nat
  | String d t => ((if Ascii.eqb c d then 1 else 0) + count_char c t)%nat
  end.

(** The first character, if any, is not a space. *)
Definition starts_clean (s : string) : Prop :=
  match s with
  | EmptyString => True
  | String c _ => PyStr.is_space c = false
  end.

(** The frame has no date column. *)
Definition undated (df : DataFrame) : Prop :=
  match df with Dated _ => False | _ => True end.

(** The history table and its metadata are both there or both missing. *)
Definition paired (dir : StockDir) : Prop :=
  history_data dir = None <-> history_meta dir = None.

(** The remote endpoint of a snapshot operation: the call it makes and the
    answer it gets. *)
Definition snapshot_call (op : SnapshotOp) (code xq : string) : Call :=
  match op with
  | Dividend _ _ => call_fhps code
  | ResearchReport _ _ => call_research code
  | InstituteRecommendations => call_institute (PyStr.lower xq)
  | Valuation i _ => call_valuation code i "全部"
  | FinancialReport t => call_financial (PyStr.lower xq) t
  end.

Definition snapshot_fetch (op : SnapshotOp) (ak : Akshare) (code xq : string)
  : result DataFrame :=
  match op with
  | Dividend _ _ => stock_fhps_detail_em ak code
  | ResearchReport _ _ => stock_research_report_em ak code
  | InstituteRecommendations => stock_institute_recommend_detail ak (PyStr.lower xq)
  | Valuation i _ => stock_zh_valuation_baidu ak code i "全部"
  | FinancialReport t => stock_financial_report_sina ak (PyStr.lower xq) t
  end.

(** The reply as the operation holds it before writing: the valuation
    series has its date column converted, which can raise. *)
Definition as_fetched (op : SnapshotOp) (reply : DataFrame) : result DataFrame :=
  match op with
  | Valuation _ _ => convert_fetched reply
  | _ => inr reply
  end.

(** What the operation makes of an exception of its endpoint. *)
Definition on_fetch_error (op : SnapshotOp) (e : exn) : result DataFrame :=
  match op with
  | InstituteRecommendations =>
      if PyStr.contains "Empty DataFrame" (str e) || PyStr.contains "No tables found" (str e)
      then inr NoColumns
      else inl e
  | _ => inl e
  end.

(** The directory with the cache file of the operation replaced. *)
Definition with_snapshot_file (op : SnapshotOp) (f : CsvFile) (dir : StockDir) : StockDir :=
  match op with
  | Dividend _ _ => with_dividend_info f dir
  | ResearchReport _ _ => with_research_report f dir
  | InstituteRecommendations => with_institute_recommendations f dir
  | Valuation i _ => with_valuation (safe_indicator i) f dir
  | FinancialReport t => with_financial (PyStr.replace " " "_" t) f dir
  end.

(** The cache-aside scheme the five snapshot operations share. *)
Definition cache_aside (op : SnapshotOp) (disk : Store) (code xq : string)
    (force_update : bool) (ak : Akshare) : Outcome :=
  let disk := _get_stock_dir disk code in
  match (if force_update then None else stored_table op (files disk code)) with
  | Some df => mkOutcome (inr (client_view op df)) disk []
  | None =>
      let made := [snapshot_call op code xq] in
      match snapshot_fetch op ak code xq with
      | inl e => mkOutcome (on_fetch_error op e) disk made
      | inr reply =>
          match as_fetched op reply with
          | inl e => mkOutcome (inl e) disk made
          | inr df =>
              mkOutcome (inr (client_view op df))
                (<[code := with_snapshot_file op (to_csv df) (files disk code)]> disk) made
          end
      end
  end.

(** The date [d] is within the optional bounds [s] and [e]; no date is
    within a bound that is [NaT]. *)
Definition within (s e : option pydate) (d : date) : Prop :=
  match s with Some (PyDate x) => x <= d | Some PyNaT => False | None => True end /\
  match e with Some (PyDate y) => d <= y | Some PyNaT => False | None => True end.

(** ** Stock information: [get_stock_info] (lines 58-111) *)

(** A Python value held in the information dictionary: one that
    [json.dump] can write, given by its JSON text, or one that it cannot
    (a [Timestamp], say).  Keys are strings. *)
Inductive pyval : Type :=
| Jsonable (json : string)
| NotJsonable (repr : string).

Definition is_jsonable (v : pyval) : bool :=
  match v with Jsonable _ => true | NotJsonable _ => false end.

Definition json_text (v : pyval) : option string :=
  match v with Jsonable s => Some s | NotJsonable _ => None end.

(** The exceptions of [get_stock_info]: those of the provider and of
    [dict(...)], and the [TypeError] of [json.dump] for a value that is not
    JSON. *)
Inductive info_exn : Type :=
| Raised (e : exn)
| NotSerializable.

(** [info.json]: not JSON, a JSON object, or some other JSON document. *)
Inductive InfoFile : Type :=
| BadInfo
| InfoObject (d : gmap string string)
| InfoOther (json : string).

(** What [get_stock_info] returns: a dictionary, or whatever other JSON
    document the cache file held. *)
Inductive InfoValue : Type :=
| InfoDict (d : gmap string pyval)
| InfoDocument (json : string).

(** What an information endpoint answers: a frame with the columns [item]
    and [value] (its rows, as pairs), any other frame (its rows, as
    [to_dict(orient="records")] gives them), or something that is not a
    frame (with what [dict(...)] makes of it). *)
Inductive InfoReply : Type :=
| ItemValueFrame (rows : list (string * pyval))
| OtherFrame (records : list (gmap string pyval))
| NotAFrame (as_dict : info_exn + gmap string pyval).

(** The information endpoints of the akshare module at hand; the two
    XueQiu ones are missing from some versions ([hasattr]). *)
Record AkshareInfo : Type := mkAkInfo {
  stock_individual_basic_info_xq : option (string -> result InfoReply);
  stock_individual_info_xq : option (string -> result InfoReply);
  stock_individual_info_em : string -> result InfoReply
}.

Inductive InfoCall : Type :=
| call_basic_info_xq (symbol : string)
| call_info_xq (symbol : string)
| call_info_em (symbol : string).

Record InfoOutcome : Type := mkInfoOutcome {
  info_returned : info_exn + InfoValue;
  info_disk_after : Store;
  info_files_after : gmap string InfoFile;
  info_calls : list InfoCall
}.

(** [json.load(f)]; [None] when it raises. *)
Definition json_load (f : InfoFile) : option InfoValue :=
  match f with
  | BadInfo => None
  | InfoObject d => Some (InfoDict (Jsonable <$> d))
  | InfoOther json => Some (InfoDocument json)
  end.

(** [json.dump(data, f, ...)] on the file just opened for writing: the
    object written, or [None] when a value cannot be written; the file is
    then left cut short. *)
Definition json_dump (data : gmap string pyval) : option (gmap string string) :=
  if bool_decide (map_Forall (fun _ v => is_jsonable v = true) data)
  then Some (omap json_text data)
  else None.

(** [dict(zip(df['item'], df['value']))]: a later row replaces an earlier
    one with the same item. *)
Definition dict_zip (rows : list (string * pyval)) : gmap string pyval :=
  fold_left (fun d p => <[fst p := snd p]> d) rows ∅.

(** Lines 91-101: the dictionary made of the reply. *)
Definition to_data (df : InfoReply) : info_exn + gmap string pyval :=
  match df with
  | ItemValueFrame rows => inr (dict_zip rows)
  | OtherFrame records =>
      inr (match records with
           | first :: _ => first
           | [] => ∅
           end)
  | NotAFrame as_dict => as_dict
  end.

(** Lines 80-88: the endpoint asked, and its answer. *)
Definition fetch_info (ak : AkshareInfo) (pure_code xq_code : string)
  : InfoCall * result InfoReply :=
  match stock_individual_basic_info_xq ak with
  | Some endpoint => (call_basic_info_xq xq_code, endpoint xq_code)
  | None =>
      match stock_individual_info_xq ak with
      | Some endpoint => (call_info_xq xq_code, endpoint xq_code)
      | None => (call_info_em pure_code, stock_individual_info_em ak pure_code)
      end
  end.

(** The information files are kept beside the tables: [infos] maps the
    name of a stock directory to its [info.json]. *)
Definition get_stock_info (disk : Store) (infos : gmap string InfoFile)
    (symbol : string) (force_update : bool) (ak : AkshareInfo) : InfoOutcome :=
  match _parse_symbol symbol with
  | inl e => mkInfoOutcome (inl (Raised e)) disk infos []
  | inr (pure_code, xq_code) =>
      let disk := _get_stock_dir disk pure_code in
      let cached :=
        if negb force_update then
          match infos !! pure_code with
          | Some f => json_load f
          | None => None
          end
        else None in
      match cached with
      | Some v => mkInfoOutcome (inr v) disk infos []
      | None =>
          let '(call, reply) := fetch_info ak pure_code xq_code in
          match reply with
          | inl e => mkInfoOutcome (inl (Raised e)) disk infos [call]
          | inr df =>
              match to_data df with
              | inl e => mkInfoOutcome (inl e) disk infos [call]
              | inr data =>
                  match json_dump data with
                  | Some written =>
                      mkInfoOutcome (inr (InfoDict data)) disk
                        (<[pure_code := InfoObject written]> infos) [call]
                  | None =>
                      mkInfoOutcome
                        (inl NotSerializable) disk
                        (<[pure_code := BadInfo]> infos) [call]
                  end
              end
          end
      end
  end.

(** An information source with the newer XueQiu endpoint only answering. *)
Definition xq_always (r : result InfoReply) : AkshareInfo :=
  mkAkInfo (Some (fun _ => r)) None (fun _ => inl (ProviderError "not asked")).

Definition company_rows : list (string * pyval) :=
  [("org_name_cn", Jsonable "Wuliangye"); ("listed_date", Jsonable "893952000000");
   ("org_name_cn", Jsonable "Wuliangye Yibin")].

(** The endpoint asked for the stock information: the first that the
    module has, the XueQiu ones with the exchange-prefixed code. *)
Definition endpoint_asked (ak : AkshareInfo) (pure_code xq_code : string) : InfoCall :=
  match stock_individual_basic_info_xq ak, stock_individual_info_xq ak with
  | Some _, _ => call_basic_info_xq xq_code
  | None, Some _ => call_info_xq xq_code
  | None, None => call_info_em pure_code
  end.

(** ** The palette of [StockVisualizer] (stock_visualizer.py) *)

(** [self.echarts_colors] (lines 22-25). *)
Definition echarts_colors : list string :=
  ["#5470c6"; "#91cc75"; "#fac858"; "#ee6666"; "#73c0de";
   "#3ba272"; "#fc8452"; "#9a60b4"; "#ea7ccc"].

(** [l * k] on Python lists. *)
Fixpoint list_times {A : Type} (l : list A) (k : nat) : list A :=
  match k with
  | O => []
  | S k => l ++ list_times l k
  end.

(** Line 58 of [plot_valuation_history]: the colours for [n] series,
    indexed by the position of the series. *)
Definition valuation_colors (n : nat) : list string :=
  list_times echarts_colors (n / length echarts_colors + 1).

(** Line 161 of [plot_pie_chart]: [self.echarts_colors[0:len(labels)]]. *)
Definition pie_colors (n : nat) : list string := firstn n echarts_colors.

(** ** Vocabulary of the interval and of the metadata *)

(** The row has a date, and the date lies between [s] and [e]. *)
Definition dated_within (s e : date) (r : Row) : Prop :=
  exists d, date_of r = Date d /\ s <= d <= e.

(** No value of the metadata reads as [NaT]. *)
Definition dated_metadata (dir : StockDir) : Prop :=
  match history_meta dir with
  | Some (MetaJson covered_start covered_end _) =>
      covered_start <> Some PyNaT /\ covered_end <> Some PyNaT
  | _ => True
  end.

(** A value of the metadata reads as [NaT]. *)
Definition nat_metadata (dir : StockDir) : Prop :=
  exists covered_start covered_end last_update,
    history_meta dir = Some (MetaJson covered_start covered_end last_update) /\
    (covered_start = Some PyNaT \/ covered_end = Some PyNaT).

(** The metadata holds two dates that span the interval from [s] to [e],
    next to a table that has the date column with no cell that is text
    other than a date. *)
Definition fully_covered (dir : StockDir) (s e : date) : Prop :=
  exists cs ce last_update raw,
    history_meta dir = Some (MetaJson (Some (PyDate cs)) (Some (PyDate ce)) last_update) /\
    history_data dir = Some (Csv (Dated raw)) /\
    Forall no_text raw /\
    cs <= s /\ e <= ce.

(** Next to a table file that is not empty, both values of the metadata
    can be read and the coverage test for a request starting at [s] meets
    a [NaT]: the start read is [NaT], or it is a date not after [s] and the
    end read is [NaT]. *)
Definition coverage_test_raises (dir : StockDir) (s : date) : Prop :=
  exists a b last_update f,
    history_meta dir = Some (MetaJson (Some a) (Some b) last_update) /\
    history_data dir = Some f /\ f <> EmptyFile /\
    (a = PyNaT \/ exists cs, a = PyDate cs /\ cs <= s /\ b = PyNaT).

(** The text [p] occurs in the text [s]. *)
Definition occurs_in (p s : string) : Prop :=
  exists before after, s = (before ++ p ++ after)%string.

(** A table next to metadata that reads as [NaT], as a call with two empty
    date strings leaves it. *)
Definition disk_nat : Store :=
  {[ "000858" := history_dir (Csv (Dated january)) (MetaJson (Some PyNaT) (Some PyNaT) 0) ]}.

(** * Properties *)

(** ** SymbolIdentity *)

Example parse_000858_sz : _parse_symbol "000858.sz" = inr ("000858", "SZ000858").
Proof. reflexivity. Qed.

Example parse_600519_sh : _parse_symbol " 600519.SH " = inr ("600519", "SH600519").
Proof. reflexivity. Qed.

Example parse_bare_430047 : _parse_symbol "430047" = inr ("430047", "BJ430047").
Proof. reflexivity. Qed.

Example parse_two_dots :
  _parse_symbol "000858.sz.x" = inl (ValueError "too many values to unpack (expected 2)").
Proof. reflexivity. Qed.

Lemma contains_char_app c a b :
  PyStr.contains_char c (a ++ b)%string = PyStr.contains_char c a || PyStr.contains_char c b.
Proof.
  induction a as [|d a IH]; simpl; [reflexivity|].
  rewrite IH. apply orb_assoc.
Qed.

Lemma split_no_sep c s : PyStr.contains_char c s = false -> PyStr.split c s = [s].
Proof.
  induction s as [|d s IH]; simpl; intros H; [reflexivity|].
  apply orb_false_iff in H as [Hd Hs].
  rewrite Hd, (IH Hs). reflexivity.
Qed.

Lemma split_one_sep c a b :
  PyStr.contains_char c a = false -> PyStr.contains_char c b = false ->
  PyStr.split c (a ++ String c b)%string = [a; b].
Proof.
  intros Ha Hb. induction a as [|d a IH]; simpl.
  - rewrite Ascii.eqb_refl, (split_no_sep _ _ Hb). reflexivity.
  - simpl in Ha. apply orb_false_iff in Ha as [Hd Ha].
    rewrite Hd, (IH Ha). reflexivity.
Qed.

Lemma startswith_char c s :
  PyStr.startswith (String c EmptyString) s =
  match s with String d _ => Ascii.eqb c d | EmptyString => false end.
Proof. destruct s; simpl; [reflexivity | apply andb_true_r]. Qed.

Lemma parse_symbol_bare raw :
  let s := PyStr.lower (PyStr.strip raw) in
  PyStr.contains_char "." s = false ->
  _parse_symbol raw = inr (s, (inferred_exchange s ++ s)%string).
Proof.
  intros s H. unfold _parse_symbol. fold s. rewrite H.
  rewrite !startswith_char. unfold inferred_exchange.
  destruct s as [|c t]; [reflexivity|].
  destruct c as [[] [] [] [] [] [] [] []]; reflexivity.
Qed.

Lemma parse_symbol_suffixed raw code exchange :
  PyStr.lower (PyStr.strip raw) = (code ++ "." ++ exchange)%string ->
  PyStr.contains_char "." code = false ->
  PyStr.contains_char "." exchange = false ->
  _parse_symbol raw = inr (code, (PyStr.upper exchange ++ code)%string).
Proof.
  intros E Hc He. unfold _parse_symbol. rewrite E.
  change (code ++ "." ++ exchange)%string with (code ++ String "." exchange)%string.
  rewrite contains_char_app. simpl PyStr.contains_char at 2.
  rewrite orb_true_r, (split_one_sep _ _ _ Hc He). reflexivity.
Qed.

(** C9. [_parse_symbol] is a function of its input alone.  With [s] the
    trimmed, lower-cased input: when [s] has no ['.'], the pure code is [s]
    and the qualified code is [s] prefixed by SH for a leading ['6'], SZ
    for ['0'] or ['3'], BJ for ['4'] or ['8'], and SZ for anything else;
    when [s] is a code, one ['.'] and a suffix, the pure code is the code
    and the qualified code is the upper-cased suffix followed by the code. *)
Theorem parse_symbol_qualified_code (raw : string) :
  let s := PyStr.lower (PyStr.strip raw) in
  (PyStr.contains_char "." s = false ->
   _parse_symbol raw = inr (s, (inferred_exchange s ++ s)%string)) /\
  (forall code exchange,
     s = (code ++ "." ++ exchange)%string ->
     PyStr.contains_char "." code = false ->
     PyStr.contains_char "." exchange = false ->
     _parse_symbol raw = inr (code, (PyStr.upper exchange ++ code)%string)).
Proof.
  intros s. split.
  - apply parse_symbol_bare.
  - intros code exchange E. apply parse_symbol_suffixed. exact E.
Qed.

Lemma parse_symbol_qualified_code_witness :
  _parse_symbol " 830799 " = inr ("830799", "BJ830799") /\
  _parse_symbol "000858.SZ" = inr ("000858", "SZ000858").
Proof.
  split.
  - apply (proj1 (parse_symbol_qualified_code " 830799 ")). reflexivity.
  - apply (proj2 (parse_symbol_qualified_code "000858.SZ") "000858" "sz");
      reflexivity.
Defined.

(** ** Tables: conversion, slicing, sorting, deduplication *)

Lemma cell_eqb_eq a b : cell_eqb a b = true <-> a = b.
Proof.
  destruct a, b; simpl; split; intros H; try congruence; try reflexivity.
  - apply Z.eqb_eq in H. congruence.
  - inversion H. apply Z.eqb_refl.
  - apply String.eqb_eq in H. congruence.
  - inversion H. apply String.eqb_refl.
Qed.

Lemma row_eta r : mkRow (date_of r) (data r) = r.
Proof. destruct r; reflexivity. Qed.

(** The mask holds of a row only when both bounds are dates and the date
    of the row lies between them. *)
Lemma in_range_bounds s e r :
  in_range s e r = true ->
  exists d x y, date_of r = Date d /\ s = PyDate x /\ e = PyDate y /\ x <= d <= y.
Proof.
  unfold in_range, cell_ge, cell_le. intros H. apply andb_true_iff in H as [H1 H2].
  destruct (date_of r) as [d| | |t]; try discriminate.
  destruct s as [x|]; [|discriminate]. destruct e as [y|]; [|discriminate].
  apply Z.leb_le in H1, H2. exists d, x, y. repeat split; assumption.
Qed.

Lemma in_range_dated s e r :
  in_range (PyDate s) (PyDate e) r = true <-> dated_within s e r.
Proof.
  split.
  - intros H. apply in_range_bounds in H as (d & x & y & Hd & Hx & Hy & H).
    inversion Hx; inversion Hy; subst. exists d. split; assumption.
  - intros (d & Hd & H1 & H2). unfold in_range, cell_ge, cell_le. rewrite Hd.
    apply andb_true_iff. split; apply Z.leb_le; assumption.
Qed.

Lemma in_range_inverted s e r : e < s -> in_range (PyDate s) (PyDate e) r = false.
Proof.
  intros H. destruct (in_range (PyDate s) (PyDate e) r) eqn:E; [|reflexivity].
  apply in_range_dated in E as (d & _ & Hd). lia.
Qed.

Lemma filter_in_range_inverted s e l :
  e < s -> filter (in_range (PyDate s) (PyDate e)) l = [].
Proof.
  intros H. induction l as [|r l IH]; simpl; [reflexivity|].
  rewrite (in_range_inverted _ _ _ H). exact IH.
Qed.

(** A bound that is [NaT] masks every row. *)
Lemma filter_in_range_nat s e l :
  s = PyNaT \/ e = PyNaT -> filter (in_range s e) l = [].
Proof.
  intros H. induction l as [|r l IH]; simpl; [reflexivity|].
  destruct (in_range s e r) eqn:E; [|exact IH].
  apply in_range_bounds in E as (d & x & y & _ & Hx & Hy & _).
  destruct H; congruence.
Qed.

(** The rows of a table split into those the mask keeps, which lie in the
    interval, and the others, which do not. *)
Lemma slice_partition s e l out :
  Permutation out (filter (in_range (PyDate s) (PyDate e)) l) ->
  exists dropped,
    Permutation l (out ++ dropped) /\
    Forall (dated_within s e) out /\
    Forall (fun r => ~ dated_within s e r) dropped.
Proof.
  intros Hp. exists (filter (fun r => negb (in_range (PyDate s) (PyDate e) r)) l).
  split; [|split].
  - rewrite Hp. clear Hp. induction l as [|r l IH]; simpl; [reflexivity|].
    destruct (in_range (PyDate s) (PyDate e) r); simpl.
    + apply perm_skip, IH.
    + rewrite <- Permutation_middle. apply perm_skip, IH.
  - eapply Permutation_Forall; [symmetry; exact Hp|].
    apply Forall_forall. intros r Hr. apply filter_In in Hr as [_ Hr].
    apply in_range_dated. exact Hr.
  - apply Forall_forall. intros r Hr. apply filter_In in Hr as [_ Hr].
    intros Hw. apply in_range_dated in Hw. rewrite Hw in Hr. discriminate.
Qed.

(** The mask keeps the rows in the order of the table. *)
Lemma filter_sublist (f : Row -> bool) l : sublist (filter f l) l.
Proof.
  induction l as [|r l IH]; simpl; [constructor|].
  destruct (f r); constructor; exact IH.
Qed.

Lemma to_datetime_col_no_text raw rows :
  to_datetime_col raw = Some rows -> Forall no_text rows.
Proof.
  revert rows. induction raw as [|r raw IH]; simpl; intros rows H.
  - inversion H. constructor.
  - destruct (to_datetime_cell (date_of r)) as [c|] eqn:Ec; [|discriminate].
    destruct (to_datetime_col raw) as [t|]; [|discriminate].
    inversion H; subst. constructor; [|apply IH; reflexivity].
    unfold no_text. simpl. destruct (date_of r); inversion Ec; exact I.
Qed.

(** Converting the date column changes no row that lies in a range. *)
Lemma to_datetime_col_slice s e raw rows :
  to_datetime_col raw = Some rows ->
  filter (in_range s e) rows = filter (in_range s e) raw.
Proof.
  revert rows. induction raw as [|r raw IH]; simpl; intros rows H.
  - inversion H. reflexivity.
  - destruct (to_datetime_cell (date_of r)) as [c|] eqn:Ec; [|discriminate].
    destruct (to_datetime_col raw) as [t|]; [|discriminate].
    inversion H; subst. simpl. rewrite (IH t eq_refl).
    destruct (date_of r) eqn:Er; inversion Ec; subst.
    + rewrite <- Er, row_eta. reflexivity.
    + unfold in_range. simpl. rewrite Er. reflexivity.
    + unfold in_range. simpl. rewrite Er. reflexivity.
Qed.

Lemma read_csv_dated rows :
  read_csv (Csv (Dated rows)) = Some (Dated (map (reread_row (map data rows)) rows)).
Proof. reflexivity. Qed.

(** A file from which a frame with the date column is read was written
    from one. *)
Lemma read_csv_dated_inv f raw :
  read_csv f = Some (Dated raw) ->
  exists rows, f = Csv (Dated rows) /\ raw = map (reread_row (map data rows)) rows.
Proof.
  destruct f as [| |[|ps|rows]]; try discriminate.
  simpl. intros H. inversion H. eauto.
Qed.

Lemma read_csv_nonempty f df : read_csv f = Some df -> nonempty f = true.
Proof. destruct f; [discriminate|discriminate|reflexivity]. Qed.

Lemma written_in_range s e among r :
  in_range s e (reread_row among r) = in_range s e r.
Proof.
  unfold in_range, reread_row, cell_ge, cell_le. simpl.
  destruct (date_of r); reflexivity.
Qed.

(** A table read back from its file has the same rows in a range as the
    table written, each as re-read. *)
Lemma written_slice s e among rows :
  filter (in_range s e) (map (reread_row among) rows)
  = map (reread_row among) (filter (in_range s e) rows).
Proof.
  induction rows as [|r rows IH]; simpl; [reflexivity|].
  rewrite written_in_range, IH. destruct (in_range s e r); reflexivity.
Qed.

Lemma written_date_values among rows :
  date_values (map (reread_row among) rows) = date_values rows.
Proof.
  induction rows as [|r rows IH]; simpl; [reflexivity|]. rewrite IH.
  destruct (date_of r); reflexivity.
Qed.

Lemma reread_row_le among a b :
  row_le (reread_row among a) (reread_row among b) <-> row_le a b.
Proof.
  unfold row_le, reread_row. simpl.
  destruct (date_of a), (date_of b); simpl; tauto.
Qed.

Lemma written_ascending among rows :
  Ascending rows -> Ascending (map (reread_row among) rows).
Proof.
  unfold Ascending. induction 1 as [|a l Hs IH Ha]; simpl; constructor.
  - exact IH.
  - apply Forall_map. eapply Forall_impl; [|exact Ha].
    intros b Hb. apply reread_row_le. exact Hb.
Qed.

(** A dated row of a file was written from a row of that date. *)
Lemma written_dated among r d :
  date_of (reread_row among r) = Date d -> date_of r = Date d.
Proof.
  unfold reread_row. simpl. destruct (date_of r); simpl; intros H; try discriminate.
  exact H.
Qed.

Lemma insert_sorted_perm r l : Permutation (insert_sorted r l) (r :: l).
Proof.
  induction l as [|x l IH]; simpl; [reflexivity|].
  destruct (cell_leb (date_of r) (date_of x)); [reflexivity|].
  rewrite IH. apply perm_swap.
Qed.

Lemma sort_dates_perm l : Permutation (sort_dates l) l.
Proof.
  induction l as [|r l IH]; simpl; [reflexivity|].
  rewrite insert_sorted_perm. apply perm_skip, IH.
Qed.

Lemma filter_partition_perm (f : Row -> bool) l :
  Permutation (filter (fun r => negb (f r)) l ++ filter f l) l.
Proof.
  induction l as [|r l IH]; simpl; [reflexivity|].
  destruct (f r); simpl.
  - rewrite <- Permutation_middle. apply perm_skip, IH.
  - apply perm_skip, IH.
Qed.

(** [sort_values] rearranges the rows and loses none. *)
Lemma sort_values_perm l : Permutation (sort_values l) l.
Proof.
  unfold sort_values. rewrite sort_dates_perm.
  apply (filter_partition_perm (fun r => isna (date_of r))).
Qed.

Lemma row_le_trans a b c :
  has_date b -> row_le a b -> row_le b c -> row_le a c.
Proof.
  intros [d Hb]. unfold row_le. rewrite Hb.
  destruct (date_of a), (date_of c); simpl; try tauto; lia.
Qed.

Lemma insert_sorted_ascending r l :
  has_date r -> Forall has_date l -> Ascending l -> Ascending (insert_sorted r l).
Proof.
  intros [d Hr] Hl Hs. unfold Ascending in *.
  induction Hs as [|x l Hs IH Hx]; simpl.
  - repeat constructor.
  - inversion Hl as [|? ? [dx Hdx] Hl']; subst.
    destruct (cell_leb (date_of r) (date_of x)) eqn:E.
    + constructor; [constructor; assumption|].
      assert (Hrx : row_le r x).
      { unfold row_le. rewrite Hr, Hdx. rewrite Hr, Hdx in E. simpl in E. lia. }
      constructor; [exact Hrx|].
      eapply Forall_impl; [|exact Hx].
      intros b Hb. apply (row_le_trans r x b); [exists dx; exact Hdx|exact Hrx|exact Hb].
    + constructor; [apply IH; exact Hl'|].
      eapply Permutation_Forall; [symmetry; apply insert_sorted_perm|].
      constructor; [|exact Hx].
      unfold row_le. rewrite Hr, Hdx. rewrite Hr, Hdx in E. simpl in E. lia.
Qed.

Lemma sort_dates_ascending l :
  Forall has_date l -> Ascending (sort_dates l) /\ Forall has_date (sort_dates l).
Proof.
  induction 1 as [|r l Hr Hl [IH1 IH2]]; simpl.
  - split; constructor.
  - split.
    + apply insert_sorted_ascending; assumption.
    + eapply Permutation_Forall; [symmetry; apply insert_sorted_perm|].
      constructor; assumption.
Qed.

Lemma ascending_app a b :
  Ascending a -> Forall has_date a ->
  Forall (fun r => isna (date_of r) = true) b ->
  Ascending (a ++ b).
Proof.
  unfold Ascending. intros Ha Hd Hb.
  induction Ha as [|x a Ha IH Hx]; simpl.
  - induction Hb as [|y b Hy Hb IHb]; constructor; [exact IHb|].
    eapply Forall_impl; [|exact Hb].
    intros z Hz. cbv beta in Hz. unfold row_le.
    destruct (date_of y); try discriminate; destruct (date_of z); try discriminate; exact I.
  - inversion Hd as [|? ? [dx Hdx] Hd']; subst.
    constructor; [apply IH; exact Hd'|].
    apply Forall_app. split; [exact Hx|].
    eapply Forall_impl; [|exact Hb].
    intros z Hz. cbv beta in Hz. unfold row_le. rewrite Hdx.
    destruct (date_of z); try discriminate; exact I.
Qed.

(** [sort_values] leaves the rows ascending by date, nulls last. *)
Lemma sort_values_ascending l : Forall no_text l -> Ascending (sort_values l).
Proof.
  intros H. unfold sort_values.
  assert (Hd : Forall has_date (filter (fun r => negb (isna (date_of r))) l)).
  { apply Forall_forall. intros r Hr. apply filter_In in Hr as [Hin Hna].
    rewrite Forall_forall in H. specialize (H r Hin).
    unfold no_text in H. unfold has_date.
    destruct (date_of r); simpl in *; try discriminate; try contradiction. eauto. }
  destruct (sort_dates_ascending _ Hd) as [Hs Hd'].
  apply ascending_app; [exact Hs|exact Hd'|].
  apply Forall_forall. intros r Hr. apply filter_In in Hr as [_ Hr]. exact Hr.
Qed.

Lemma existsb_same_cell c l :
  existsb (fun r' => cell_eqb c (date_of r')) l = true <-> In c (map date_of l).
Proof.
  rewrite existsb_exists, in_map_iff. split.
  - intros (r & Hr & E). apply cell_eqb_eq in E. eauto.
  - intros (r & E & Hr). exists r. split; [exact Hr|]. apply cell_eqb_eq. congruence.
Qed.

Lemma drop_duplicates_last_incl l r : In r (drop_duplicates_last l) -> In r l.
Proof.
  induction l as [|x l IH]; simpl; [tauto|].
  destruct (existsb _ l); simpl; intuition.
Qed.

(** No date cell is lost by [drop_duplicates]. *)
Lemma drop_duplicates_last_cells l c :
  In c (map date_of l) -> In c (map date_of (drop_duplicates_last l)).
Proof.
  induction l as [|x l IH]; simpl; [tauto|].
  destruct (existsb _ l) eqn:E; simpl.
  - intros [<-|H]; apply IH; [apply existsb_same_cell; exact E|exact H].
  - intros [H|H]; [left; exact H|right; apply IH; exact H].
Qed.

(** After [drop_duplicates] no two rows have the same date cell. *)
Lemma drop_duplicates_last_nodup l : NoDup (map date_of (drop_duplicates_last l)).
Proof.
  induction l as [|x l IH]; simpl; [constructor|].
  destruct (existsb _ l) eqn:E; simpl; [exact IH|].
  constructor; [|exact IH].
  intros H. apply in_map_iff in H as (r & Hr & Hin).
  apply drop_duplicates_last_incl in Hin.
  assert (existsb (fun r' => cell_eqb (date_of x) (date_of r')) l = true);
    [|congruence].
  apply existsb_same_cell, in_map_iff. eauto.
Qed.

(** [keep='last']: a row that survives and whose date cell occurs in the
    later frame comes from the later frame. *)
Lemma drop_duplicates_last_app a b r :
  In r (drop_duplicates_last (a ++ b)) -> In (date_of r) (map date_of b) -> In r b.
Proof.
  intros Hr Hb. induction a as [|x a IH]; simpl in Hr.
  - apply drop_duplicates_last_incl. exact Hr.
  - destruct (existsb _ (a ++ b)) eqn:E; [apply IH; exact Hr|].
    destruct Hr as [<-|Hr]; [|apply IH; exact Hr].
    assert (existsb (fun r' => cell_eqb (date_of x) (date_of r')) (a ++ b) = true);
      [|congruence].
    apply existsb_same_cell. rewrite map_app. apply in_or_app. right. exact Hb.
Qed.

Lemma in_date_values d l : In d (date_values l) <-> In (Date d) (map date_of l).
Proof.
  induction l as [|r l IH]; simpl; [tauto|].
  destruct (date_of r); simpl; rewrite IH; intuition (try congruence).
Qed.

Lemma nodup_date_values l : NoDup (map date_of l) -> NoDup (date_values l).
Proof.
  induction l as [|r l IH]; simpl; intros H; [constructor|].
  inversion H as [|? ? Hn Hl]; subst.
  destruct (date_of r) eqn:E; try (apply IH; exact Hl).
  constructor; [|apply IH; exact Hl].
  rewrite in_date_values. exact Hn.
Qed.

Lemma date_values_perm l l' :
  Permutation l l' -> Permutation (date_values l) (date_values l').
Proof.
  induction 1 as [|x l l' _ IH|x y l|l l' l'' _ IH1 _ IH2]; simpl.
  - reflexivity.
  - destruct (date_of x); [apply perm_skip|..]; exact IH.
  - destruct (date_of x), (date_of y); try reflexivity. apply perm_swap.
  - etransitivity; eassumption.
Qed.

Lemma concat_no_text cached new_df :
  Forall no_text cached -> Forall no_text (frame_rows new_df) ->
  Forall no_text (concat cached new_df).
Proof.
  intros Hc Hn. destruct new_df as [|ps|rows]; simpl in *.
  - exact Hc.
  - apply Forall_app. split; [exact Hc|].
    apply Forall_map. apply Forall_forall. intros p _. exact I.
  - apply Forall_app. split; assumption.
Qed.

Lemma convert_fetched_no_text fetched new_df :
  convert_fetched fetched = inr new_df -> Forall no_text (frame_rows new_df).
Proof.
  destruct fetched as [|ps|rows]; simpl.
  - intros H. inversion H. constructor.
  - intros H. inversion H. constructor.
  - destruct (to_datetime_col rows) as [rows'|] eqn:E; [|discriminate].
    intros H. inversion H. simpl. eapply to_datetime_col_no_text. exact E.
Qed.

Lemma load_cached_no_text dir cached :
  load_cached dir = Some cached -> Forall no_text cached.
Proof.
  unfold load_cached. destruct (history_data dir) as [f|]; [|discriminate].
  destruct (nonempty f); [|discriminate].
  destruct (read_csv f) as [[| |rows]|]; try discriminate.
  apply to_datetime_col_no_text.
Qed.

(** The merge of lines 205-210 on a loaded cache: one row per date, the
    fetched row on conflict, ascending, and no date lost. *)
Lemma merge_cached cached new_df :
  Forall no_text cached -> Forall no_text (frame_rows new_df) ->
  exists rows,
    merge (Some cached) new_df = Dated rows /\
    NoDup (date_values rows) /\
    Ascending rows /\
    (forall r, In r rows -> In r cached \/ In r (frame_rows new_df) \/ date_of r = NaN) /\
    (forall r d, In r rows -> date_of r = Date d ->
                 In d (date_values (frame_rows new_df)) -> In r (frame_rows new_df)) /\
    (forall d, In d (date_values cached) \/ In d (date_values (frame_rows new_df)) ->
               In d (date_values rows)).
Proof.
  intros Hc Hn. eexists. split; [reflexivity|].
  set (all := concat cached new_df).
  assert (Hp : Permutation (sort_values (drop_duplicates_last all)) (drop_duplicates_last all))
    by apply sort_values_perm.
  split; [|split; [|split; [|split]]].
  - eapply Permutation_NoDup; [symmetry; apply date_values_perm; exact Hp|].
    apply nodup_date_values, drop_duplicates_last_nodup.
  - apply sort_values_ascending.
    apply Forall_forall. intros r Hr. apply drop_duplicates_last_incl in Hr.
    pose proof (concat_no_text _ _ Hc Hn) as H. rewrite Forall_forall in H. apply H, Hr.
  - intros r Hr. apply (Permutation_in _ Hp), drop_duplicates_last_incl in Hr.
    unfold all in Hr. destruct new_df as [|ps|rows]; simpl in *.
    + left. exact Hr.
    + apply in_app_or in Hr as [Hr|Hr]; [left; exact Hr|].
      apply in_map_iff in Hr as (p & <- & _). right. right. reflexivity.
    + apply in_app_or in Hr as [Hr|Hr]; [left|right; left]; exact Hr.
  - intros r d Hr Hd Hin. apply (Permutation_in _ Hp) in Hr.
    unfold all in Hr. destruct new_df as [|ps|rows]; simpl in *; try contradiction.
    apply (drop_duplicates_last_app cached); [exact Hr|].
    rewrite Hd. apply in_date_values. exact Hin.
  - intros d Hd.
    apply (Permutation_in d (date_values_perm _ _ (Permutation_sym Hp))).
    apply in_date_values, drop_duplicates_last_cells, in_date_values.
    unfold all. destruct new_df as [|ps|rows]; simpl in *.
    + destruct Hd as [Hd|[]]. exact Hd.
    + destruct Hd as [Hd|[]].
      apply in_date_values. rewrite map_app. apply in_or_app. left.
      apply in_date_values. exact Hd.
    + apply in_date_values. rewrite map_app. apply in_or_app.
      destruct Hd as [Hd|Hd]; [left|right]; apply in_date_values; exact Hd.
Qed.

(** ** The data directory *)

Lemma files_get_stock_dir (disk : Store) c c' :
  files (_get_stock_dir disk c) c' = files disk c'.
Proof.
  unfold _get_stock_dir, files.
  destruct (disk !! c) eqn:E; [reflexivity|].
  destruct (decide (c = c')) as [<-|Hne].
  - rewrite lookup_insert_eq, E. reflexivity.
  - rewrite lookup_insert_ne by exact Hne. reflexivity.
Qed.

Lemma files_insert (disk : Store) c dir : files (<[c := dir]> disk) c = dir.
Proof. unfold files. rewrite lookup_insert_eq. reflexivity. Qed.

Lemma files_insert_ne (disk : Store) c c' dir :
  c <> c' -> files (<[c := dir]> disk) c' = files disk c'.
Proof. intros H. unfold files. rewrite lookup_insert_ne by exact H. reflexivity. Qed.

Lemma get_stock_dir_present (disk : Store) c :
  files disk c <> empty_dir -> _get_stock_dir disk c = disk.
Proof.
  unfold _get_stock_dir, files. destruct (disk !! c); [reflexivity|].
  intros H. contradiction H. reflexivity.
Qed.

(** [get_stock_history] once the symbol and the dates have parsed. *)
Lemma get_stock_history_read disk symbol code xq start_date end_date rs re adjust ak now :
  _parse_symbol symbol = inr (code, xq) ->
  to_datetime start_date = inr rs ->
  to_datetime end_date = inr re ->
  get_stock_history disk symbol start_date end_date adjust ak now =
  match serve_from_cache (files disk code) (read_coverage (files disk code)) rs re with
  | inl err => mkOutcome (inl err) (_get_stock_dir disk code) []
  | inr (Some df) => mkOutcome (inr df) (_get_stock_dir disk code) []
  | inr None =>
      fetch_and_merge (_get_stock_dir disk code) code (read_coverage (files disk code))
        (load_cached (files disk code)) start_date end_date rs re adjust ak now
  end.
Proof.
  intros H Hs He. unfold get_stock_history. rewrite H. simpl. rewrite Hs, He.
  rewrite files_get_stock_dir. reflexivity.
Qed.

Lemma get_stock_history_parsed disk symbol code xq s e adjust ak now :
  _parse_symbol symbol = inr (code, xq) ->
  get_stock_history disk symbol (Ymd s) (Ymd e) adjust ak now =
  match serve_from_cache (files disk code) (read_coverage (files disk code))
          (PyDate s) (PyDate e) with
  | inl err => mkOutcome (inl err) (_get_stock_dir disk code) []
  | inr (Some df) => mkOutcome (inr df) (_get_stock_dir disk code) []
  | inr None =>
      fetch_and_merge (_get_stock_dir disk code) code (read_coverage (files disk code))
        (load_cached (files disk code)) (Ymd s) (Ymd e) (PyDate s) (PyDate e) adjust ak now
  end.
Proof. intros H. eapply get_stock_history_read; [exact H|reflexivity|reflexivity]. Qed.

(** The files left by [fetch_and_merge]: the table is written when the
    reply could be converted, the metadata when the coverage could be
    computed as well. *)
Lemma fetch_and_merge_files disk code covered cached sd ed rs re adjust ak now c :
  files (disk_after (fetch_and_merge disk code covered cached sd ed rs re adjust ak now)) c
  = match stock_zh_a_hist ak code sd ed adjust with
    | inl _ => files disk c
    | inr fetched =>
        match convert_fetched fetched with
        | inl _ => files disk c
        | inr new_df =>
            if decide (code = c) then
              match new_coverage covered rs re with
              | inl _ => with_history_data (to_csv (merge cached new_df)) (files disk c)
              | inr (ncs, nce) =>
                  with_history_meta (MetaJson (Some ncs) (Some nce) now)
                    (with_history_data (to_csv (merge cached new_df)) (files disk c))
              end
            else files disk c
        end
    end.
Proof.
  unfold fetch_and_merge.
  destruct (stock_zh_a_hist ak code sd ed adjust) as [err|fetched]; [reflexivity|].
  destruct (convert_fetched fetched) as [err|new_df]; [reflexivity|].
  destruct (new_coverage covered rs re) as [err|[ncs nce]].
  - destruct (decide (code = c)) as [<-|Hne]; simpl disk_after;
      rewrite ?files_insert, ?files_insert_ne by exact Hne; reflexivity.
  - destruct (merge cached new_df), (decide (code = c)) as [<-|Hne]; simpl disk_after;
      rewrite ?files_insert, ?files_insert_ne by exact Hne; reflexivity.
Qed.

Lemma fetch_and_merge_returned disk code covered cached sd ed rs re adjust ak now :
  returned (fetch_and_merge disk code covered cached sd ed rs re adjust ak now)
  = match stock_zh_a_hist ak code sd ed adjust with
    | inl err => inl err
    | inr fetched =>
        match convert_fetched fetched with
        | inl err => inl err
        | inr new_df =>
            match new_coverage covered rs re with
            | inl err => inl err
            | inr _ =>
                match merge cached new_df with
                | Dated rows => inr (Dated (filter (in_range rs re) rows))
                | _ => inl (KeyError "日期")
                end
            end
        end
    end.
Proof.
  unfold fetch_and_merge.
  destruct (stock_zh_a_hist ak code sd ed adjust) as [err|fetched]; [reflexivity|].
  destruct (convert_fetched fetched) as [err|new_df]; [reflexivity|].
  destruct (new_coverage covered rs re) as [err|[ncs nce]]; [reflexivity|].
  destruct (merge cached new_df); reflexivity.
Qed.

Lemma fetch_and_merge_calls disk code covered cached sd ed rs re adjust ak now :
  calls (fetch_and_merge disk code covered cached sd ed rs re adjust ak now)
  = [call_hist code sd ed adjust].
Proof.
  unfold fetch_and_merge.
  destruct (stock_zh_a_hist ak code sd ed adjust) as [err|fetched]; [reflexivity|].
  destruct (convert_fetched fetched) as [err|new_df]; [reflexivity|].
  destruct (new_coverage covered rs re) as [err|[ncs nce]]; [reflexivity|].
  destruct (merge cached new_df); reflexivity.
Qed.

(** ** RangeCoverageCache *)

Lemma ascending_filter (f : Row -> bool) l : Ascending l -> Ascending (filter f l).
Proof.
  unfold Ascending. induction 1 as [|x l Hs IH Hx]; simpl; [constructor|].
  destruct (f x); [|exact IH].
  constructor; [exact IH|].
  apply Forall_forall. intros y Hy. apply filter_In in Hy as [Hy _].
  rewrite Forall_forall in Hx. apply Hx, Hy.
Qed.

Lemma no_text_filter (f : Row -> bool) l : Forall no_text l -> Forall no_text (filter f l).
Proof.
  intros H. apply Forall_forall. intros r Hr. apply filter_In in Hr as [Hr _].
  rewrite Forall_forall in H. apply H, Hr.
Qed.

(** *** The coverage read and the coverage test *)

Lemma read_coverage_dated dir a b lu f :
  history_meta dir = Some (MetaJson (Some a) (Some b) lu) ->
  history_data dir = Some f -> nonempty f = true ->
  read_coverage dir = (Some a, Some b).
Proof. intros Hm Hd Hn. unfold read_coverage. rewrite Hm, Hd, Hn. reflexivity. Qed.

(** A coverage is read only from metadata next to a table that is not
    empty. *)
Lemma read_coverage_some dir a b :
  read_coverage dir = (Some a, b) ->
  exists lu f,
    history_meta dir = Some (MetaJson (Some a) b lu) /\
    history_data dir = Some f /\ nonempty f = true.
Proof.
  unfold read_coverage.
  destruct (history_meta dir) as [[|[x|] [y|] lu]|]; try discriminate;
    destruct (history_data dir) as [f|]; try discriminate;
    destruct (nonempty f) eqn:En; try discriminate;
    intros H; inversion H; subst; exists lu, f; repeat split; exact En.
Qed.

Lemma read_coverage_end dir b :
  snd (read_coverage dir) = Some b -> exists a, read_coverage dir = (Some a, Some b).
Proof.
  unfold read_coverage.
  destruct (history_meta dir) as [[|[x|] [y|] lu]|]; try discriminate;
    destruct (history_data dir) as [f|]; try discriminate;
    destruct (nonempty f); try discriminate.
  simpl. intros H. inversion H. eauto.
Qed.

Lemma dated_metadata_read dir :
  dated_metadata dir ->
  fst (read_coverage dir) <> Some PyNaT /\ snd (read_coverage dir) <> Some PyNaT.
Proof.
  unfold dated_metadata, read_coverage.
  destruct (history_meta dir) as [[|[x|] [y|] lu]|];
    destruct (history_data dir) as [f|]; try (split; discriminate);
    destruct (nonempty f); try (split; discriminate);
    intros [H1 H2]; split; simpl; assumption.
Qed.

Lemma covers_true covered rs re :
  covers covered rs re = inr true ->
  exists cs ce s e,
    covered = (Some (PyDate cs), Some (PyDate ce)) /\
    rs = PyDate s /\ re = PyDate e /\ cs <= s /\ e <= ce.
Proof.
  unfold covers. destruct covered as [[[cs|]|] [[ce|]|]]; try discriminate;
    destruct rs as [s|]; try discriminate; simpl;
    try (destruct (cs <=? s) eqn:E1; try discriminate);
    destruct re as [e|]; try discriminate; simpl.
  intros H. inversion H as [E2]. apply Z.leb_le in E1, E2.
  exists cs, ce, s, e. repeat split; assumption.
Qed.

(** The coverage test raises only on a [NaT]. *)
Lemma covers_raises covered rs re err :
  covers covered rs re = inl err ->
  err = cannot_compare /\
  exists a b, covered = (Some a, Some b) /\
    (a = PyNaT \/ b = PyNaT \/ rs = PyNaT \/ re = PyNaT).
Proof.
  unfold covers. destruct covered as [[a|] [b|]]; try discriminate.
  destruct a as [cs|], rs as [s|]; simpl; try discriminate.
  - destruct (cs <=? s); [|discriminate].
    destruct re as [e|], b as [ce|]; simpl; try discriminate;
      intros H; inversion H; split; [reflexivity| |reflexivity|]; eauto 10.
  - intros H; inversion H; split; [reflexivity|]; eauto 10.
  - intros H; inversion H; split; [reflexivity|]; eauto 10.
Qed.

Lemma covers_dated covered s e :
  fst covered <> Some PyNaT -> snd covered <> Some PyNaT ->
  exists b, covers covered (PyDate s) (PyDate e) = inr b.
Proof.
  unfold covers. destruct covered as [[[cs|]|] [[ce|]|]]; simpl; intros H1 H2;
    try congruence; eauto.
  destruct (cs <=? s); eauto.
Qed.

Lemma py_min_dated cs s : py_min (PyDate cs) (PyDate s) = inr (PyDate (Z.min cs s)).
Proof.
  unfold py_min, pydate_lt. destruct (s <? cs) eqn:E.
  - apply Z.ltb_lt in E. rewrite Z.min_r by lia. reflexivity.
  - apply Z.ltb_ge in E. rewrite Z.min_l by lia. reflexivity.
Qed.

Lemma py_max_dated ce e : py_max (PyDate ce) (PyDate e) = inr (PyDate (Z.max ce e)).
Proof.
  unfold py_max, pydate_lt. destruct (ce <? e) eqn:E.
  - apply Z.ltb_lt in E. rewrite Z.max_r by lia. reflexivity.
  - apply Z.ltb_ge in E. rewrite Z.max_l by lia. reflexivity.
Qed.

(** [min] and [max] against a date succeed on dates only. *)
Lemma py_min_inv cs rs m :
  py_min (PyDate cs) rs = inr m -> exists s, rs = PyDate s /\ m = PyDate (Z.min cs s).
Proof.
  destruct rs as [s|]; [|discriminate]. rewrite py_min_dated.
  intros H. inversion H. eauto.
Qed.

Lemma py_max_inv ce re m :
  py_max (PyDate ce) re = inr m -> exists e, re = PyDate e /\ m = PyDate (Z.max ce e).
Proof.
  destruct re as [e|]; [|discriminate]. rewrite py_max_dated.
  intros H. inversion H. eauto.
Qed.

(** With metadata that does not read as [NaT], the coverage of a dated
    request is computed, holds two dates and includes the request. *)
Lemma new_coverage_dated covered s e :
  fst covered <> Some PyNaT -> snd covered <> Some PyNaT ->
  exists ncs nce,
    new_coverage covered (PyDate s) (PyDate e) = inr (PyDate ncs, PyDate nce) /\
    ncs <= s /\ e <= nce.
Proof.
  unfold new_coverage. destruct covered as [[[cs|]|] [[ce|]|]]; simpl; intros H1 H2;
    try congruence; rewrite ?py_min_dated, ?py_max_dated;
    eexists; eexists; (split; [reflexivity|lia]).
Qed.

(** What a full hit has read. *)
Lemma serve_from_cache_inv dir covered rs re df :
  serve_from_cache dir covered rs re = inr (Some df) ->
  exists cs ce s e raw rows,
    covered = (Some (PyDate cs), Some (PyDate ce)) /\
    rs = PyDate s /\ re = PyDate e /\ cs <= s /\ e <= ce /\
    (exists f, history_data dir = Some f /\ read_csv f = Some (Dated raw)) /\
    to_datetime_col raw = Some rows /\
    df = Dated (sort_values (filter (in_range rs re) rows)).
Proof.
  unfold serve_from_cache.
  destruct (covers covered rs re) as [err|[|]] eqn:Ec; try discriminate.
  apply covers_true in Ec as (cs & ce & s & e & -> & -> & -> & Hs & He).
  unfold read_slice.
  destruct (history_data dir) as [f|]; [|discriminate].
  destruct (read_csv f) as [[|ps|raw]|] eqn:Er; try discriminate.
  destruct (to_datetime_col raw) as [rows|] eqn:Ec; [|discriminate].
  intros H. inversion H. exists cs, ce, s, e, raw, rows.
  repeat split; try assumption. exists f. split; [reflexivity|exact Er].
Qed.

(** A full hit needs a table that [load_cached] would load. *)
Lemma serve_needs_cache dir covered rs re df :
  load_cached dir = None -> serve_from_cache dir covered rs re <> inr (Some df).
Proof.
  intros Hl Es.
  apply serve_from_cache_inv in Es
    as (cs & ce & s & e & raw & rows & _ & _ & _ & _ & _ & (f & Hd & Hr) & Hc & _).
  unfold load_cached in Hl.
  rewrite Hd, (read_csv_nonempty _ _ Hr), Hr in Hl. congruence.
Qed.

(** With metadata that does not read as [NaT] and no table to load, a
    dated request goes to the remote source. *)
Lemma serve_dated_miss dir s e :
  dated_metadata dir -> load_cached dir = None ->
  serve_from_cache dir (read_coverage dir) (PyDate s) (PyDate e) = inr None.
Proof.
  intros Hm Hl. destruct (dated_metadata_read _ Hm) as [H1 H2].
  destruct (serve_from_cache dir (read_coverage dir) (PyDate s) (PyDate e))
    as [err|[df|]] eqn:Es; [| |reflexivity].
  - unfold serve_from_cache in Es.
    destruct (covers_dated (read_coverage dir) s e H1 H2) as [b Hb].
    rewrite Hb in Es. destruct b; discriminate.
  - contradiction (serve_needs_cache _ _ _ _ _ Hl Es).
Qed.

(** The full hit of a dated request on dated metadata. *)
Lemma serve_full_hit dir s e cs ce lu f raw rows :
  history_meta dir = Some (MetaJson (Some (PyDate cs)) (Some (PyDate ce)) lu) ->
  history_data dir = Some f ->
  read_csv f = Some (Dated raw) ->
  to_datetime_col raw = Some rows ->
  cs <= s -> e <= ce ->
  serve_from_cache dir (read_coverage dir) (PyDate s) (PyDate e)
  = inr (Some (Dated (sort_values (filter (in_range (PyDate s) (PyDate e)) rows)))).
Proof.
  intros Hm Hd Hr Hc Hs He.
  rewrite (read_coverage_dated _ _ _ _ _ Hm Hd (read_csv_nonempty _ _ Hr)).
  unfold serve_from_cache, covers, read_slice, pydate_le. rewrite Hd, Hr, Hc.
  replace (cs <=? s) with true by (symmetry; apply Z.leb_le; exact Hs).
  replace (e <=? ce) with true by (symmetry; apply Z.leb_le; exact He).
  reflexivity.
Qed.

(** C1. When the stored metadata covers the requested interval
    ([coveredStart <= requestedStart] and [coveredEnd >= requestedEnd]) and
    the persisted table is readable, [get_stock_history] returns the
    persisted rows whose date lies in the interval, ascending, makes no
    remote call and leaves the disk as it was; a second call with the same
    interval therefore makes no remote call either and returns the same
    rows, whatever the remote source would answer.  The persisted rows,
    [raw], are the rows read from the table file; they are the rows
    returned, which all have a date from [s] to [e], together with rows
    that do not. *)
Theorem history_full_hit disk symbol code xq s e adjust ak now cs ce lu f raw rows :
  _parse_symbol symbol = inr (code, xq) ->
  history_meta (files disk code) = Some (MetaJson (Some (PyDate cs)) (Some (PyDate ce)) lu) ->
  history_data (files disk code) = Some f ->
  read_csv f = Some (Dated raw) ->
  to_datetime_col raw = Some rows ->
  cs <= s -> e <= ce ->
  let o := get_stock_history disk symbol (Ymd s) (Ymd e) adjust ak now in
  (exists out dropped,
     returned o = inr (Dated out) /\
     Permutation raw (out ++ dropped) /\
     Forall (dated_within s e) out /\
     Forall (fun r => ~ dated_within s e r) dropped /\
     Ascending out) /\
  calls o = [] /\
  disk_after o = disk /\
  (forall adjust' ak' now',
     get_stock_history (disk_after o) symbol (Ymd s) (Ymd e) adjust' ak' now' = o).
Proof.
  intros Hp Hm Hd Hr Hc Hs He.
  assert (Hdisk : _get_stock_dir disk code = disk).
  { apply get_stock_dir_present. intros E. rewrite E in Hd. discriminate. }
  pose proof (serve_full_hit _ s e _ _ _ _ _ _ Hm Hd Hr Hc Hs He) as Hserve.
  assert (Hcall : forall adjust' ak' now',
            get_stock_history disk symbol (Ymd s) (Ymd e) adjust' ak' now'
            = mkOutcome
                (inr (Dated (sort_values (filter (in_range (PyDate s) (PyDate e)) rows))))
                disk []).
  { intros. rewrite (get_stock_history_parsed _ _ _ _ _ _ _ _ _ Hp), Hserve, Hdisk.
    reflexivity. }
  intros o. unfold o. rewrite Hcall. simpl.
  split; [|split; [reflexivity|split; [reflexivity|intros; apply Hcall]]].
  destruct (slice_partition s e raw
              (sort_values (filter (in_range (PyDate s) (PyDate e)) rows)))
    as (dropped & Hperm & Hin & Hout).
  { rewrite sort_values_perm, (to_datetime_col_slice _ _ _ _ Hc). reflexivity. }
  eexists. exists dropped. split; [reflexivity|].
  split; [exact Hperm|]. split; [exact Hin|]. split; [exact Hout|].
  apply sort_values_ascending, no_text_filter.
  eapply to_datetime_col_no_text. exact Hc.
Qed.

Lemma history_full_hit_witness :
  let o := get_stock_history disk_january "000858.sz" (Ymd 4) (Ymd 4) "qfq" offline 7 in
  ((exists out dropped,
      returned o = inr (Dated out) /\
      Permutation january_read (out ++ dropped) /\
      Forall (dated_within 4 4) out /\
      Forall (fun r => ~ dated_within 4 4 r) dropped /\
      Ascending out) /\
   calls o = [] /\
   disk_after o = disk_january /\
   (forall adjust' ak' now',
      get_stock_history (disk_after o) "000858.sz" (Ymd 4) (Ymd 4) adjust' ak' now' = o)) /\
  returned o = inr (Dated [reread_row (map data january) (mkRow (Date 4) "10.7")]).
Proof.
  split; [|reflexivity].
  apply (history_full_hit disk_january "000858.sz" "000858" "SZ000858" 4 4 "qfq"
           offline 7 1 31 0 (Csv (Dated january)) january_read january_read);
    [reflexivity | reflexivity | reflexivity | reflexivity | reflexivity | lia | lia].
Defined.

(** A call that reached the remote source is the fetch-and-merge path. *)
Lemma history_called disk symbol code xq start_date end_date adjust ak now :
  _parse_symbol symbol = inr (code, xq) ->
  calls (get_stock_history disk symbol start_date end_date adjust ak now) <> [] ->
  exists rs re,
    to_datetime start_date = inr rs /\ to_datetime end_date = inr re /\
    get_stock_history disk symbol start_date end_date adjust ak now =
    fetch_and_merge (_get_stock_dir disk code) code (read_coverage (files disk code))
      (load_cached (files disk code)) start_date end_date rs re adjust ak now.
Proof.
  intros Hp.
  destruct (to_datetime start_date) as [err|rs] eqn:Es.
  { unfold get_stock_history. rewrite Hp. simpl. rewrite Es. simpl.
    intros H. contradiction H. reflexivity. }
  destruct (to_datetime end_date) as [err|re] eqn:Ee.
  { unfold get_stock_history. rewrite Hp. simpl. rewrite Es, Ee. simpl.
    intros H. contradiction H. reflexivity. }
  rewrite (get_stock_history_read _ _ _ _ _ _ _ _ _ _ _ Hp Es Ee).
  destruct (serve_from_cache _ _ rs re) as [err|[df|]];
    try (simpl; intros H; contradiction H; reflexivity).
  intros _. exists rs, re. repeat split.
Qed.

Lemma history_called_dated disk symbol code xq s e adjust ak now :
  _parse_symbol symbol = inr (code, xq) ->
  calls (get_stock_history disk symbol (Ymd s) (Ymd e) adjust ak now) <> [] ->
  get_stock_history disk symbol (Ymd s) (Ymd e) adjust ak now =
  fetch_and_merge (_get_stock_dir disk code) code (read_coverage (files disk code))
    (load_cached (files disk code)) (Ymd s) (Ymd e) (PyDate s) (PyDate e) adjust ak now.
Proof.
  intros Hp Hc.
  destruct (history_called _ _ _ _ _ _ _ _ _ Hp Hc) as (rs & re & Hs & He & E).
  inversion Hs; inversion He; subst. exact E.
Qed.

(** The table persisted by a call that fetched and could convert the reply. *)
Lemma history_persisted disk symbol code xq start_date end_date adjust ak now fetched new_df :
  _parse_symbol symbol = inr (code, xq) ->
  calls (get_stock_history disk symbol start_date end_date adjust ak now) <> [] ->
  stock_zh_a_hist ak code start_date end_date adjust = inr fetched ->
  convert_fetched fetched = inr new_df ->
  history_data
    (files (disk_after (get_stock_history disk symbol start_date end_date adjust ak now)) code)
  = Some (to_csv (merge (load_cached (files disk code)) new_df)).
Proof.
  intros Hp Hcalls Hf Hc.
  destruct (history_called _ _ _ _ _ _ _ _ _ Hp Hcalls) as (rs & re & _ & _ & ->).
  rewrite fetch_and_merge_files, Hf, Hc, files_get_stock_dir.
  destruct (decide (code = code)); [|contradiction].
  destruct (new_coverage _ rs re) as [err|[ncs nce]]; reflexivity.
Qed.

(** C2, as the code has it.  When a cached table was loaded, the table
    persisted after the merge has at most one row per date, keeps the newly
    fetched row for every date that the fetched rows contain, loses no
    date, and is ascending by date.  When no cached table was loaded, the
    fetched table is persisted as the remote source returned it. *)
Theorem history_merge_persisted disk symbol code xq s e adjust ak now fetched new_df :
  _parse_symbol symbol = inr (code, xq) ->
  let o := get_stock_history disk symbol (Ymd s) (Ymd e) adjust ak now in
  calls o <> [] ->
  stock_zh_a_hist ak code (Ymd s) (Ymd e) adjust = inr fetched ->
  convert_fetched fetched = inr new_df ->
  (forall cached,
     load_cached (files disk code) = Some cached ->
     exists rows,
       history_data (files (disk_after o) code) = Some (Csv (Dated rows)) /\
       NoDup (date_values rows) /\
       Ascending rows /\
       (forall r d, In r rows -> date_of r = Date d ->
                    In d (date_values (frame_rows new_df)) -> In r (frame_rows new_df)) /\
       (forall d, In d (date_values cached) \/ In d (date_values (frame_rows new_df)) ->
                  In d (date_values rows))) /\
  (load_cached (files disk code) = None ->
   history_data (files (disk_after o) code) = Some (to_csv new_df)).
Proof.
  intros Hp o Hcalls Hf Hc. unfold o.
  rewrite (history_persisted _ _ _ _ _ _ _ _ _ _ _ Hp Hcalls Hf Hc).
  split.
  - intros cached Hl. rewrite Hl.
    destruct (merge_cached cached new_df) as (rows & Em & Hnd & Has & _ & Hnew & Hall).
    { eapply load_cached_no_text. exact Hl. }
    { eapply convert_fetched_no_text. exact Hc. }
    rewrite Em. exists rows.
    split; [reflexivity|]. split; [exact Hnd|]. split; [exact Has|].
    split; [exact Hnew|exact Hall].
  - intros Hl. rewrite Hl. reflexivity.
Qed.

Lemma history_merge_persisted_witness :
  let o := get_stock_history disk_january "000858.sz" (Ymd 5) (Ymd 40) "qfq"
             (ak_always (inr overlapping_reply)) 7 in
  (forall cached,
     load_cached (files disk_january "000858") = Some cached ->
     exists rows,
       history_data (files (disk_after o) "000858") = Some (Csv (Dated rows)) /\
       NoDup (date_values rows) /\
       Ascending rows /\
       (forall r d, In r rows -> date_of r = Date d ->
                    In d (date_values (frame_rows overlapping_reply)) ->
                    In r (frame_rows overlapping_reply)) /\
       (forall d, In d (date_values cached) \/
                  In d (date_values (frame_rows overlapping_reply)) ->
                  In d (date_values rows))) /\
  (load_cached (files disk_january "000858") = None ->
   history_data (files (disk_after o) "000858") = Some (to_csv overlapping_reply)).
Proof.
  apply (history_merge_persisted disk_january "000858.sz" "000858" "SZ000858" 5 40 "qfq"
           (ak_always (inr overlapping_reply)) 7 overlapping_reply overlapping_reply);
    [reflexivity | vm_compute; discriminate | reflexivity | reflexivity].
Defined.

Example history_merge_january :
  history_data (files (disk_after
    (get_stock_history disk_january "000858.sz" (Ymd 5) (Ymd 40) "qfq"
       (ak_always (inr overlapping_reply)) 7)) "000858")
  = Some (Csv (Dated [reread_row (map data january) (mkRow (Date 3) "10.5");
                      reread_row (map data january) (mkRow (Date 4) "10.7");
                      mkRow (Date 5) "10.9"; mkRow (Date 32) "11.4"])).
Proof. reflexivity. Qed.

(** C2 as stated fails on a first fetch: with nothing cached, a reply with
    a repeated date and out of order is persisted as it came. *)
Lemma history_first_fetch_not_deduplicated :
  let o := get_stock_history ∅ "000858.sz" (Ymd 1) (Ymd 9) "qfq"
             (ak_always (inr disordered_reply)) 7 in
  exists rows,
    history_data (files (disk_after o) "000858") = Some (Csv (Dated rows)) /\
    ~ NoDup (date_values rows) /\
    ~ Ascending rows.
Proof.
  eexists. split; [vm_compute; reflexivity|]. split.
  - simpl. intros H. inversion H as [|? ? Hn _]; subst. apply Hn. simpl. tauto.
  - intros H. inversion H as [|? ? _ Hf]; subst.
    inversion Hf as [|? ? Hle _]; subst. unfold row_le in Hle. simpl in Hle. lia.
Qed.

(** C4, as the code has it.  The rows returned by a successful call are
    exactly the rows of the final table of the call whose date lies in the
    requested interval: the table splits into the rows returned, all of
    them in the interval, and rows that are not in it.  On a full hit the
    final table is the persisted table as read from its file, and the rows
    are returned ascending by date.  After a fetch the final table is the one the call
    persists (the merged table with a loaded cache, the fetched table
    without one) and the rows are returned in the order of that table:
    ascending by date when a cached table was loaded, in the order of the
    remote reply when none was. *)
Theorem history_slice disk symbol code xq s e adjust ak now df :
  _parse_symbol symbol = inr (code, xq) ->
  let o := get_stock_history disk symbol (Ymd s) (Ymd e) adjust ak now in
  returned o = inr df ->
  exists rows table dropped,
    df = Dated rows /\
    Permutation table (rows ++ dropped) /\
    Forall (dated_within s e) rows /\
    Forall (fun r => ~ dated_within s e r) dropped /\
    ((calls o = [] /\
      (exists f raw, history_data (files disk code) = Some f /\
                     read_csv f = Some (Dated raw) /\
                     to_datetime_col raw = Some table) /\
      Ascending rows)
     \/
     (calls o <> [] /\
      history_data (files (disk_after o) code) = Some (to_csv (Dated table)) /\
      sublist rows table /\
      (forall cached, load_cached (files disk code) = Some cached -> Ascending rows) /\
      (load_cached (files disk code) = None ->
       forall fetched,
         stock_zh_a_hist ak code (Ymd s) (Ymd e) adjust = inr fetched ->
         convert_fetched fetched = inr (Dated table)))).
Proof.
  intros Hp o. unfold o. rewrite (get_stock_history_parsed _ _ _ _ _ _ _ _ _ Hp).
  destruct (serve_from_cache _ _ (PyDate s) (PyDate e)) as [err|[df0|]] eqn:Es.
  - discriminate.
  - simpl. intros H. inversion H; subst df0. clear H.
    apply serve_from_cache_inv in Es
      as (cs & ce & s' & e' & raw & rows & _ & _ & _ & _ & _ & (f & Hd & Hr) & Hc & ->).
    destruct (slice_partition s e rows
                (sort_values (filter (in_range (PyDate s) (PyDate e)) rows)))
      as (dropped & Hperm & Hin & Hout); [apply sort_values_perm|].
    exists (sort_values (filter (in_range (PyDate s) (PyDate e)) rows)), rows, dropped.
    split; [reflexivity|]. split; [exact Hperm|]. split; [exact Hin|].
    split; [exact Hout|]. left.
    split; [reflexivity|]. split; [exists f, raw; repeat split; assumption|].
    apply sort_values_ascending, no_text_filter.
    eapply to_datetime_col_no_text. exact Hc.
  - rewrite fetch_and_merge_returned, fetch_and_merge_calls, fetch_and_merge_files,
      files_get_stock_dir.
    destruct (stock_zh_a_hist ak code (Ymd s) (Ymd e) adjust) as [err|fetched];
      [discriminate|].
    destruct (convert_fetched fetched) as [err|new_df] eqn:Ec; [discriminate|].
    destruct (decide (code = code)); [|contradiction].
    destruct (new_coverage _ (PyDate s) (PyDate e)) as [err|[ncs nce]]; [discriminate|].
    destruct (merge (load_cached (files disk code)) new_df) as [|ps|table] eqn:Em;
      try discriminate.
    intros H. inversion H; subst df. clear H.
    destruct (slice_partition s e table (filter (in_range (PyDate s) (PyDate e)) table))
      as (dropped & Hperm & Hin & Hout); [reflexivity|].
    exists (filter (in_range (PyDate s) (PyDate e)) table), table, dropped.
    split; [reflexivity|]. split; [exact Hperm|]. split; [exact Hin|].
    split; [exact Hout|]. right.
    split; [discriminate|]. split; [reflexivity|]. split; [apply filter_sublist|].
    split.
    + intros cached El. rewrite El in Em.
      destruct (merge_cached cached new_df) as (rows' & Em' & _ & Has & _).
      { eapply load_cached_no_text. exact El. }
      { eapply convert_fetched_no_text. exact Ec. }
      rewrite Em in Em'. inversion Em'; subst rows'.
      apply ascending_filter. exact Has.
    + intros El fetched' Hf. inversion Hf; subst fetched'.
      rewrite El in Em. simpl in Em. rewrite Ec, Em. reflexivity.
Qed.

Lemma history_slice_witness :
  let o := get_stock_history disk_january "000858.sz" (Ymd 4) (Ymd 40) "qfq"
             (ak_always (inr wide_reply)) 7 in
  exists rows table dropped,
    Dated [reread_row (map data january) (mkRow (Date 4) "10.7");
           mkRow (Date 5) "10.9"; mkRow (Date 32) "11.4"]
    = Dated rows /\
    Permutation table (rows ++ dropped) /\
    Forall (dated_within 4 40) rows /\
    Forall (fun r => ~ dated_within 4 40 r) dropped /\
    ((calls o = [] /\
      (exists f raw, history_data (files disk_january "000858") = Some f /\
                     read_csv f = Some (Dated raw) /\
                     to_datetime_col raw = Some table) /\
      Ascending rows)
     \/
     (calls o <> [] /\
      history_data (files (disk_after o) "000858") = Some (to_csv (Dated table)) /\
      sublist rows table /\
      (forall cached, load_cached (files disk_january "000858") = Some cached ->
                      Ascending rows) /\
      (load_cached (files disk_january "000858") = None ->
       forall fetched,
         stock_zh_a_hist (ak_always (inr wide_reply)) "000858" (Ymd 4) (Ymd 40) "qfq"
         = inr fetched ->
         convert_fetched fetched = inr (Dated table)))).
Proof.
  apply (history_slice disk_january "000858.sz" "000858" "SZ000858" 4 40 "qfq"
           (ak_always (inr wide_reply)) 7); reflexivity.
Defined.

(** C4 as stated fails on a first fetch: with nothing cached the rows are
    returned in the order of the reply, here not ascending. *)
Lemma history_first_fetch_not_ascending :
  let o := get_stock_history ∅ "000858.sz" (Ymd 1) (Ymd 9) "qfq"
             (ak_always (inr disordered_reply)) 7 in
  exists rows, returned o = inr (Dated rows) /\ ~ Ascending rows.
Proof.
  eexists. split; [vm_compute; reflexivity|].
  intros H. inversion H as [|? ? _ Hf]; subst.
  inversion Hf as [|? ? Hle _]; subst. unfold row_le in Hle. simpl in Hle. lia.
Qed.

(** C5. When the remote fetch made by [get_stock_history] raises, the call
    raises that same exception, and every file on disk, the history table
    and its metadata among them, is as it was before the call. *)
Theorem history_fetch_error disk symbol code xq start_date end_date adjust ak now err :
  _parse_symbol symbol = inr (code, xq) ->
  let o := get_stock_history disk symbol start_date end_date adjust ak now in
  calls o <> [] ->
  stock_zh_a_hist ak code start_date end_date adjust = inl err ->
  returned o = inl err /\
  (forall c, files (disk_after o) c = files disk c).
Proof.
  intros Hp o. unfold o. intros Hcalls Hf.
  destruct (history_called _ _ _ _ _ _ _ _ _ Hp Hcalls) as (rs & re & _ & _ & ->).
  split.
  - rewrite fetch_and_merge_returned, Hf. reflexivity.
  - intros c. rewrite fetch_and_merge_files, Hf. apply files_get_stock_dir.
Qed.

Lemma history_fetch_error_witness :
  let o := get_stock_history disk_january "000858.sz" (Ymd 5) (Ymd 40) "qfq" offline 7 in
  returned o = inl (ProviderError "Connection aborted") /\
  (forall c, files (disk_after o) c = files disk_january c).
Proof.
  apply (history_fetch_error disk_january "000858.sz" "000858" "SZ000858"
           (Ymd 5) (Ymd 40) "qfq" offline 7 (ProviderError "Connection aborted"));
    [reflexivity | vm_compute; discriminate | reflexivity].
Defined.

(** C7, as the code has it.  [get_stock_history] does not compare the two
    ends of the request.  With [requestedStart > requestedEnd] it either
    serves the request from the cache (an empty table, no remote call, no
    file changed), or calls the remote fetch with the interval as given,
    and whenever it then succeeds it returns an empty table; or, where a
    value of the stored metadata reads as [NaT], it raises the [TypeError]
    of the coverage test of line 155, without a remote call and with no
    file changed. *)
Theorem history_inverted_range disk symbol code xq s e adjust ak now :
  _parse_symbol symbol = inr (code, xq) ->
  e < s ->
  let o := get_stock_history disk symbol (Ymd s) (Ymd e) adjust ak now in
  (returned o = inr (Dated []) /\ calls o = [] /\
   forall c, files (disk_after o) c = files disk c)
  \/
  (calls o = [call_hist code (Ymd s) (Ymd e) adjust] /\
   forall df, returned o = inr df -> df = Dated [])
  \/
  (returned o = inl cannot_compare /\ calls o = [] /\
   (forall c, files (disk_after o) c = files disk c) /\
   nat_metadata (files disk code)).
Proof.
  intros Hp Hse o. unfold o.
  rewrite (get_stock_history_parsed _ _ _ _ _ _ _ _ _ Hp).
  destruct (serve_from_cache _ _ (PyDate s) (PyDate e)) as [err|[df0|]] eqn:Es.
  - right. right. unfold serve_from_cache in Es.
    destruct (covers _ (PyDate s) (PyDate e)) as [err'|[|]] eqn:Ec; try discriminate.
    inversion Es; subst err'. clear Es.
    apply covers_raises in Ec as (-> & a & b & Hcov & Hnat).
    simpl. split; [reflexivity|]. split; [reflexivity|].
    split; [intros c; apply files_get_stock_dir|].
    apply read_coverage_some in Hcov as (lu & f & Hm & _ & _).
    exists (Some a), (Some b), lu. split; [exact Hm|].
    destruct Hnat as [->|[->|[H|H]]]; try discriminate; [left|right]; reflexivity.
  - left.
    apply serve_from_cache_inv in Es
      as (cs & ce & s' & e' & raw & rows & _ & _ & _ & _ & _ & _ & _ & ->).
    rewrite (filter_in_range_inverted _ _ _ Hse). simpl.
    repeat split. intros c. apply files_get_stock_dir.
  - right. left. rewrite fetch_and_merge_calls, fetch_and_merge_returned.
    split; [reflexivity|]. intros df.
    destruct (stock_zh_a_hist ak code (Ymd s) (Ymd e) adjust) as [err|fetched];
      [discriminate|].
    destruct (convert_fetched fetched) as [err|new_df]; [discriminate|].
    destruct (new_coverage _ (PyDate s) (PyDate e)) as [err|[ncs nce]]; [discriminate|].
    destruct (merge _ new_df) as [|ps|rows]; try discriminate.
    rewrite (filter_in_range_inverted _ _ _ Hse). intros H. inversion H. reflexivity.
Qed.

Lemma history_inverted_range_witness :
  let o := get_stock_history disk_january "000858.sz" (Ymd 9) (Ymd 2) "qfq" offline 7 in
  (returned o = inr (Dated []) /\ calls o = [] /\
   forall c, files (disk_after o) c = files disk_january c)
  \/
  (calls o = [call_hist "000858" (Ymd 9) (Ymd 2) "qfq"] /\
   forall df, returned o = inr df -> df = Dated [])
  \/
  (returned o = inl cannot_compare /\ calls o = [] /\
   (forall c, files (disk_after o) c = files disk_january c) /\
   nat_metadata (files disk_january "000858")).
Proof.
  apply (history_inverted_range disk_january "000858.sz" "000858" "SZ000858" 9 2 "qfq"
           offline 7); [reflexivity | lia].
Defined.

(** C7 as stated fails: a request whose start lies after its end is not
    rejected.  Where the stored coverage spans both ends, the call succeeds
    and returns an empty table. *)
Lemma history_inverted_range_not_rejected :
  let o := get_stock_history disk_january "000858.sz" (Ymd 9) (Ymd 2) "qfq" offline 7 in
  ~ rejected disk_january o /\
  returned o = inr (Dated []).
Proof.
  split; [|reflexivity].
  intros ([err H] & _). vm_compute in H. discriminate.
Qed.

(** On a fresh directory the inverted interval goes to the remote source;
    when that answers with an empty frame, the frame and a coverage from
    day 9 to day 2 are written before the missing date column is met. *)
Example inverted_range_on_fresh_directory :
  let o := get_stock_history ∅ "000858.sz" (Ymd 9) (Ymd 2) "qfq"
             (ak_always (inr NoColumns)) 7 in
  returned o = inl (KeyError "日期") /\
  calls o = [call_hist "000858" (Ymd 9) (Ymd 2) "qfq"] /\
  history_data (files (disk_after o) "000858") = Some (Csv NoColumns) /\
  coverage (files (disk_after o) "000858") = Some (9, 2).
Proof. repeat split; reflexivity. Qed.

(** Next to metadata that reads as [NaT] every dated request raises at the
    coverage test, the inverted ones among them: nothing is fetched and
    nothing is returned. *)
Example inverted_range_on_nat_metadata :
  let o := get_stock_history disk_nat "000858.sz" (Ymd 9) (Ymd 2) "qfq"
             (ak_always (inr (Dated january))) 7 in
  returned o = inl cannot_compare /\ calls o = [] /\ disk_after o = disk_nat.
Proof. repeat split; reflexivity. Qed.

(** Such metadata is what the provider itself writes when it is called with
    two empty date strings on a fresh directory: the call fetches, returns
    no row, and leaves [NaT] as both ends of the coverage. *)
Example blank_dates_on_fresh_directory :
  let o := get_stock_history ∅ "000858.sz" Blank Blank "qfq"
             (ak_always (inr (Dated january))) 7 in
  returned o = inr (Dated []) /\
  calls o = [call_hist "000858" Blank Blank "qfq"] /\
  history_meta (files (disk_after o) "000858")
  = Some (MetaJson (Some PyNaT) (Some PyNaT) 7) /\
  history_data (files (disk_after o) "000858") = Some (to_csv (Dated january)).
Proof. repeat split; reflexivity. Qed.

(** *** Coverage *)

Lemma nonempty_to_csv df : nonempty (to_csv df) = true.
Proof. destruct df; reflexivity. Qed.

(** The files of any directory after any call: untouched; or the table
    rewritten beside the old metadata, when the coverage could not be
    computed; or the table and the metadata both rewritten, the coverage
    computed from the one read and the request. *)
Lemma get_stock_history_files disk symbol start_date end_date adjust ak now c :
  let o := get_stock_history disk symbol start_date end_date adjust ak now in
  files (disk_after o) c = files disk c \/
  (exists rs re f err,
     nonempty f = true /\
     new_coverage (read_coverage (files disk c)) rs re = inl err /\
     files (disk_after o) c = with_history_data f (files disk c)) \/
  (exists rs re ncs nce f,
     nonempty f = true /\
     to_datetime start_date = inr rs /\ to_datetime end_date = inr re /\
     new_coverage (read_coverage (files disk c)) rs re = inr (ncs, nce) /\
     files (disk_after o) c =
     with_history_meta (MetaJson (Some ncs) (Some nce) now)
       (with_history_data f (files disk c))).
Proof.
  intros o. unfold o, get_stock_history.
  destruct (_parse_symbol symbol) as [err|[code xq]]; [left; reflexivity|].
  simpl.
  destruct (to_datetime start_date) as [err|rs] eqn:Hs; simpl;
    [left; apply files_get_stock_dir|].
  destruct (to_datetime end_date) as [err|re] eqn:He; simpl;
    [left; apply files_get_stock_dir|].
  rewrite files_get_stock_dir.
  destruct (serve_from_cache _ _ rs re) as [err|[df|]];
    [left; apply files_get_stock_dir|left; apply files_get_stock_dir|].
  rewrite fetch_and_merge_files, files_get_stock_dir.
  destruct (stock_zh_a_hist ak code start_date end_date adjust) as [err|fetched];
    [left; reflexivity|].
  destruct (convert_fetched fetched) as [err|new_df]; [left; reflexivity|].
  destruct (decide (code = c)) as [<-|Hne]; [|left; reflexivity].
  right.
  destruct (new_coverage (read_coverage (files disk code)) rs re) as [err|[ncs nce]] eqn:En.
  - left. exists rs, re, (to_csv (merge (load_cached (files disk code)) new_df)), err.
    split; [apply nonempty_to_csv|]. split; [exact En|reflexivity].
  - right. exists rs, re, ncs, nce, (to_csv (merge (load_cached (files disk code)) new_df)).
    split; [apply nonempty_to_csv|]. repeat split; assumption.
Qed.

Lemma consistent_empty : consistent ∅.
Proof. intros symbol. unfold files. rewrite lookup_empty. exact I. Qed.

Lemma read_coverage_consistent dir cs ce :
  consistent_dir dir -> coverage dir = Some (cs, ce) ->
  read_coverage dir = (Some (PyDate cs), Some (PyDate ce)).
Proof.
  unfold consistent_dir, coverage, read_coverage.
  destruct (history_meta dir) as [[|[[a|]|] [[b|]|] lu]|]; try discriminate.
  destruct (history_data dir) as [f|]; [|contradiction].
  intros -> H. inversion H. reflexivity.
Qed.

(** Every call keeps the disk consistent. *)
Lemma history_step_consistent disk c : consistent disk -> consistent (history_step disk c).
Proof.
  intros H symbol. unfold history_step.
  destruct (get_stock_history_files disk (call_symbol c) (call_start c) (call_end c)
              (call_adjust c) (call_ak c) (call_now c) symbol)
    as [E|[(rs & re & f & err & Hf & _ & E)|(rs & re & ncs & nce & f & Hf & _ & _ & _ & E)]];
    rewrite E; [apply H| |].
  - specialize (H symbol). unfold consistent_dir in *. simpl.
    destruct (history_meta (files disk symbol)) as [[|[a|] [b|] lu]|]; try contradiction;
      try exact I.
    exact Hf.
  - unfold consistent_dir. simpl. exact Hf.
Qed.

Lemma history_run_consistent disk cs : consistent disk -> consistent (history_run disk cs).
Proof.
  revert disk. induction cs as [|c cs IH]; simpl; intros disk H; [exact H|].
  apply IH, history_step_consistent, H.
Qed.

(** One call never shrinks the coverage of any stock. *)
Lemma history_step_monotone disk c symbol cs ce :
  consistent disk ->
  coverage (files disk symbol) = Some (cs, ce) ->
  exists cs' ce',
    coverage (files (history_step disk c) symbol) = Some (cs', ce') /\
    cs' <= cs /\ ce <= ce'.
Proof.
  intros H Hc. unfold history_step.
  destruct (get_stock_history_files disk (call_symbol c) (call_start c) (call_end c)
              (call_adjust c) (call_ak c) (call_now c) symbol)
    as [E|[(rs & re & f & err & Hf & _ & E)|(rs & re & ncs & nce & f & Hf & _ & _ & En & E)]];
    rewrite E.
  - exists cs, ce. split; [exact Hc|lia].
  - exists cs, ce. split; [exact Hc|lia].
  - rewrite (read_coverage_consistent _ _ _ (H symbol) Hc) in En.
    unfold new_coverage in En. simpl in En.
    destruct (py_min (PyDate cs) rs) as [err|m] eqn:Emin; [discriminate|].
    destruct (py_max (PyDate ce) re) as [err|M] eqn:Emax; [discriminate|].
    inversion En; subst m M.
    apply py_min_inv in Emin as (s & _ & ->).
    apply py_max_inv in Emax as (e & _ & ->).
    exists (Z.min cs s), (Z.max ce e). split; [reflexivity|lia].
Qed.

(** C3. Along any sequence of [get_stock_history] calls, for any stocks and
    with any answers of the remote source, started from a disk the
    provider left consistent (a fresh one, for instance): once a coverage
    is persisted for a stock, every later persisted coverage of that stock
    starts no later and ends no earlier. *)
Theorem coverage_monotone disk before after symbol cs ce :
  consistent disk ->
  let earlier := history_run disk before in
  let later := history_run earlier after in
  coverage (files earlier symbol) = Some (cs, ce) ->
  exists cs' ce',
    coverage (files later symbol) = Some (cs', ce') /\
    cs' <= cs /\ ce <= ce'.
Proof.
  intros H earlier later. unfold later.
  assert (He : consistent earlier) by (apply history_run_consistent, H).
  clearbody earlier. clear later H disk before.
  revert earlier cs ce He. induction after as [|c after IH]; simpl; intros disk cs ce H Hc.
  - exists cs, ce. split; [exact Hc|lia].
  - destruct (history_step_monotone disk c symbol cs ce H Hc) as (cs1 & ce1 & Hc1 & ? & ?).
    destruct (IH (history_step disk c) cs1 ce1 (history_step_consistent _ _ H) Hc1)
      as (cs2 & ce2 & Hc2 & ? & ?).
    exists cs2, ce2. split; [exact Hc2|lia].
Qed.

Lemma coverage_monotone_witness :
  exists cs' ce',
    coverage (files (history_run (history_run ∅ [first_call]) [later_call]) "000858")
    = Some (cs', ce') /\
    cs' <= 1 /\ 31 <= ce'.
Proof.
  apply (coverage_monotone ∅ [first_call] [later_call] "000858" 1 31);
    [apply consistent_empty | reflexivity].
Defined.

Example coverage_after_two_calls :
  coverage (files (history_run ∅ [first_call; later_call]) "000858") = Some (1, 50).
Proof. reflexivity. Qed.

(** A request with an empty date string does not shrink a dated coverage
    either: it raises at the coverage test and writes nothing. *)
Example coverage_kept_on_blank_request :
  let o := get_stock_history disk_january "000858.sz" Blank (Ymd 40) "qfq"
             (ak_always (inr (Dated january))) 7 in
  returned o = inl cannot_compare /\ calls o = [] /\ disk_after o = disk_january.
Proof. repeat split; reflexivity. Qed.

(** The scenario of the specification: a first range is fetched, a range
    inside it is served from the cache, a later range is fetched and the
    coverage then spans both.  The rows served from the cache are rows of
    the file: their dates are those fetched, their other cells are what
    [read_csv] makes of them. *)
Example three_requests :
  let o1 := get_stock_history ∅ "000858.sz" (Ymd 1) (Ymd 31) "qfq"
              (ak_always (inr (Dated january))) 7 in
  let o2 := get_stock_history (disk_after o1) "000858.sz" (Ymd 4) (Ymd 5) "qfq" offline 8 in
  let o3 := get_stock_history (disk_after o2) "000858.sz" (Ymd 32) (Ymd 41) "qfq"
              (ak_always (inr (Dated [mkRow (Date 33) "11.0"]))) 9 in
  calls o1 = [call_hist "000858" (Ymd 1) (Ymd 31) "qfq"] /\
  coverage (files (disk_after o1) "000858") = Some (1, 31) /\
  calls o2 = [] /\
  (exists rows, returned o2 = inr (Dated rows) /\ date_values rows = [4; 5]) /\
  calls o3 = [call_hist "000858" (Ymd 32) (Ymd 41) "qfq"] /\
  coverage (files (disk_after o3) "000858") = Some (1, 41).
Proof.
  split; [reflexivity|]. split; [reflexivity|]. split; [reflexivity|].
  split; [eexists; split; reflexivity|]. split; reflexivity.
Qed.

(** *** A cache that cannot be read *)

Lemma files_empty c : files ∅ c = empty_dir.
Proof. unfold files. rewrite lookup_empty. reflexivity. Qed.

(** With a table file that is empty, unreadable or without the date column,
    next to metadata that does not read as [NaT], the call fetches the
    requested interval, returns what a first call on a fresh directory
    returns, and persists the fetched table unmerged. *)
Lemma history_unreadable_cache disk symbol code xq s e adjust ak now :
  _parse_symbol symbol = inr (code, xq) ->
  dated_metadata (files disk code) ->
  load_cached (files disk code) = None ->
  let o := get_stock_history disk symbol (Ymd s) (Ymd e) adjust ak now in
  let first := get_stock_history ∅ symbol (Ymd s) (Ymd e) adjust ak now in
  calls o = [call_hist code (Ymd s) (Ymd e) adjust] /\
  calls o = calls first /\
  returned o = returned first /\
  (forall fetched new_df,
     stock_zh_a_hist ak code (Ymd s) (Ymd e) adjust = inr fetched ->
     convert_fetched fetched = inr new_df ->
     history_data (files (disk_after o) code) = Some (to_csv new_df) /\
     history_data (files (disk_after first) code) = Some (to_csv new_df)).
Proof.
  intros Hp Hm Hl o first. unfold o, first.
  rewrite !(get_stock_history_parsed _ _ _ _ _ _ _ _ _ Hp).
  rewrite (serve_dated_miss _ _ _ Hm Hl), files_empty.
  change (serve_from_cache empty_dir (read_coverage empty_dir) (PyDate s) (PyDate e))
    with (@inr exn (option DataFrame) None).
  change (load_cached empty_dir) with (@None (list Row)).
  rewrite !fetch_and_merge_calls, !fetch_and_merge_returned, Hl.
  destruct (dated_metadata_read _ Hm) as [H1 H2].
  destruct (new_coverage_dated (read_coverage (files disk code)) s e H1 H2)
    as (ncs & nce & En & _).
  rewrite En.
  change (new_coverage (read_coverage empty_dir) (PyDate s) (PyDate e))
    with (@inr exn (pydate * pydate) (PyDate s, PyDate e)).
  split; [reflexivity|]. split; [reflexivity|]. split; [reflexivity|].
  intros fetched new_df Hf Hc.
  rewrite !fetch_and_merge_files, Hf, Hc.
  destruct (decide (code = code)); [|contradiction].
  rewrite En. split; reflexivity.
Qed.

(** With a table file of size 0 the metadata is not read, and the metadata
    written is that of a first call: the requested interval. *)
Lemma history_empty_table_fresh_metadata disk symbol code xq s e adjust ak now
      fetched new_df :
  _parse_symbol symbol = inr (code, xq) ->
  history_data (files disk code) = Some EmptyFile ->
  stock_zh_a_hist ak code (Ymd s) (Ymd e) adjust = inr fetched ->
  convert_fetched fetched = inr new_df ->
  history_meta (files (disk_after
     (get_stock_history disk symbol (Ymd s) (Ymd e) adjust ak now)) code)
  = Some (MetaJson (Some (PyDate s)) (Some (PyDate e)) now).
Proof.
  intros Hp Hd Hf Hc.
  assert (Hr : read_coverage (files disk code) = (None, None)).
  { unfold read_coverage. rewrite Hd. destruct (history_meta (files disk code)); reflexivity. }
  rewrite (get_stock_history_parsed _ _ _ _ _ _ _ _ _ Hp), Hr.
  change (serve_from_cache (files disk code) (None, None) (PyDate s) (PyDate e))
    with (@inr exn (option DataFrame) None).
  cbv iota. rewrite fetch_and_merge_files, Hf, Hc.
  destruct (decide (code = code)); [reflexivity|contradiction].
Qed.

Example history_truncated_table_resets_coverage :
  coverage (files (disk_after
    (get_stock_history disk_truncated "000858.sz" (Ymd 12) (Ymd 15) "qfq"
       (ak_always (inr mid_reply)) 7)) "000858") = Some (12, 15).
Proof. reflexivity. Qed.

(** C6 at a table that cannot be parsed.  The call fetches and persists the
    reply unmerged, as a first call does, but the metadata it writes is
    not that of a first call: the coverage read next to the unreadable
    table is kept, so the days 10 and 11 are later served from the cache,
    as an empty table, without a fetch. *)
Theorem history_unreadable_table_keeps_coverage :
  let ak := ak_always (inr mid_reply) in
  let o := get_stock_history disk_garbled "000858.sz" (Ymd 12) (Ymd 15) "qfq" ak 7 in
  let first := get_stock_history ∅ "000858.sz" (Ymd 12) (Ymd 15) "qfq" ak 7 in
  let again :=
    get_stock_history (disk_after o) "000858.sz" (Ymd 10) (Ymd 11) "qfq" offline 8 in
  returned o = returned first /\
  calls o = calls first /\
  history_data (files (disk_after o) "000858")
  = history_data (files (disk_after first) "000858") /\
  coverage (files (disk_after first) "000858") = Some (12, 15) /\
  coverage (files (disk_after o) "000858") = Some (10, 20) /\
  returned again = inr (Dated []) /\
  calls again = [].
Proof. vm_compute. repeat split. Qed.

(** ** SnapshotCache *)

Example dividends_filtered :
  returned (get_stock_dividend_info disk_dividends "000858.sz" (Some (Ymd 200)) None
              false offline)
  = inr (Dated [reread_row (map data dividends) (mkRow (Date 465) "10 pai 30")]).
Proof. reflexivity. Qed.

Example dividends_bad_bound :
  returned (get_stock_dividend_info disk_dividends "000858.sz"
              (Some (Malformed "soon")) None false offline)
  = inr (Dated (coerce_col dividends_read)).
Proof. reflexivity. Qed.

(** Closes the three facts of a call served from the cache. *)
Ltac served_from_cache :=
  simpl; split; [reflexivity|split; [reflexivity|intros ?; apply files_get_stock_dir]].

(** C8. For each snapshot operation (dividends, research reports,
    institute recommendations, valuation series, financial reports): when
    no refresh is forced and a table is stored, that table is what the
    caller gets, filtered in memory when dates are asked for, no remote
    call is made and no file changes; and, forced or not, a date filter
    changes neither the files left on disk nor the remote calls made, only
    the rows handed to the caller. *)
Theorem snapshot_cache_frame op disk symbol code xq ak :
  _parse_symbol symbol = inr (code, xq) ->
  (forall df,
     stored_table op (files disk code) = Some df ->
     let o := run_snapshot op disk symbol false ak in
     returned o = inr (client_view op df) /\
     calls o = [] /\
     (forall c, files (disk_after o) c = files disk c)) /\
  (forall force,
     let o := run_snapshot op disk symbol force ak in
     let plain := run_snapshot (unfiltered op) disk symbol force ak in
     disk_after o = disk_after plain /\
     calls o = calls plain /\
     returned o = match returned plain with
                  | inr df => inr (client_view op df)
                  | inl err => inl err
                  end).
Proof.
  intros Hp. split.
  - intros df Hs o. unfold o. clear o. unfold stored_table in Hs.
    destruct op as [sd ed|sd ed| |ind per|rt]; simpl in Hs |- *.
    + unfold get_stock_dividend_info, load_snapshot. rewrite Hp. simpl.
      rewrite files_get_stock_dir.
      destruct (dividend_info (files disk code)) as [f|]; [|discriminate].
      destruct (read_csv f) as [[|ps|rows]|]; inversion Hs; subst; served_from_cache.
    + unfold get_stock_research_report, load_snapshot. rewrite Hp. simpl.
      rewrite files_get_stock_dir.
      destruct (research_report (files disk code)) as [f|]; [|discriminate].
      destruct (read_csv f) as [[|ps|rows]|]; inversion Hs; subst; served_from_cache.
    + unfold get_stock_institute_recommendations, load_snapshot. rewrite Hp. simpl.
      rewrite files_get_stock_dir.
      destruct (institute_recommendations (files disk code)) as [f|]; [|discriminate].
      destruct (read_csv f) as [[|ps|rows]|]; inversion Hs; subst; served_from_cache.
    + unfold get_stock_valuation, load_valuation, load_snapshot. rewrite Hp. simpl.
      rewrite files_get_stock_dir.
      destruct (valuation (files disk code) !! safe_indicator ind) as [f|];
        [|discriminate].
      destruct (read_csv f) as [[|ps|rows]|]; try discriminate;
        try (inversion Hs; subst; served_from_cache).
      destruct (to_datetime_col rows) as [rows'|]; [|discriminate].
      inversion Hs; subst. served_from_cache.
    + unfold get_stock_financial_report, load_snapshot. rewrite Hp. simpl.
      rewrite files_get_stock_dir.
      destruct (financial (files disk code) !! PyStr.replace " " "_" rt) as [f|];
        [|discriminate].
      destruct (read_csv f) as [[|ps|rows]|]; inversion Hs; subst; served_from_cache.
  - intros force o plain. unfold o, plain. clear o plain.
    destruct op as [sd ed|sd ed| |ind per|rt]; simpl.
    + unfold get_stock_dividend_info. rewrite Hp. simpl.
      destruct (load_snapshot force _) as [df|]; [repeat split|].
      destruct (stock_fhps_detail_em ak code) as [err|df]; repeat split.
    + unfold get_stock_research_report. rewrite Hp. simpl.
      destruct (load_snapshot force _) as [df|]; [repeat split|].
      destruct (stock_research_report_em ak code) as [err|df]; repeat split.
    + destruct (returned _); repeat split.
    + destruct (returned _); repeat split.
    + destruct (returned _); repeat split.
Qed.

Lemma snapshot_cache_frame_witness :
  let o := run_snapshot (Dividend (Some (Ymd 200)) None) disk_dividends "000858.sz"
             false offline in
  returned o = inr (Dated [reread_row (map data dividends) (mkRow (Date 465) "10 pai 30")]) /\
  calls o = [] /\
  (forall c, files (disk_after o) c = files disk_dividends c).
Proof.
  apply (proj1 (snapshot_cache_frame (Dividend (Some (Ymd 200)) None) disk_dividends
                  "000858.sz" "000858" "SZ000858" offline eq_refl) (Dated dividends_read)).
  reflexivity.
Defined.

Lemma startswith_prefix p s :
  PyStr.startswith p s = true <-> exists after, s = (p ++ after)%string.
Proof.
  revert s. induction p as [|a p IH]; intros s; simpl.
  - split; [intros _; exists s; reflexivity | reflexivity].
  - destruct s as [|b s]; simpl.
    + split; [discriminate | intros [after H]; discriminate].
    + rewrite andb_true_iff, IH. split.
      * intros [E [after ->]]. apply Ascii.eqb_eq in E. subst. exists after. reflexivity.
      * intros [after H]. inversion H; subst. split; [apply Ascii.eqb_refl | eauto].
Qed.

(** [p in s] holds exactly when [s] is some text, then [p], then some text. *)
Lemma contains_occurs p s : PyStr.contains p s = true <-> occurs_in p s.
Proof.
  unfold occurs_in. induction s as [|c s IH]; simpl.
  - rewrite orb_false_r, startswith_prefix. split.
    + intros [after H]. exists EmptyString, after. exact H.
    + intros (before & after & H). destruct before; simpl in H; [eauto|discriminate].
  - rewrite orb_true_iff, startswith_prefix, IH. split.
    + intros [[after H]|(before & after & H)].
      * exists EmptyString, after. exact H.
      * exists (String c before), after. simpl. rewrite H. reflexivity.
    + intros (before & after & H). destruct before as [|d before]; simpl in H.
      * left. eauto.
      * right. inversion H. eauto.
Qed.

(** C10. When the remote fetch made by
    [get_stock_institute_recommendations] raises, no file changes; if the
    message of the exception contains "Empty DataFrame" or "No tables
    found", an empty table is returned; any other exception is raised to
    the caller as it is. *)
Theorem institute_fetch_error disk symbol code xq force ak err :
  _parse_symbol symbol = inr (code, xq) ->
  let o := get_stock_institute_recommendations disk symbol force ak in
  calls o <> [] ->
  stock_institute_recommend_detail ak (PyStr.lower xq) = inl err ->
  (forall c, files (disk_after o) c = files disk c) /\
  (occurs_in "Empty DataFrame" (str err) \/ occurs_in "No tables found" (str err) ->
   returned o = inr NoColumns) /\
  (~ occurs_in "Empty DataFrame" (str err) -> ~ occurs_in "No tables found" (str err) ->
   returned o = inl err).
Proof.
  intros Hp o. unfold o, get_stock_institute_recommendations. rewrite Hp. simpl.
  destruct (load_snapshot force _) as [df|].
  - simpl. intros H. contradiction H. reflexivity.
  - intros _ Hf. rewrite Hf.
    destruct (PyStr.contains "Empty DataFrame" (str err)) eqn:E1;
      [|destruct (PyStr.contains "No tables found" (str err)) eqn:E2]; simpl;
      (split; [intros c; apply files_get_stock_dir|]); split;
      try (intros; reflexivity).
    + intros H. contradiction H. apply contains_occurs. exact E1.
    + intros _ H. contradiction H. apply contains_occurs. exact E2.
    + intros [H|H]; apply contains_occurs in H; congruence.
Qed.

Lemma institute_fetch_error_witness :
  (let o := get_stock_institute_recommendations disk_january "000858.sz" false
              (ak_always (inl (ValueError "lxml: No tables found"))) in
   (forall c, files (disk_after o) c = files disk_january c) /\
   returned o = inr NoColumns) /\
  (let o := get_stock_institute_recommendations disk_january "000858.sz" false offline in
   returned o = inl (ProviderError "Connection aborted")).
Proof.
  split.
  - destruct (institute_fetch_error disk_january "000858.sz" "000858" "SZ000858" false
                (ak_always (inl (ValueError "lxml: No tables found")))
                (ValueError "lxml: No tables found"))
      as (Hfiles & Hswallowed & _);
      [reflexivity | vm_compute; discriminate | reflexivity |].
    split; [exact Hfiles|].
    apply Hswallowed. right. exists "lxml: ", "". reflexivity.
  - destruct (institute_fetch_error disk_january "000858.sz" "000858" "SZ000858" false
                offline (ProviderError "Connection aborted"))
      as (_ & _ & Hraised);
      [reflexivity | vm_compute; discriminate | reflexivity |].
    apply Hraised; intros H; apply contains_occurs in H; discriminate.
Defined.

Example institute_other_error_raised :
  returned (get_stock_institute_recommendations disk_january "000858.sz" true offline)
  = inl (ProviderError "Connection aborted").
Proof. reflexivity. Qed.

(** * Further properties *)

(** ** SymbolIdentity: errors and normal forms *)

Lemma contains_char_count c s :
  PyStr.contains_char c s = negb (Nat.eqb (count_char c s) 0).
Proof.
  induction s as [|d s IH]; simpl; [reflexivity|].
  destruct (Ascii.eqb c d); simpl; [reflexivity|exact IH].
Qed.

Lemma split_length c s : length (PyStr.split c s) = S (count_char c s).
Proof.
  induction s as [|d s IH]; simpl; [reflexivity|].
  destruct (Ascii.eqb c d); simpl; [rewrite IH; reflexivity|].
  destruct (PyStr.split c s) as [|h r]; simpl in *; [discriminate|exact IH].
Qed.

(** X1. [_parse_symbol] raises exactly when the trimmed input holds two or
    more ['.']: the unpacking of [split('.')] into two names then fails
    with a [ValueError]; with at most one ['.'] it returns a pair. *)
Theorem parse_symbol_dots (raw : string) :
  let s := PyStr.lower (PyStr.strip raw) in
  ((count_char "." s <= 1)%nat -> exists p, _parse_symbol raw = inr p) /\
  ((2 <= count_char "." s)%nat ->
   _parse_symbol raw = inl (ValueError "too many values to unpack (expected 2)")).
Proof.
  intros s. unfold _parse_symbol. fold s.
  rewrite contains_char_count.
  pose proof (split_length "." s) as Hl.
  destruct (count_char "." s) as [|[|n]] eqn:Ec; simpl Nat.eqb; simpl negb.
  - split; [|intros H; lia]. intros _.
    destruct (PyStr.startswith "6" s); [eauto|].
    destruct (PyStr.startswith "0" s || PyStr.startswith "3" s); [eauto|].
    destruct (PyStr.startswith "4" s || PyStr.startswith "8" s); eauto.
  - split; [|intros H; lia]. intros _.
    destruct (PyStr.split "." s) as [|a [|b [|c l]]]; simpl in Hl; try discriminate.
    eauto.
  - split; [intros H; lia|]. intros _.
    destruct (PyStr.split "." s) as [|a [|b [|c l]]]; simpl in Hl; try discriminate.
    reflexivity.
Qed.

Lemma parse_symbol_dots_witness :
  (exists p, _parse_symbol "600519.sh" = inr p) /\
  _parse_symbol "600519.sh.bak"
  = inl (ValueError "too many values to unpack (expected 2)").
Proof.
  split.
  - apply (proj1 (parse_symbol_dots "600519.sh")). simpl. lia.
  - apply (proj2 (parse_symbol_dots "600519.sh.bak")). simpl. lia.
Defined.

Ltac by_cases_on_char c :=
  destruct c as [[] [] [] [] [] [] [] []]; vm_compute; try reflexivity; try discriminate.

Lemma is_space_lower_char c : PyStr.is_space (PyStr.lower_char c) = PyStr.is_space c.
Proof. by_cases_on_char c. Qed.

Lemma lower_char_idem c : PyStr.lower_char (PyStr.lower_char c) = PyStr.lower_char c.
Proof. by_cases_on_char c. Qed.

Lemma lower_upper_char c :
  PyStr.lower_char c = c -> PyStr.lower_char (PyStr.upper_char c) = c.
Proof. by_cases_on_char c. Qed.

Lemma lower_idem s : PyStr.lower (PyStr.lower s) = PyStr.lower s.
Proof.
  unfold PyStr.lower. induction s as [|c s IH]; simpl; [reflexivity|].
  rewrite lower_char_idem, IH. reflexivity.
Qed.

Lemma lower_app a b : PyStr.lower (a ++ b) = (PyStr.lower a ++ PyStr.lower b)%string.
Proof.
  unfold PyStr.lower. induction a as [|c a IH]; simpl; [reflexivity|].
  rewrite IH. reflexivity.
Qed.

Lemma lstrip_lower s : PyStr.lstrip (PyStr.lower s) = PyStr.lower (PyStr.lstrip s).
Proof.
  unfold PyStr.lower. induction s as [|c s IH]; simpl; [reflexivity|].
  rewrite is_space_lower_char. destruct (PyStr.is_space c); [exact IH|reflexivity].
Qed.

Lemma rstrip_lower s : PyStr.rstrip (PyStr.lower s) = PyStr.lower (PyStr.rstrip s).
Proof.
  unfold PyStr.lower. induction s as [|c s IH]; simpl; [reflexivity|].
  rewrite IH, is_space_lower_char.
  destruct (PyStr.rstrip s); simpl; [destruct (PyStr.is_space c)|]; reflexivity.
Qed.

Lemma strip_lower s : PyStr.strip (PyStr.lower s) = PyStr.lower (PyStr.strip s).
Proof. unfold PyStr.strip. rewrite lstrip_lower, rstrip_lower. reflexivity. Qed.

Lemma rstrip_idem s : PyStr.rstrip (PyStr.rstrip s) = PyStr.rstrip s.
Proof.
  induction s as [|c s IH]; simpl; [reflexivity|].
  destruct (PyStr.rstrip s) as [|d u] eqn:E.
  - destruct (PyStr.is_space c) eqn:Ec; simpl; [reflexivity|]. rewrite Ec. reflexivity.
  - simpl. simpl in IH. rewrite IH. reflexivity.
Qed.

Lemma lstrip_starts_clean s : starts_clean (PyStr.lstrip s).
Proof.
  induction s as [|c s IH]; simpl; [exact I|].
  destruct (PyStr.is_space c) eqn:E; [exact IH|exact E].
Qed.

Lemma lstrip_clean s : starts_clean s -> PyStr.lstrip s = s.
Proof. destruct s as [|c s]; simpl; [reflexivity|]. intros ->. reflexivity. Qed.

Lemma rstrip_starts_clean s : starts_clean s -> starts_clean (PyStr.rstrip s).
Proof.
  destruct s as [|c s]; simpl; [trivial|]. intros H.
  destruct (PyStr.rstrip s); [rewrite H|]; exact H.
Qed.

Lemma strip_idem s : PyStr.strip (PyStr.strip s) = PyStr.strip s.
Proof.
  unfold PyStr.strip.
  rewrite (lstrip_clean (PyStr.rstrip (PyStr.lstrip s))).
  - apply rstrip_idem.
  - apply rstrip_starts_clean, lstrip_starts_clean.
Qed.

(** The normal form of a symbol is its own normal form. *)
Lemma normal_form_idem s :
  PyStr.lower (PyStr.strip (PyStr.lower (PyStr.strip s))) = PyStr.lower (PyStr.strip s).
Proof. rewrite strip_lower, strip_idem, lower_idem. reflexivity. Qed.

(** X2. [_parse_symbol] reads a symbol up to surrounding whitespace and
    letter case: an input and its trimmed, lower-cased form parse alike,
    and so do any two inputs with the same such form; they name the same
    stock directory. *)
Theorem parse_symbol_normalises (a b : string) :
  PyStr.lower (PyStr.strip a) = PyStr.lower (PyStr.strip b) ->
  _parse_symbol a = _parse_symbol b /\
  _parse_symbol (PyStr.lower (PyStr.strip a)) = _parse_symbol a.
Proof.
  intros H. unfold _parse_symbol. rewrite normal_form_idem, H. split; reflexivity.
Qed.

Lemma parse_symbol_normalises_witness :
  _parse_symbol "  000858.SZ" = _parse_symbol "000858.sz " /\
  _parse_symbol (PyStr.lower (PyStr.strip "  000858.SZ")) = _parse_symbol "  000858.SZ".
Proof. apply (parse_symbol_normalises "  000858.SZ" "000858.sz "). reflexivity. Defined.

Lemma lowered_app a b :
  PyStr.lower (a ++ b) = (a ++ b)%string -> PyStr.lower a = a /\ PyStr.lower b = b.
Proof.
  unfold PyStr.lower. induction a as [|c a IH]; simpl; intros H.
  - split; [reflexivity|exact H].
  - inversion H as [[Hc Ht]]. destruct (IH Ht) as [Ha Hb].
    rewrite Ha, !Hc. split; [reflexivity|exact Hb].
Qed.

Lemma lower_upper s : PyStr.lower s = s -> PyStr.lower (PyStr.upper s) = s.
Proof.
  unfold PyStr.lower, PyStr.upper. induction s as [|c s IH]; simpl; intros H;
    [reflexivity|].
  inversion H as [[Hc Ht]]. rewrite !Hc, !Ht.
  rewrite (lower_upper_char _ Hc), (IH Ht). reflexivity.
Qed.

Lemma institute_forced_calls disk symbol code xq ak :
  _parse_symbol symbol = inr (code, xq) ->
  calls (get_stock_institute_recommendations disk symbol true ak)
  = [call_institute (PyStr.lower xq)].
Proof.
  intros Hp. unfold get_stock_institute_recommendations. rewrite Hp. simpl.
  destruct (stock_institute_recommend_detail ak (PyStr.lower xq)) as [err|df];
    [|reflexivity].
  destruct (PyStr.contains "Empty DataFrame" (str err)
            || PyStr.contains "No tables found" (str err)); reflexivity.
Qed.

Lemma financial_forced_calls disk symbol code xq report_type ak :
  _parse_symbol symbol = inr (code, xq) ->
  calls (get_stock_financial_report disk symbol report_type true ak)
  = [call_financial (PyStr.lower xq) report_type].
Proof.
  intros Hp. unfold get_stock_financial_report. rewrite Hp. simpl.
  destruct (stock_financial_report_sina ak (PyStr.lower xq) report_type); reflexivity.
Qed.

(** X3. The symbol sent to the Sina endpoints (institute recommendations,
    financial reports) is the exchange in lower case followed by the pure
    code: for an input [code.exchange] it is the suffix as typed, up to
    case, followed by the code ([sz000858]); for a bare code it is the
    inferred exchange in lower case followed by the code. *)
Theorem sina_symbol disk raw report_type ak :
  let s := PyStr.lower (PyStr.strip raw) in
  (forall code exchange,
     s = (code ++ "." ++ exchange)%string ->
     PyStr.contains_char "." code = false ->
     PyStr.contains_char "." exchange = false ->
     calls (get_stock_institute_recommendations disk raw true ak)
     = [call_institute (exchange ++ code)] /\
     calls (get_stock_financial_report disk raw report_type true ak)
     = [call_financial (exchange ++ code) report_type]) /\
  (PyStr.contains_char "." s = false ->
   calls (get_stock_institute_recommendations disk raw true ak)
   = [call_institute (PyStr.lower (inferred_exchange s) ++ s)] /\
   calls (get_stock_financial_report disk raw report_type true ak)
   = [call_financial (PyStr.lower (inferred_exchange s) ++ s) report_type]).
Proof.
  intros s. split.
  - intros code exchange E Hc He.
    pose proof (parse_symbol_suffixed raw code exchange E Hc He) as Hp.
    assert (Hs : PyStr.lower s = s) by apply lower_idem.
    rewrite E in Hs. apply lowered_app in Hs as [Hcode Hrest].
    change ("." ++ exchange)%string with (String "." exchange) in Hrest.
    assert (Hex : PyStr.lower exchange = exchange).
    { unfold PyStr.lower in *. simpl in Hrest. inversion Hrest as [Ht].
      rewrite !Ht. reflexivity. }
    rewrite (institute_forced_calls _ _ _ _ _ Hp),
            (financial_forced_calls _ _ _ _ _ _ Hp).
    rewrite lower_app, (lower_upper _ Hex), Hcode. split; reflexivity.
  - intros Hd. pose proof (parse_symbol_bare raw Hd) as Hp. fold s in Hp.
    rewrite (institute_forced_calls _ _ _ _ _ Hp),
            (financial_forced_calls _ _ _ _ _ _ Hp).
    assert (Hs : PyStr.lower s = s) by apply lower_idem.
    rewrite lower_app, Hs. split; reflexivity.
Qed.

Lemma sina_symbol_witness :
  calls (get_stock_institute_recommendations ∅ "000858.SZ" true offline)
  = [call_institute "sz000858"] /\
  calls (get_stock_financial_report ∅ "000858.SZ" "利润表" true offline)
  = [call_financial "sz000858" "利润表"].
Proof.
  apply (proj1 (sina_symbol ∅ "000858.SZ" "利润表" offline) "000858" "sz"); reflexivity.
Defined.

(** ** RangeCoverageCache: frame, errors and coverage *)

(** X4. A call of [get_stock_history] changes nothing but the history table
    and the history metadata of the stock it is asked about: the files of
    every other stock and the snapshot files of its own directory are as
    before, whatever the call does. *)
Theorem history_writes_history_only disk symbol code xq start_date end_date adjust ak now :
  _parse_symbol symbol = inr (code, xq) ->
  let o := get_stock_history disk symbol start_date end_date adjust ak now in
  (forall c, c <> code -> files (disk_after o) c = files disk c) /\
  dividend_info (files (disk_after o) code) = dividend_info (files disk code) /\
  research_report (files (disk_after o) code) = research_report (files disk code) /\
  institute_recommendations (files (disk_after o) code)
  = institute_recommendations (files disk code) /\
  valuation (files (disk_after o) code) = valuation (files disk code) /\
  financial (files (disk_after o) code) = financial (files disk code).
Proof.
  intros Hp o.
  assert (H : forall c,
            files (disk_after o) c = files disk c \/
            (c = code /\ exists f,
               files (disk_after o) c = with_history_data f (files disk c) \/
               exists m, files (disk_after o) c
                         = with_history_meta m (with_history_data f (files disk c)))).
  { intros c. unfold o, get_stock_history. rewrite Hp. simpl.
    destruct (to_datetime start_date) as [err|rs]; simpl;
      [left; apply files_get_stock_dir|].
    destruct (to_datetime end_date) as [err|re]; simpl;
      [left; apply files_get_stock_dir|].
    rewrite files_get_stock_dir.
    destruct (serve_from_cache _ _ rs re) as [err|[df|]];
      [left; apply files_get_stock_dir|left; apply files_get_stock_dir|].
    rewrite fetch_and_merge_files, files_get_stock_dir.
    destruct (stock_zh_a_hist ak code start_date end_date adjust) as [err|fetched];
      [left; reflexivity|].
    destruct (convert_fetched fetched) as [err|new_df]; [left; reflexivity|].
    destruct (decide (code = c)) as [<-|Hne]; [|left; reflexivity].
    right. split; [reflexivity|].
    destruct (new_coverage _ rs re) as [err|[ncs nce]]; eauto. }
  split.
  - intros c Hc. destruct (H c) as [E|[E _]]; [exact E|contradiction].
  - destruct (H code) as [E|[_ (f & [E|[m E]])]]; rewrite E; repeat split.
Qed.

Lemma history_writes_history_only_witness :
  let o := get_stock_history disk_dividends "000858.sz" (Ymd 1) (Ymd 9) "qfq"
             (ak_always (inr (Dated january))) 7 in
  (forall c, c <> "000858" -> files (disk_after o) c = files disk_dividends c) /\
  dividend_info (files (disk_after o) "000858")
  = dividend_info (files disk_dividends "000858") /\
  research_report (files (disk_after o) "000858")
  = research_report (files disk_dividends "000858") /\
  institute_recommendations (files (disk_after o) "000858")
  = institute_recommendations (files disk_dividends "000858") /\
  valuation (files (disk_after o) "000858") = valuation (files disk_dividends "000858") /\
  financial (files (disk_after o) "000858") = financial (files disk_dividends "000858").
Proof.
  apply (history_writes_history_only disk_dividends "000858.sz" "000858" "SZ000858"
           (Ymd 1) (Ymd 9) "qfq" (ak_always (inr (Dated january))) 7).
  reflexivity.
Defined.

(** X5. A start or end date that [pd.to_datetime] rejects makes
    [get_stock_history] raise that error before the cache is read: no
    remote call is made and no file changes. *)
Theorem history_bad_date disk symbol code xq start_date end_date adjust ak now err :
  _parse_symbol symbol = inr (code, xq) ->
  to_datetime start_date = inl err \/
  ((exists d, to_datetime start_date = inr d) /\ to_datetime end_date = inl err) ->
  let o := get_stock_history disk symbol start_date end_date adjust ak now in
  returned o = inl err /\
  calls o = [] /\
  (forall c, files (disk_after o) c = files disk c).
Proof.
  intros Hp H o. unfold o, get_stock_history. rewrite Hp. simpl.
  destruct H as [H|[[d Hd] H]].
  - rewrite H. simpl. repeat split. intros c. apply files_get_stock_dir.
  - rewrite Hd, H. simpl. repeat split. intros c. apply files_get_stock_dir.
Qed.

Lemma history_bad_date_witness :
  let o := get_stock_history disk_january "000858.sz" (Ymd 3) (Malformed "31/31/2023")
             "qfq" offline 7 in
  returned o = inl (ValueError "31/31/2023") /\
  calls o = [] /\
  (forall c, files (disk_after o) c = files disk_january c).
Proof.
  apply (history_bad_date disk_january "000858.sz" "000858" "SZ000858"
           (Ymd 3) (Malformed "31/31/2023") "qfq" offline 7 (ValueError "31/31/2023"));
    [reflexivity|].
  right. split; [exists (PyDate 3); reflexivity|reflexivity].
Defined.

(** The files of the stock after a call that fetched, converted the reply
    and computed the coverage. *)
Lemma history_written disk symbol code xq s e adjust ak now fetched new_df ncs nce :
  _parse_symbol symbol = inr (code, xq) ->
  calls (get_stock_history disk symbol (Ymd s) (Ymd e) adjust ak now) <> [] ->
  stock_zh_a_hist ak code (Ymd s) (Ymd e) adjust = inr fetched ->
  convert_fetched fetched = inr new_df ->
  new_coverage (read_coverage (files disk code)) (PyDate s) (PyDate e) = inr (ncs, nce) ->
  files (disk_after (get_stock_history disk symbol (Ymd s) (Ymd e) adjust ak now)) code =
  with_history_meta (MetaJson (Some ncs) (Some nce) now)
    (with_history_data (to_csv (merge (load_cached (files disk code)) new_df))
                       (files disk code)).
Proof.
  intros Hp Hcalls Hf Hc Hn.
  rewrite (history_called_dated _ _ _ _ _ _ _ _ _ Hp Hcalls).
  rewrite fetch_and_merge_files, Hf, Hc, Hn, files_get_stock_dir.
  destruct (decide (code = code)); [reflexivity|contradiction].
Qed.

(** X6. Whenever a call with two well-formed dates gets to write (the fetch
    answered and the date column of the reply converted), the coverage it
    persists is the requested interval when it has read no coverage (no
    metadata file, metadata that is not a JSON object, no table file, or a
    table file of size 0), and, when the metadata holds two dates next to a
    table file that is not empty, the span from the earlier of the two
    starts to the later of the two ends, whether or not the two intervals
    touch; this holds also when the call then raises for a missing date
    column. *)
Theorem history_coverage_written disk symbol code xq s e adjust ak now fetched new_df :
  _parse_symbol symbol = inr (code, xq) ->
  let o := get_stock_history disk symbol (Ymd s) (Ymd e) adjust ak now in
  calls o <> [] ->
  stock_zh_a_hist ak code (Ymd s) (Ymd e) adjust = inr fetched ->
  convert_fetched fetched = inr new_df ->
  (history_meta (files disk code) = None \/
   history_meta (files disk code) = Some BadJson \/
   history_data (files disk code) = None \/
   history_data (files disk code) = Some EmptyFile ->
   coverage (files (disk_after o) code) = Some (s, e)) /\
  (forall cs ce lu f,
     history_meta (files disk code) = Some (MetaJson (Some (PyDate cs)) (Some (PyDate ce)) lu) ->
     history_data (files disk code) = Some f -> f <> EmptyFile ->
     coverage (files (disk_after o) code) = Some (Z.min cs s, Z.max ce e)).
Proof.
  intros Hp o Hcalls Hf Hc. unfold o. split.
  - intros H.
    assert (Hr : read_coverage (files disk code) = (None, None)).
    { unfold read_coverage. destruct H as [H|[H|[H|H]]]; rewrite H; try reflexivity.
      - destruct (history_data (files disk code)) as [f|]; [|reflexivity].
        destruct (nonempty f); reflexivity.
      - destruct (history_meta (files disk code)); reflexivity.
      - destruct (history_meta (files disk code)); reflexivity. }
    rewrite (history_written _ _ _ _ _ _ _ _ _ _ _ (PyDate s) (PyDate e) Hp Hcalls Hf Hc);
      [reflexivity|]. rewrite Hr. reflexivity.
  - intros cs ce lu f Hm Hd Hne.
    assert (Hr : read_coverage (files disk code) = (Some (PyDate cs), Some (PyDate ce))).
    { apply (read_coverage_dated _ _ _ lu f Hm Hd). destruct f; [contradiction| |]; reflexivity. }
    rewrite (history_written _ _ _ _ _ _ _ _ _ _ _ (PyDate (Z.min cs s)) (PyDate (Z.max ce e))
               Hp Hcalls Hf Hc);
      [reflexivity|].
    rewrite Hr. unfold new_coverage. simpl. rewrite py_min_dated, py_max_dated. reflexivity.
Qed.

Lemma history_coverage_written_witness :
  (let o := get_stock_history disk_january "000858.sz" (Ymd 40) (Ymd 50) "qfq"
              (ak_always (inr mid_reply)) 7 in
   coverage (files (disk_after o) "000858") = Some (Z.min 1 40, Z.max 31 50)) /\
  (let o := get_stock_history disk_truncated "000858.sz" (Ymd 12) (Ymd 15) "qfq"
              (ak_always (inr mid_reply)) 7 in
   coverage (files (disk_after o) "000858") = Some (12, 15)).
Proof.
  split.
  - apply (proj2 (history_coverage_written disk_january "000858.sz" "000858" "SZ000858"
                    40 50 "qfq" (ak_always (inr mid_reply)) 7 mid_reply mid_reply
                    eq_refl ltac:(vm_compute; discriminate) eq_refl eq_refl)
             1 31 0 (Csv (Dated january)));
      [reflexivity | reflexivity | discriminate].
  - apply (proj1 (history_coverage_written disk_truncated "000858.sz" "000858" "SZ000858"
                    12 15 "qfq" (ak_always (inr mid_reply)) 7 mid_reply mid_reply
                    eq_refl ltac:(vm_compute; discriminate) eq_refl eq_refl)).
    right. right. right. reflexivity.
Defined.

(** A coverage computed for a dated request holds two dates and includes
    the request. *)
Lemma new_coverage_inv covered s e ncs nce :
  new_coverage covered (PyDate s) (PyDate e) = inr (ncs, nce) ->
  exists a b, ncs = PyDate a /\ nce = PyDate b /\ a <= s /\ e <= b.
Proof.
  unfold new_coverage. destruct covered as [[[cs|]|] [[ce|]|]]; simpl;
    rewrite ?py_min_dated, ?py_max_dated; try discriminate;
    intros H; inversion H; eexists; eexists;
    (split; [reflexivity|split; [reflexivity|lia]]).
Qed.

(** Metadata from which a [NaT] is read. *)
Lemma read_coverage_nat dir :
  fst (read_coverage dir) = Some PyNaT \/ snd (read_coverage dir) = Some PyNaT ->
  nat_metadata dir.
Proof.
  intros [H|H].
  - destruct (read_coverage dir) as [a b] eqn:Er. simpl in H. subst a.
    apply read_coverage_some in Er as (lu & f & Hm & _).
    exists (Some PyNaT), b, lu. split; [exact Hm|left; reflexivity].
  - destruct (read_coverage_end dir PyNaT H) as [a Er].
    apply read_coverage_some in Er as (lu & f & Hm & _).
    exists (Some a), (Some PyNaT), lu. split; [exact Hm|right; reflexivity].
Qed.

(** For a dated request the coverage fails to be computed only on a [NaT]
    read from the metadata. *)
Lemma new_coverage_raises_dated covered s e err :
  new_coverage covered (PyDate s) (PyDate e) = inl err ->
  err = cannot_compare /\ (fst covered = Some PyNaT \/ snd covered = Some PyNaT).
Proof.
  unfold new_coverage. destruct covered as [[[cs|]|] [[ce|]|]]; simpl;
    rewrite ?py_min_dated, ?py_max_dated; try discriminate;
    intros H; inversion H; split; try reflexivity; auto.
Qed.




Lemma to_datetime_col_total rows :
  Forall no_text rows -> exists rows', to_datetime_col rows = Some rows'.
Proof.
  induction 1 as [|r rows Hr _ [rows' IH]]; simpl; [eauto|].
  rewrite IH. unfold no_text in Hr.
  destruct (date_of r); simpl; try contradiction; eauto.
Qed.

Lemma to_datetime_col_source raw rows :
  to_datetime_col raw = Some rows -> Forall no_text raw.
Proof.
  revert rows. induction raw as [|r raw IH]; simpl; intros rows H; [constructor|].
  destruct (to_datetime_cell (date_of r)) as [c|] eqn:Ec; [|discriminate].
  destruct (to_datetime_col raw) as [t|]; [|discriminate].
  constructor; [|apply (IH t); reflexivity].
  unfold no_text. destruct (date_of r); try exact I. discriminate.
Qed.

Lemma written_no_text among rows :
  Forall no_text rows -> Forall no_text (map (reread_row among) rows).
Proof.
  intros H. apply Forall_map. eapply Forall_impl; [|exact H].
  intros r. unfold no_text, reread_row. simpl. destruct (date_of r); simpl; trivial.
Qed.

Lemma reread_no_text_inv among rows :
  Forall no_text (map (reread_row among) rows) -> Forall no_text rows.
Proof.
  induction rows as [|r rows IH]; simpl; intros H; [constructor|].
  inversion H as [|? ? Hr Ht]; subst. constructor; [|apply IH, Ht].
  unfold no_text, reread_row in *. simpl in Hr. destruct (date_of r); simpl in *; trivial.
Qed.

(** The table built by lines 204-212 has dates and nulls in its date column. *)
Lemma merge_no_text cached_df new_df rows :
  (forall cached, cached_df = Some cached -> Forall no_text cached) ->
  Forall no_text (frame_rows new_df) ->
  merge cached_df new_df = Dated rows ->
  Forall no_text rows.
Proof.
  intros Hc Hn. destruct cached_df as [cached|]; simpl.
  - intros H. inversion H; subst. clear H.
    apply Forall_forall. intros r Hr.
    apply (Permutation_in _ (sort_values_perm _)), drop_duplicates_last_incl in Hr.
    pose proof (concat_no_text _ _ (Hc cached eq_refl) Hn) as H.
    rewrite Forall_forall in H. apply H, Hr.
  - intros ->. exact Hn.
Qed.

Lemma get_stock_dir_idem (disk : Store) c :
  _get_stock_dir (_get_stock_dir disk c) c = _get_stock_dir disk c.
Proof.
  unfold _get_stock_dir. destruct (disk !! c) eqn:E; [rewrite E; reflexivity|].
  rewrite lookup_insert_eq. reflexivity.
Qed.

(** X8. After a successful call with two well-formed dates, the same
    request is a full hit: it makes no remote call, writes nothing, and
    returns, ascending, the rows of the first call as the table file gives
    them back: the same dates, the other cells as [read_csv] reads them
    after the write (the very rows of the first call when that was itself
    a full hit); this whatever the remote source has become, whatever price
    adjustment is now asked for, and whatever exchange suffix the symbol
    now carries, as long as the pure code is the same. *)
Theorem history_repeat_after_success disk symbol code xq s e adjust ak now df
        symbol' xq' adjust' ak' now' :
  _parse_symbol symbol = inr (code, xq) ->
  _parse_symbol symbol' = inr (code, xq') ->
  let o := get_stock_history disk symbol (Ymd s) (Ymd e) adjust ak now in
  returned o = inr df ->
  let again := get_stock_history (disk_after o) symbol' (Ymd s) (Ymd e) adjust' ak' now' in
  calls again = [] /\
  disk_after again = disk_after o /\
  exists rows rows',
    df = Dated rows /\
    returned again = inr (Dated rows') /\
    Ascending rows' /\
    Permutation (date_values rows') (date_values rows) /\
    (calls o = [] -> rows' = rows) /\
    (calls o <> [] ->
     exists table,
       history_data (files (disk_after o) code) = Some (to_csv (Dated table)) /\
       Permutation rows' (map (reread_row (map data table)) rows)).
Proof.
  intros Hp Hp' o Hret again.
  destruct (serve_from_cache (files disk code) (read_coverage (files disk code))
              (PyDate s) (PyDate e)) as [err|[df0|]] eqn:Es.
  - unfold o in Hret. rewrite (get_stock_history_parsed _ _ _ _ _ _ _ _ _ Hp), Es in Hret.
    discriminate.
  - assert (Ho : o = mkOutcome (inr df0) (_get_stock_dir disk code) []).
    { unfold o. rewrite (get_stock_history_parsed _ _ _ _ _ _ _ _ _ Hp), Es. reflexivity. }
    assert (Ha : again = mkOutcome (inr df0) (_get_stock_dir disk code) []).
    { unfold again. rewrite Ho. simpl disk_after.
      rewrite (get_stock_history_parsed _ _ _ _ _ _ _ _ _ Hp'), files_get_stock_dir, Es,
        get_stock_dir_idem. reflexivity. }
    rewrite Ha, Ho. rewrite Ho in Hret. simpl in *. inversion Hret; subst df0.
    split; [reflexivity|]. split; [reflexivity|].
    apply serve_from_cache_inv in Es
      as (cs & ce & s' & e' & raw & rows & _ & _ & _ & _ & _ & _ & Hc & ->).
    eexists _, _. split; [reflexivity|]. split; [reflexivity|]. split.
    + apply sort_values_ascending, no_text_filter.
      eapply to_datetime_col_no_text. exact Hc.
    + split; [reflexivity|]. split; [reflexivity|].
      intros H. contradiction H. reflexivity.
  - assert (Hcalls : calls o <> []).
    { unfold o. rewrite (get_stock_history_parsed _ _ _ _ _ _ _ _ _ Hp), Es,
        fetch_and_merge_calls. discriminate. }
    assert (Ho := history_called_dated _ _ _ _ _ _ _ _ _ Hp Hcalls). fold o in Ho.
    rewrite Ho, fetch_and_merge_returned in Hret.
    destruct (stock_zh_a_hist ak code (Ymd s) (Ymd e) adjust) as [err|fetched] eqn:Hf;
      [discriminate|].
    destruct (convert_fetched fetched) as [err|new_df] eqn:Hc; [discriminate|].
    destruct (new_coverage (read_coverage (files disk code)) (PyDate s) (PyDate e))
      as [err|[ncs nce]] eqn:En; [discriminate|].
    destruct (merge (load_cached (files disk code)) new_df) as [|ps|table] eqn:Em;
      try discriminate.
    inversion Hret; subst df. clear Hret.
    assert (Hnt : Forall no_text table).
    { eapply merge_no_text; [| |exact Em].
      - intros cached. apply load_cached_no_text.
      - eapply convert_fetched_no_text. exact Hc. }
    destruct (to_datetime_col_total _ (written_no_text (map data table) _ Hnt))
      as [rows2 Hrows2].
    pose proof (history_written _ _ _ _ _ _ _ _ _ _ _ _ _ Hp Hcalls Hf Hc En) as Hfiles.
    fold o in Hfiles. rewrite Em in Hfiles.
    apply new_coverage_inv in En as (a & b & -> & -> & H1 & H2).
    assert (Hserve :
      serve_from_cache (files (disk_after o) code)
        (read_coverage (files (disk_after o) code)) (PyDate s) (PyDate e)
      = inr (Some (Dated (sort_values (filter (in_range (PyDate s) (PyDate e)) rows2))))).
    { apply (serve_full_hit _ s e a b now (Csv (Dated table))
               (map (reread_row (map data table)) table));
        try assumption; try rewrite Hfiles; reflexivity. }
    assert (Hdir : _get_stock_dir (disk_after o) code = disk_after o).
    { apply get_stock_dir_present. rewrite Hfiles. discriminate. }
    assert (Hrows' : Permutation
              (sort_values (filter (in_range (PyDate s) (PyDate e)) rows2))
              (map (reread_row (map data table))
                   (filter (in_range (PyDate s) (PyDate e)) table))).
    { rewrite sort_values_perm, (to_datetime_col_slice _ _ _ _ Hrows2), written_slice.
      reflexivity. }
    unfold again. rewrite (get_stock_history_parsed _ _ _ _ _ _ _ _ _ Hp'), Hserve, Hdir.
    simpl. split; [reflexivity|]. split; [reflexivity|].
    eexists _, _. split; [reflexivity|]. split; [reflexivity|]. split.
    + apply sort_values_ascending, no_text_filter.
      eapply to_datetime_col_no_text. exact Hrows2.
    + split.
      * rewrite (date_values_perm _ _ Hrows'), written_date_values. reflexivity.
      * split; [intros H; contradiction|].
        intros _. exists table. rewrite Hfiles. split; [reflexivity|exact Hrows'].
Qed.

Lemma history_repeat_after_success_witness :
  let o := get_stock_history ∅ "000858.sz" (Ymd 1) (Ymd 9) "qfq"
             (ak_always (inr disordered_reply)) 7 in
  let again := get_stock_history (disk_after o) "000858.SH" (Ymd 1) (Ymd 9) "hfq"
                 offline 8 in
  calls again = [] /\
  disk_after again = disk_after o /\
  exists rows rows',
    disordered_reply = Dated rows /\
    returned again = inr (Dated rows') /\
    Ascending rows' /\
    Permutation (date_values rows') (date_values rows) /\
    (calls o = [] -> rows' = rows) /\
    (calls o <> [] ->
     exists table,
       history_data (files (disk_after o) "000858") = Some (to_csv (Dated table)) /\
       Permutation rows' (map (reread_row (map data table)) rows)).
Proof.
  apply (history_repeat_after_success ∅ "000858.sz" "000858" "SZ000858" 1 9 "qfq"
           (ak_always (inr disordered_reply)) 7 disordered_reply
           "000858.SH" "SH000858" "hfq" offline 8);
    reflexivity.
Defined.

(** A call with two empty date strings succeeds as well, but its repeat is
    not a hit: the coverage it left reads as [NaT], which covers nothing. *)
Example blank_dates_repeat_fetches_again :
  let ak := ak_always (inr (Dated january)) in
  let o := get_stock_history ∅ "000858.sz" Blank Blank "qfq" ak 7 in
  let again := get_stock_history (disk_after o) "000858.sz" Blank Blank "qfq" ak 8 in
  returned o = inr (Dated []) /\
  calls again = [call_hist "000858" Blank Blank "qfq"].
Proof. split; reflexivity. Qed.

(** The coverage fails to be computed only next to metadata. *)
Lemma new_coverage_raises dir rs re err :
  new_coverage (read_coverage dir) rs re = inl err -> history_meta dir <> None.
Proof.
  destruct (read_coverage dir) as [[a|] b] eqn:Er.
  - apply read_coverage_some in Er as (lu & f & Hm & _). rewrite Hm. discriminate.
  - destruct b as [b|].
    + destruct (read_coverage_end dir b) as [a Ha]; [rewrite Er; reflexivity|].
      rewrite Er in Ha. discriminate.
    + discriminate.
Qed.

Lemma history_step_paired disk c symbol :
  paired (files disk symbol) -> paired (files (history_step disk c) symbol).
Proof.
  intros H. unfold history_step.
  destruct (get_stock_history_files disk (call_symbol c) (call_start c) (call_end c)
              (call_adjust c) (call_ak c) (call_now c) symbol)
    as [E|[(rs & re & f & err & Hf & En & E)|(rs & re & ncs & nce & f & Hf & _ & _ & _ & E)]];
    rewrite E; [exact H| |].
  - apply new_coverage_raises in En. unfold paired. simpl. split; [discriminate|].
    intros Hm. contradiction.
  - unfold paired. simpl. split; discriminate.
Qed.

(** X9. On a data directory that [get_stock_history] keeps, table and
    metadata go together: if every stock starts with both files or
    neither, and with metadata whose two values can be read (as a date or
    as [NaT]) next to a table that is not empty, then after any sequence
    of calls, with any date strings, this is still so for every stock. *)
Theorem history_files_paired disk cs :
  (forall symbol, paired (files disk symbol) /\ consistent_dir (files disk symbol)) ->
  forall symbol,
    paired (files (history_run disk cs) symbol) /\
    consistent_dir (files (history_run disk cs) symbol).
Proof.
  revert disk. induction cs as [|c cs IH]; simpl; intros disk H; [exact H|].
  apply IH. intros symbol. split.
  - apply history_step_paired, H.
  - apply history_step_consistent. intros symbol'. apply H.
Qed.

Lemma history_files_paired_witness :
  paired (files (history_run ∅ [blank_call; first_call; later_call]) "000858") /\
  consistent_dir (files (history_run ∅ [blank_call; first_call; later_call]) "000858").
Proof.
  apply (history_files_paired ∅ [blank_call; first_call; later_call]).
  intros symbol. rewrite files_empty. split; [split; reflexivity|exact I].
Defined.

(** After the call with empty date strings the metadata reads as [NaT], and
    the two dated calls that follow raise at the coverage test: the
    metadata stays as it is. *)
Example metadata_after_blank_call :
  history_meta (files (history_run ∅ [blank_call; first_call; later_call]) "000858")
  = Some (MetaJson (Some PyNaT) (Some PyNaT) 6).
Proof. reflexivity. Qed.

Lemma date_values_slice s e l d :
  In d (date_values l) -> s <= d <= e ->
  In d (date_values (filter (in_range (PyDate s) (PyDate e)) l)).
Proof.
  intros Hd Hr. induction l as [|r l IH]; simpl in *; [contradiction|].
  destruct (date_of r) as [x| | |t] eqn:Er.
  - unfold in_range at 1, cell_ge, cell_le. rewrite Er.
    destruct Hd as [->|Hd].
    + replace (s <=? d) with true by (symmetry; apply Z.leb_le; lia).
      replace (d <=? e) with true by (symmetry; apply Z.leb_le; lia).
      simpl. rewrite Er. left. reflexivity.
    + destruct ((s <=? x) && (x <=? e)); simpl; [rewrite Er; right|]; apply IH, Hd.
  - unfold in_range at 1, cell_ge. rewrite Er. simpl. apply IH, Hd.
  - unfold in_range at 1, cell_ge. rewrite Er. simpl. apply IH, Hd.
  - unfold in_range at 1, cell_ge. rewrite Er. simpl. apply IH, Hd.
Qed.

(** X10. A reply without a date column (the empty frame akshare returns
    when it has no quotes) on top of a loaded cache does not fail: the
    call returns, ascending, rows of the cached table only, each with a
    date in the requested interval and one for every cached date in it,
    and records the request as covered.  This is so whenever no value of
    the metadata reads as [NaT]; where one does, the call either succeeds
    all the same or raises the [TypeError] of the comparison with [NaT]
    and leaves the metadata as it was. *)
Theorem history_undated_reply_on_cache disk symbol code xq s e adjust ak now cached fetched :
  _parse_symbol symbol = inr (code, xq) ->
  let o := get_stock_history disk symbol (Ymd s) (Ymd e) adjust ak now in
  calls o <> [] ->
  load_cached (files disk code) = Some cached ->
  stock_zh_a_hist ak code (Ymd s) (Ymd e) adjust = inr fetched ->
  undated fetched ->
  (dated_metadata (files disk code) ->
   (exists rows,
      returned o = inr (Dated rows) /\
      Ascending rows /\
      (forall r, In r rows -> In r cached /\ dated_within s e r) /\
      (forall d, In d (date_values cached) -> s <= d <= e -> In d (date_values rows))) /\
   (exists cs ce,
      coverage (files (disk_after o) code) = Some (cs, ce) /\ cs <= s /\ e <= ce)) /\
  ((exists rows, returned o = inr (Dated rows)) \/
   (returned o = inl cannot_compare /\
    nat_metadata (files disk code) /\
    history_meta (files (disk_after o) code) = history_meta (files disk code))).
Proof.
  intros Hp o Hcalls Hl Hf Hu.
  assert (Hc : convert_fetched fetched = inr fetched).
  { destruct fetched; [reflexivity|reflexivity|contradiction]. }
  assert (Hrows : frame_rows fetched = []).
  { destruct fetched; [reflexivity|reflexivity|contradiction]. }
  destruct (merge_cached cached fetched) as (rows & Em & _ & Has & Hin & _ & Hall).
  { eapply load_cached_no_text. exact Hl. }
  { rewrite Hrows. constructor. }
  unfold o. rewrite (history_called_dated _ _ _ _ _ _ _ _ _ Hp Hcalls).
  rewrite fetch_and_merge_returned, fetch_and_merge_files, Hf, Hc, Hl, Em,
    files_get_stock_dir.
  destruct (decide (code = code)); [|contradiction].
  destruct (new_coverage _ (PyDate s) (PyDate e)) as [err|[ncs nce]] eqn:En.
  - apply new_coverage_raises_dated in En as [-> Hnat]. split.
    + intros Hm. destruct (dated_metadata_read _ Hm) as [H1 H2].
      destruct Hnat; contradiction.
    + right. split; [reflexivity|]. split; [apply read_coverage_nat, Hnat|reflexivity].
  - apply new_coverage_inv in En as (a & b & -> & -> & Hs & He).
    split; [|left; eexists; reflexivity].
    intros _. split.
    + eexists. split; [reflexivity|]. split; [apply ascending_filter; exact Has|]. split.
      * intros r Hr. apply filter_In in Hr as [Hr Hrange].
        apply in_range_dated in Hrange. split; [|exact Hrange].
        destruct (Hin r Hr) as [H|[H|H]]; [exact H| |].
        -- rewrite Hrows in H. contradiction.
        -- destruct Hrange as (d & Hd & _). congruence.
      * intros d Hd Hr. apply date_values_slice; [|exact Hr]. apply Hall. left. exact Hd.
    + exists a, b. split; [reflexivity|]. split; assumption.
Qed.

Lemma history_undated_reply_on_cache_witness :
  let o := get_stock_history disk_january "000858.sz" (Ymd 4) (Ymd 40) "qfq"
             (ak_always (inr NoColumns)) 7 in
  (exists rows,
     returned o = inr (Dated rows) /\
     Ascending rows /\
     (forall r, In r rows -> In r january_read /\ dated_within 4 40 r) /\
     (forall d, In d (date_values january_read) -> 4 <= d <= 40 ->
                In d (date_values rows))) /\
  (exists cs ce,
     coverage (files (disk_after o) "000858") = Some (cs, ce) /\ cs <= 4 /\ 40 <= ce).
Proof.
  destruct (history_undated_reply_on_cache disk_january "000858.sz" "000858" "SZ000858"
              4 40 "qfq" (ak_always (inr NoColumns)) 7 january_read NoColumns)
    as [Hdated _];
    [reflexivity | vm_compute; discriminate | reflexivity | reflexivity | exact I |].
  apply Hdated. split; discriminate.
Defined.

(** ** RangeCoverageCache: merging twice *)

Lemma nodup_cells_rows l : NoDup (map date_of l) -> NoDup l.
Proof.
  induction l as [|r l IH]; simpl; intros H; [constructor|].
  inversion H as [|? ? Hn Hl]; subst. constructor; [|apply IH; exact Hl].
  intros Hin. apply Hn, in_map, Hin.
Qed.

Lemma same_cell_same_row l a b :
  NoDup (map date_of l) -> In a l -> In b l -> date_of a = date_of b -> a = b.
Proof.
  induction l as [|r l IH]; simpl; intros H Ha Hb E; [contradiction|].
  inversion H as [|? ? Hn Hl]; subst.
  destruct Ha as [->|Ha], Hb as [->|Hb].
  - reflexivity.
  - contradiction Hn. rewrite E. apply in_map, Hb.
  - contradiction Hn. rewrite <- E. apply in_map, Ha.
  - apply IH; assumption.
Qed.

(** Two ascending arrangements of rows with distinct dates are one list. *)
Lemma ascending_unique l1 l2 :
  Forall has_date l1 -> NoDup (map date_of l1) ->
  Ascending l1 -> Ascending l2 -> Permutation l1 l2 -> l1 = l2.
Proof.
  revert l2. induction l1 as [|a l1 IH]; intros l2 Hd Hn Ha1 Ha2 Hp.
  - apply Permutation_nil in Hp. congruence.
  - destruct l2 as [|b l2]; [apply Permutation_sym, Permutation_nil in Hp; discriminate|].
    assert (E : a = b).
    { inversion Ha1 as [|? ? _ Hfa]; subst. inversion Ha2 as [|? ? _ Hfb]; subst.
      assert (Hb : In b (a :: l1)) by (apply (Permutation_in _ (Permutation_sym Hp)); left; reflexivity).
      assert (Ha : In a (b :: l2)) by (apply (Permutation_in _ Hp); left; reflexivity).
      destruct Hb as [Hb|Hb]; [exact Hb|]. destruct Ha as [Ha|Ha]; [congruence|].
      rewrite Forall_forall in Hfa, Hfb, Hd.
      pose proof (Hfa b Hb) as Hab. pose proof (Hfb a Ha) as Hba.
      destruct (Hd a (or_introl eq_refl)) as [x Hx].
      destruct (Hd b (or_intror Hb)) as [y Hy].
      unfold row_le in Hab, Hba. rewrite Hx, Hy in Hab, Hba.
      apply (same_cell_same_row (a :: l1)); [exact Hn|left; reflexivity|right; exact Hb|].
      rewrite Hx, Hy. f_equal. lia. }
    subst b. f_equal. apply IH.
    + inversion Hd; assumption.
    + inversion Hn; assumption.
    + inversion Ha1; assumption.
    + inversion Ha2; assumption.
    + eapply Permutation_cons_inv. exact Hp.
Qed.

Lemma drop_duplicates_last_id l : NoDup (map date_of l) -> drop_duplicates_last l = l.
Proof.
  induction l as [|r l IH]; simpl; intros H; [reflexivity|].
  inversion H as [|? ? Hn Hl]; subst.
  destruct (existsb _ l) eqn:E.
  - apply existsb_same_cell in E. contradiction.
  - rewrite (IH Hl). reflexivity.
Qed.

(** Which rows survive [drop_duplicates] on two frames put end to end. *)
Lemma drop_duplicates_last_app_iff a b r :
  In r (drop_duplicates_last (a ++ b)) <->
  In r (drop_duplicates_last b) \/
  (In r (drop_duplicates_last a) /\ ~ In (date_of r) (map date_of b)).
Proof.
  induction a as [|x a IH]; simpl.
  - tauto.
  - destruct (existsb _ (a ++ b)) eqn:E.
    + apply existsb_same_cell in E. rewrite map_app, in_app_iff in E.
      destruct (existsb _ a) eqn:Ea.
      * exact IH.
      * rewrite IH. simpl. split; [tauto|].
        intros [H|[[<-|H] Hn]]; [tauto| |tauto].
        destruct E as [E|E]; [|contradiction].
        apply existsb_same_cell in E. congruence.
    + assert (Hn : ~ In (date_of x) (map date_of (a ++ b))).
      { intros H. apply existsb_same_cell in H. congruence. }
      rewrite map_app, in_app_iff in Hn.
      destruct (existsb _ a) eqn:Ea.
      * apply existsb_same_cell in Ea. tauto.
      * simpl. rewrite IH. split; [|tauto].
        intros [<-|H]; [|tauto]. right. split; [left; reflexivity|tauto].
Qed.

Lemma has_date_isna r : has_date r -> isna (date_of r) = false.
Proof. intros [d ->]. reflexivity. Qed.

Lemma has_date_no_text r : has_date r -> no_text r.
Proof. intros [d H]. unfold no_text. rewrite H. exact I. Qed.

(** A table whose rows all have a date is loaded back with its dates as
    they were. *)
Lemma to_datetime_col_dated among rows :
  Forall has_date rows ->
  to_datetime_col (map (reread_row among) rows) = Some (map (reread_row among) rows).
Proof.
  induction 1 as [|r rows [d Hr] _ IH]; simpl; [reflexivity|].
  rewrite IH, Hr. simpl. unfold reread_row. rewrite Hr. reflexivity.
Qed.

Lemma written_dates among rows :
  Forall has_date rows -> map date_of (map (reread_row among) rows) = map date_of rows.
Proof.
  induction 1 as [|r rows [d Hr] _ IH]; simpl; [reflexivity|].
  rewrite IH, Hr. reflexivity.
Qed.

(** *** The date column of a merge depends on the date columns only *)

Lemma existsb_cells c l :
  existsb (fun r' => cell_eqb c (date_of r')) l = existsb (cell_eqb c) (map date_of l).
Proof. induction l as [|x l IH]; simpl; [reflexivity|]. rewrite IH. reflexivity. Qed.

Lemma drop_duplicates_last_dates l l' :
  map date_of l = map date_of l' ->
  map date_of (drop_duplicates_last l) = map date_of (drop_duplicates_last l').
Proof.
  revert l'. induction l as [|a l IH]; intros [|b l'] H; simpl in *; try discriminate;
    [reflexivity|].
  inversion H as [[Hab Ht]]. rewrite !existsb_cells, Hab, Ht.
  destruct (existsb _ _); simpl; [apply IH; exact Ht|].
  f_equal; [exact Hab|apply IH, Ht].
Qed.

Lemma filter_dates_col (g : cell -> bool) l l' :
  map date_of l = map date_of l' ->
  map date_of (filter (fun r => g (date_of r)) l)
  = map date_of (filter (fun r => g (date_of r)) l').
Proof.
  revert l'. induction l as [|a l IH]; intros [|b l'] H; simpl in *; try discriminate;
    [reflexivity|].
  inversion H as [[Hab Ht]]. rewrite Hab.
  destruct (g (date_of b)); simpl; [f_equal; [exact Hab|]|]; apply IH, Ht.
Qed.

Lemma insert_sorted_dates r r' l l' :
  date_of r = date_of r' -> map date_of l = map date_of l' ->
  map date_of (insert_sorted r l) = map date_of (insert_sorted r' l').
Proof.
  intros Hr. revert l'. induction l as [|a l IH]; intros [|b l'] H; simpl in *;
    try discriminate; [rewrite Hr; reflexivity|].
  inversion H as [[Hab Ht]]. rewrite Hr, Hab.
  destruct (cell_leb _ _); simpl; rewrite ?Hr, ?Hab, ?Ht; [reflexivity|].
  f_equal. apply IH, Ht.
Qed.

Lemma sort_dates_dates l l' :
  map date_of l = map date_of l' -> map date_of (sort_dates l) = map date_of (sort_dates l').
Proof.
  revert l'. induction l as [|a l IH]; intros [|b l'] H; simpl in *; try discriminate;
    [reflexivity|].
  inversion H as [[Hab Ht]]. apply insert_sorted_dates; [exact Hab|apply IH, Ht].
Qed.

Lemma sort_values_dates l l' :
  map date_of l = map date_of l' ->
  map date_of (sort_values l) = map date_of (sort_values l').
Proof.
  intros H. unfold sort_values. rewrite !map_app. f_equal.
  - apply sort_dates_dates. apply (filter_dates_col (fun c => negb (isna c))). exact H.
  - apply (filter_dates_col isna). exact H.
Qed.

Lemma date_values_cells l l' :
  map date_of l = map date_of l' -> date_values l = date_values l'.
Proof.
  revert l'. induction l as [|a l IH]; intros [|b l'] H; simpl in *; try discriminate;
    [reflexivity|].
  inversion H as [[Hab Ht]]. rewrite Hab, (IH _ Ht). reflexivity.
Qed.

(** X11. Merging is idempotent on tables whose rows all have a date:
    merging the same reply again into the merged table gives the same
    table; and when the merged table goes through the table file first, as
    it does between two calls, merging the same reply into the table loaded
    back gives a table with the same dates in the same order. *)
Theorem merge_idempotent cached rows :
  Forall has_date cached -> Forall has_date rows ->
  exists table,
    merge (Some cached) (Dated rows) = Dated table /\
    merge (Some table) (Dated rows) = Dated table /\
    exists reloaded table',
      load_cached (with_history_data (to_csv (Dated table)) empty_dir) = Some reloaded /\
      merge (Some reloaded) (Dated rows) = Dated table' /\
      date_values table' = date_values table.
Proof.
  intros Hc Hr.
  set (table := sort_values (drop_duplicates_last (cached ++ rows))).
  assert (Hall : Forall has_date (cached ++ rows)) by (apply Forall_app; split; assumption).
  assert (Hp : Permutation table (drop_duplicates_last (cached ++ rows)))
    by apply sort_values_perm.
  assert (Hd : Forall has_date table).
  { apply Forall_forall. intros r Hin.
    apply (Permutation_in _ Hp), drop_duplicates_last_incl in Hin.
    rewrite Forall_forall in Hall. apply Hall, Hin. }
  assert (Hn : NoDup (map date_of table)).
  { eapply Permutation_NoDup; [apply Permutation_map, Permutation_sym, Hp|].
    apply drop_duplicates_last_nodup. }
  assert (Ha : Ascending table).
  { apply sort_values_ascending. apply Forall_forall. intros r Hin.
    apply has_date_no_text. apply drop_duplicates_last_incl in Hin.
    rewrite Forall_forall in Hall. apply Hall, Hin. }
  assert (Hidem : sort_values (drop_duplicates_last (table ++ rows)) = table).
  { symmetry. apply ascending_unique; try assumption.
    + apply sort_values_ascending. apply Forall_forall. intros r Hin.
      apply has_date_no_text. apply drop_duplicates_last_incl, in_app_or in Hin.
      rewrite Forall_forall in Hd, Hr. destruct Hin; auto.
    + rewrite sort_values_perm. apply NoDup_Permutation.
      * apply nodup_cells_rows, Hn.
      * apply nodup_cells_rows, drop_duplicates_last_nodup.
      * intros r. rewrite drop_duplicates_last_app_iff.
        rewrite (drop_duplicates_last_id table Hn).
        split.
        -- intros Hin. pose proof Hin as Hin'.
           apply (Permutation_in _ Hp), drop_duplicates_last_app_iff in Hin'.
           destruct Hin' as [H|[_ H]]; [left; exact H|right; split; assumption].
        -- intros [H|[H _]]; [|exact H].
           apply (Permutation_in _ (Permutation_sym Hp)), drop_duplicates_last_app_iff.
           left. exact H. }
  exists table. split; [reflexivity|]. split; [simpl; rewrite Hidem; reflexivity|].
  exists (map (reread_row (map data table)) table). eexists. split; [|split].
  - unfold load_cached. simpl. apply to_datetime_col_dated, Hd.
  - reflexivity.
  - transitivity (date_values (sort_values (drop_duplicates_last (table ++ rows))));
      [|rewrite Hidem; reflexivity].
    apply date_values_cells, sort_values_dates, drop_duplicates_last_dates.
    simpl concat. rewrite !map_app, (written_dates _ _ Hd). reflexivity.
Qed.

Lemma merge_idempotent_witness :
  exists table,
    merge (Some january) overlapping_reply = Dated table /\
    merge (Some table) overlapping_reply = Dated table /\
    exists reloaded table',
      load_cached (with_history_data (to_csv (Dated table)) empty_dir) = Some reloaded /\
      merge (Some reloaded) overlapping_reply = Dated table' /\
      date_values table' = date_values table.
Proof.
  apply (merge_idempotent january
           [mkRow (Date 5) "10.9"; mkRow (Date 32) "11.4"]);
    repeat constructor; eexists; reflexivity.
Defined.

(** ** SnapshotCache: one scheme, errors and round trips *)

(** Each snapshot operation is the cache-aside scheme at its own file and
    endpoint. *)
Lemma run_snapshot_cache_aside op disk symbol code xq force ak :
  _parse_symbol symbol = inr (code, xq) ->
  run_snapshot op disk symbol force ak = cache_aside op disk code xq force ak.
Proof.
  intros Hp. unfold cache_aside, stored_table.
  destruct op as [sd ed|sd ed| |ind per|rt]; simpl.
  - unfold get_stock_dividend_info, load_snapshot. rewrite Hp.
    destruct force; simpl; [reflexivity|].
    destruct (dividend_info _) as [f|]; [|reflexivity].
    destruct (read_csv f) as [[|ps|rows]|]; reflexivity.
  - unfold get_stock_research_report, load_snapshot. rewrite Hp.
    destruct force; simpl; [reflexivity|].
    destruct (research_report _) as [f|]; [|reflexivity].
    destruct (read_csv f) as [[|ps|rows]|]; reflexivity.
  - unfold get_stock_institute_recommendations, load_snapshot. rewrite Hp.
    destruct force; simpl.
    + destruct (stock_institute_recommend_detail ak (PyStr.lower xq)) as [e|df];
        [|reflexivity].
      destruct (PyStr.contains "Empty DataFrame" (str e)
                || PyStr.contains "No tables found" (str e)); reflexivity.
    + destruct (institute_recommendations _) as [f|].
      * destruct (read_csv f) as [[|ps|rows]|]; try reflexivity.
        destruct (stock_institute_recommend_detail ak (PyStr.lower xq)) as [e|df];
          [|reflexivity].
        destruct (PyStr.contains "Empty DataFrame" (str e)
                  || PyStr.contains "No tables found" (str e)); reflexivity.
      * destruct (stock_institute_recommend_detail ak (PyStr.lower xq)) as [e|df];
          [|reflexivity].
        destruct (PyStr.contains "Empty DataFrame" (str e)
                  || PyStr.contains "No tables found" (str e)); reflexivity.
  - unfold get_stock_valuation, load_valuation, load_snapshot. rewrite Hp.
    destruct force; simpl.
    + destruct (stock_zh_valuation_baidu ak code ind "全部") as [e|df]; [reflexivity|].
      destruct (convert_fetched df); reflexivity.
    + destruct (valuation _ !! safe_indicator ind) as [f|].
      * destruct (read_csv f) as [[|ps|rows]|]; try reflexivity;
          destruct (to_datetime_col rows); reflexivity.
      * destruct (stock_zh_valuation_baidu ak code ind "全部") as [e|df]; [reflexivity|].
        destruct (convert_fetched df); reflexivity.
  - unfold get_stock_financial_report, load_snapshot. rewrite Hp.
    destruct force; simpl; [reflexivity|].
    destruct (financial _ !! PyStr.replace " " "_" rt) as [f|]; [|reflexivity].
    destruct (read_csv f) as [[|ps|rows]|]; reflexivity.
Qed.

Lemma snapshot_file_written op f dir :
  snapshot_file op (with_snapshot_file op f dir) = Some f.
Proof.
  destruct op; simpl; try reflexivity; apply lookup_insert_eq.
Qed.

Lemma history_files_kept op f dir :
  history_data (with_snapshot_file op f dir) = history_data dir /\
  history_meta (with_snapshot_file op f dir) = history_meta dir.
Proof. destruct op; split; reflexivity. Qed.

(** X12. When the endpoint of a snapshot operation other than the
    institute recommendations raises, the operation raises the same
    exception after that one remote call, and no file changes. *)
Theorem snapshot_fetch_error op disk symbol code xq force ak err :
  _parse_symbol symbol = inr (code, xq) ->
  op <> InstituteRecommendations ->
  let o := run_snapshot op disk symbol force ak in
  calls o <> [] ->
  snapshot_fetch op ak code xq = inl err ->
  returned o = inl err /\
  calls o = [snapshot_call op code xq] /\
  (forall c, files (disk_after o) c = files disk c).
Proof.
  intros Hp Hop o. unfold o. rewrite (run_snapshot_cache_aside _ _ _ _ _ _ _ Hp).
  unfold cache_aside.
  destruct (if force then None else stored_table op _) as [df|].
  - simpl. intros H. contradiction H. reflexivity.
  - intros _ Hf. rewrite Hf. simpl.
    split; [destruct op; try reflexivity; contradiction|].
    split; [reflexivity|]. intros c. apply files_get_stock_dir.
Qed.

Lemma snapshot_fetch_error_witness :
  let o := run_snapshot (Valuation "市盈率(TTM)" "近1年") disk_dividends "000858.sz"
             false offline in
  returned o = inl (ProviderError "Connection aborted") /\
  calls o = [call_valuation "000858" "市盈率(TTM)" "全部"] /\
  (forall c, files (disk_after o) c = files disk_dividends c).
Proof.
  apply (snapshot_fetch_error (Valuation "市盈率(TTM)" "近1年") disk_dividends "000858.sz"
           "000858" "SZ000858" false offline (ProviderError "Connection aborted"));
    [reflexivity | discriminate | vm_compute; discriminate | reflexivity].
Defined.

(** X13. A snapshot operation that is forced to refresh, or finds no
    readable table, makes exactly one remote call; when that succeeds the
    reply replaces the cache file of the operation and is what the caller
    gets (filtered in memory where dates are asked for), and neither the
    files of other stocks nor the history files of this one change. *)
Theorem snapshot_refresh op disk symbol code xq force ak reply df :
  _parse_symbol symbol = inr (code, xq) ->
  force = true \/ stored_table op (files disk code) = None ->
  snapshot_fetch op ak code xq = inr reply ->
  as_fetched op reply = inr df ->
  let o := run_snapshot op disk symbol force ak in
  returned o = inr (client_view op df) /\
  calls o = [snapshot_call op code xq] /\
  snapshot_file op (files (disk_after o) code) = Some (to_csv df) /\
  (forall c, c <> code -> files (disk_after o) c = files disk c) /\
  history_data (files (disk_after o) code) = history_data (files disk code) /\
  history_meta (files (disk_after o) code) = history_meta (files disk code).
Proof.
  intros Hp Hmiss Hf Ha o. unfold o. rewrite (run_snapshot_cache_aside _ _ _ _ _ _ _ Hp).
  unfold cache_aside. rewrite files_get_stock_dir.
  assert (E : (if force then None else stored_table op (files disk code)) = None).
  { destruct Hmiss as [->| ->]; [reflexivity|]. destruct force; reflexivity. }
  rewrite E, Hf, Ha. simpl. rewrite files_insert.
  split; [reflexivity|]. split; [reflexivity|].
  split; [apply snapshot_file_written|]. split.
  - intros c Hc. rewrite files_insert_ne by congruence. apply files_get_stock_dir.
  - apply history_files_kept.
Qed.

Lemma snapshot_refresh_witness :
  let o := run_snapshot (Dividend None (Some (Ymd 200))) disk_dividends "000858.sz" true
             (ak_always (inr (Dated january))) in
  returned o = inr (client_view (Dividend None (Some (Ymd 200))) (Dated january)) /\
  calls o = [call_fhps "000858"] /\
  snapshot_file (Dividend None (Some (Ymd 200))) (files (disk_after o) "000858")
  = Some (to_csv (Dated january)) /\
  (forall c, c <> "000858" -> files (disk_after o) c = files disk_dividends c) /\
  history_data (files (disk_after o) "000858")
  = history_data (files disk_dividends "000858") /\
  history_meta (files (disk_after o) "000858")
  = history_meta (files disk_dividends "000858").
Proof.
  apply (snapshot_refresh (Dividend None (Some (Ymd 200))) disk_dividends "000858.sz"
           "000858" "SZ000858" true (ak_always (inr (Dated january)))
           (Dated january) (Dated january));
    [reflexivity | left; reflexivity | reflexivity | reflexivity].
Defined.

(** *** What a table keeps through its file *)











(** The table served from the cache is not the one fetched: its cells went
    through the file. *)
Example snapshot_round_trip_rereads :
  let op := Valuation "市净率" "全部" in
  let o := run_snapshot op ∅ "000858.sz" false (ak_always (inr (Dated january))) in
  let again := run_snapshot op (disk_after o) "000858.sz" false offline in
  returned o = inr (Dated january) /\
  returned again = inr (Dated (map (reread_row (map data january)) january)).
Proof. split; reflexivity. Qed.

(** X15. An empty reply is never cached: when the endpoint answers with a
    frame without columns, the operation returns it and writes a file
    that cannot be read back, so the next call, though not forced, goes to
    the remote source again. *)
Theorem snapshot_empty_reply op disk symbol code xq force ak ak' :
  _parse_symbol symbol = inr (code, xq) ->
  force = true \/ stored_table op (files disk code) = None ->
  snapshot_fetch op ak code xq = inr NoColumns ->
  let o := run_snapshot op disk symbol force ak in
  let again := run_snapshot op (disk_after o) symbol false ak' in
  returned o = inr NoColumns /\
  snapshot_file op (files (disk_after o) code) = Some (Csv NoColumns) /\
  calls again = [snapshot_call op code xq].
Proof.
  intros Hp Hmiss Hf o again.
  assert (E : (if force then None else stored_table op (files disk code)) = None).
  { destruct Hmiss as [->| ->]; [reflexivity|]. destruct force; reflexivity. }
  assert (Ha : as_fetched op NoColumns = inr NoColumns) by (destruct op; reflexivity).
  assert (Hv : client_view op NoColumns = NoColumns).
  { destruct op as [[?|] [?|]|[?|] [?|]| | |]; reflexivity. }
  assert (Ho : o = mkOutcome (inr NoColumns)
                 (<[code := with_snapshot_file op (Csv NoColumns) (files disk code)]>
                    (_get_stock_dir disk code))
                 [snapshot_call op code xq]).
  { unfold o. rewrite (run_snapshot_cache_aside _ _ _ _ _ _ _ Hp).
    unfold cache_aside. rewrite files_get_stock_dir, E, Hf, Ha, Hv. reflexivity. }
  split; [rewrite Ho; reflexivity|]. split.
  - rewrite Ho. simpl disk_after. rewrite files_insert. apply snapshot_file_written.
  - unfold again. rewrite (run_snapshot_cache_aside _ _ _ _ _ _ _ Hp), Ho.
    unfold cache_aside. simpl disk_after. rewrite files_get_stock_dir, files_insert.
    unfold stored_table at 1. rewrite snapshot_file_written. simpl.
    destruct (snapshot_fetch op ak' code xq) as [e|reply]; [reflexivity|].
    destruct (as_fetched op reply); reflexivity.
Qed.

Lemma snapshot_empty_reply_witness :
  let o := run_snapshot InstituteRecommendations ∅ "000858.sz" false
             (ak_always (inr NoColumns)) in
  let again := run_snapshot InstituteRecommendations (disk_after o) "000858.sz" false
                 offline in
  returned o = inr NoColumns /\
  snapshot_file InstituteRecommendations (files (disk_after o) "000858")
  = Some (Csv NoColumns) /\
  calls again = [call_institute "sz000858"].
Proof.
  apply (snapshot_empty_reply InstituteRecommendations ∅ "000858.sz" "000858" "SZ000858"
           false (ak_always (inr NoColumns)) offline);
    [reflexivity | right; reflexivity | reflexivity].
Defined.

(** ** SnapshotCache: the date filter and the file names *)

Lemma bounds_within s e r d :
  date_of r = Date d ->
  (after_bound s r && before_bound e r = true <-> within s e d).
Proof.
  intros Hr. unfold after_bound, before_bound, within, cell_ge, cell_le. rewrite Hr.
  destruct s as [[x|]|], e as [[y|]|]; rewrite ?andb_true_iff, ?Z.leb_le; simpl;
    intuition discriminate.
Qed.

Lemma in_coerce_col_dated r d rows :
  date_of r = Date d -> (In r (coerce_col rows) <-> In r rows).
Proof.
  intros Hr. unfold coerce_col. rewrite in_map_iff. split.
  - intros (r0 & E & Hin). subst r. simpl in Hr.
    destruct (date_of r0) eqn:E0; simpl in Hr; try discriminate.
    simpl. rewrite <- E0, row_eta. exact Hin.
  - intros Hin. exists r. split; [|exact Hin]. rewrite Hr. simpl.
    rewrite <- Hr. apply row_eta.
Qed.

(** Every row stays, with its date when it has one and with [NaT] when it
    has none. *)
Lemma coerce_col_rows rows :
  Forall2 (fun r o => data o = data r /\
                      ((exists d, date_of r = Date d /\ date_of o = Date d) \/
                       (~ has_date r /\ date_of o = NaT)))
          rows (coerce_col rows).
Proof.
  induction rows as [|r rows IH]; simpl; constructor; [|exact IH].
  split; [reflexivity|]. simpl.
  destruct (date_of r) as [d| | |t] eqn:Er; simpl;
    [left; eauto|right|right|right]; (split; [intros [d Hd]; congruence|reflexivity]).
Qed.

(** X16. The date filter of the dividend and research-report operations.
    With at least one bound given and every given bound read by
    [pd.to_datetime], the rows handed back are exactly the rows of the
    table whose date cell is a date within the bounds: rows with an empty
    or unreadable date are dropped, and so is every row when a bound reads
    as [NaT].  When a given bound is rejected, the filter gives up and
    hands back every row, in the order of the table, each with its other
    cells as they were and its date cell kept when it is a date and set to
    [NaT] when it is not. *)
Theorem filter_dates_bounds rows start_date end_date :
  (forall s e,
     parse_bound start_date = inr s -> parse_bound end_date = inr e ->
     s <> None \/ e <> None ->
     exists out,
       filter_dates (Dated rows) start_date end_date = Dated out /\
       (forall r, In r out <->
                  exists d, date_of r = Date d /\ In r rows /\ within s e d)) /\
  (forall err,
     parse_bound start_date = inl err \/ parse_bound end_date = inl err ->
     exists out,
       filter_dates (Dated rows) start_date end_date = Dated out /\
       Forall2 (fun r o => data o = data r /\
                           ((exists d, date_of r = Date d /\ date_of o = Date d) \/
                            (~ has_date r /\ date_of o = NaT)))
               rows out).
Proof.
  split.
  - intros s e Hs He Hsome.
    assert (E : filter_dates (Dated rows) start_date end_date
                = Dated (filter (fun r => after_bound s r && before_bound e r)
                                (coerce_col rows))).
    { unfold filter_dates. rewrite Hs, He.
      destruct start_date, end_date; try reflexivity.
      simpl in Hs, He. inversion Hs. inversion He. subst. destruct Hsome; congruence. }
    eexists. split; [exact E|]. intros r. rewrite filter_In. split.
    + intros [Hin Hb].
      assert (Hd : exists d, date_of r = Date d).
      { unfold after_bound, before_bound, cell_ge, cell_le in Hb.
        destruct (date_of r) eqn:Er; [eauto|..];
          destruct s, e; simpl in Hb; try discriminate;
          destruct Hsome; congruence. }
      destruct Hd as [d Hd]. exists d. split; [exact Hd|].
      split; [apply (in_coerce_col_dated r d); assumption|].
      apply (bounds_within s e r d Hd), Hb.
    + intros (d & Hd & Hin & Hw). split.
      * apply (in_coerce_col_dated r d); assumption.
      * apply (bounds_within s e r d Hd), Hw.
  - intros err H. exists (coerce_col rows). split.
    + unfold filter_dates.
      destruct start_date as [a|], end_date as [b|]; simpl in *.
      * destruct (to_datetime a); [reflexivity|]. destruct (to_datetime b); [reflexivity|].
        destruct H; discriminate.
      * destruct (to_datetime a); [reflexivity|]. destruct H; discriminate.
      * destruct (to_datetime b); [reflexivity|]. destruct H; discriminate.
      * destruct H; discriminate.
    + apply coerce_col_rows.
Qed.

Lemma filter_dates_bounds_witness :
  (exists out,
     filter_dates (Dated dividends) (Some (Ymd 200)) None = Dated out /\
     (forall r, In r out <->
                exists d, date_of r = Date d /\ In r dividends /\
                          within (Some (PyDate 200)) None d))
  /\
  (exists out,
     filter_dates (Dated dividends) (Some (Malformed "soon")) None = Dated out /\
     Forall2 (fun r o => data o = data r /\
                         ((exists d, date_of r = Date d /\ date_of o = Date d) \/
                          (~ has_date r /\ date_of o = NaT)))
             dividends out).
Proof.
  split.
  - apply (proj1 (filter_dates_bounds dividends (Some (Ymd 200)) None)
             (Some (PyDate 200)) None);
      [reflexivity | reflexivity | left; discriminate].
  - apply (proj2 (filter_dates_bounds dividends (Some (Malformed "soon")) None)
             (ValueError "soon")).
    left. reflexivity.
Defined.

(** A bound that reads as [NaT] drops every row. *)
Example dividends_nat_bound :
  filter_dates (Dated dividends) (Some Blank) None = Dated [].
Proof. reflexivity. Qed.

Lemma contains_char_replace_other d c by_ s :
  PyStr.contains_char d by_ = false -> PyStr.contains_char d s = false ->
  PyStr.contains_char d (PyStr.replace c by_ s) = false.
Proof.
  intros Hb. induction s as [|x s IH]; simpl; [reflexivity|]. intros H.
  apply orb_false_iff in H as [Hx Hs].
  destruct (Ascii.eqb c x).
  - rewrite contains_char_app, Hb, (IH Hs). reflexivity.
  - simpl. rewrite Hx, (IH Hs). reflexivity.
Qed.

Lemma contains_char_replace_gone c by_ s :
  PyStr.contains_char c by_ = false ->
  PyStr.contains_char c (PyStr.replace c by_ s) = false.
Proof.
  intros Hb. induction s as [|x s IH]; simpl; [reflexivity|].
  destruct (Ascii.eqb c x) eqn:E.
  - rewrite contains_char_app, Hb, IH. reflexivity.
  - simpl. rewrite E, IH. reflexivity.
Qed.

Lemma replace_absent c by_ s :
  PyStr.contains_char c s = false -> PyStr.replace c by_ s = s.
Proof.
  induction s as [|x s IH]; simpl; [reflexivity|]. intros H.
  apply orb_false_iff in H as [Hx Hs]. rewrite Hx, (IH Hs). reflexivity.
Qed.

(** X17. The name of a valuation cache file holds no parenthesis and no
    space, whatever the indicator is called, and an indicator and its
    cleaned name share one file: after ["市盈率(TTM)"] has been fetched,
    asking for ["市盈率TTM"] reads the same cache. *)
Theorem safe_indicator_clean indicator :
  PyStr.contains_char "(" (safe_indicator indicator) = false /\
  PyStr.contains_char ")" (safe_indicator indicator) = false /\
  PyStr.contains_char " " (safe_indicator indicator) = false /\
  (forall period period' dir,
     snapshot_file (Valuation (safe_indicator indicator) period') dir
     = snapshot_file (Valuation indicator period) dir).
Proof.
  assert (H1 : PyStr.contains_char "(" (safe_indicator indicator) = false).
  { unfold safe_indicator.
    apply contains_char_replace_other; [reflexivity|].
    apply contains_char_replace_other; [reflexivity|].
    apply contains_char_replace_gone. reflexivity. }
  assert (H2 : PyStr.contains_char ")" (safe_indicator indicator) = false).
  { unfold safe_indicator.
    apply contains_char_replace_other; [reflexivity|].
    apply contains_char_replace_gone. reflexivity. }
  assert (H3 : PyStr.contains_char " " (safe_indicator indicator) = false).
  { unfold safe_indicator. apply contains_char_replace_gone. reflexivity. }
  split; [exact H1|]. split; [exact H2|]. split; [exact H3|].
  intros period period' dir. simpl. f_equal.
  unfold safe_indicator at 1.
  rewrite (replace_absent "(" _ _ H1), (replace_absent ")" _ _ H2),
    (replace_absent " " _ _ H3).
  reflexivity.
Qed.

(** ** Stock information *)

Lemma json_dump_load data written :
  json_dump data = Some written -> Jsonable <$> written = data.
Proof.
  unfold json_dump. case_bool_decide as H; [|discriminate].
  intros E. inversion E; subst. clear E. apply map_eq. intros k.
  rewrite lookup_fmap, lookup_omap.
  destruct (data !! k) as [v|] eqn:Ek; [|reflexivity]. simpl.
  specialize (H k v Ek). destruct v; [reflexivity|discriminate].
Qed.

Lemma json_dump_fails data k repr :
  data !! k = Some (NotJsonable repr) -> json_dump data = None.
Proof.
  intros Hk. unfold json_dump. case_bool_decide as H; [|reflexivity].
  specialize (H k _ Hk). discriminate.
Qed.

(** [get_stock_info] once the symbol has parsed and the cache is passed by. *)
Lemma get_stock_info_fetches disk infos symbol code xq force ak :
  _parse_symbol symbol = inr (code, xq) ->
  force = true \/ (forall f, infos !! code = Some f -> json_load f = None) ->
  get_stock_info disk infos symbol force ak =
  match snd (fetch_info ak code xq) with
  | inl e => mkInfoOutcome (inl (Raised e)) (_get_stock_dir disk code) infos
               [fst (fetch_info ak code xq)]
  | inr df =>
      match to_data df with
      | inl e => mkInfoOutcome (inl e) (_get_stock_dir disk code) infos
                   [fst (fetch_info ak code xq)]
      | inr data =>
          match json_dump data with
          | Some written =>
              mkInfoOutcome (inr (InfoDict data)) (_get_stock_dir disk code)
                (<[code := InfoObject written]> infos) [fst (fetch_info ak code xq)]
          | None =>
              mkInfoOutcome (inl NotSerializable)
                (_get_stock_dir disk code) (<[code := BadInfo]> infos)
                [fst (fetch_info ak code xq)]
          end
      end
  end.
Proof.
  intros Hp Hmiss. unfold get_stock_info. rewrite Hp.
  assert (E : (if negb force then
                 match infos !! code with Some f => json_load f | None => None end
               else None) = None).
  { destruct Hmiss as [->|H]; [reflexivity|]. destruct force; [reflexivity|]. simpl.
    destruct (infos !! code) as [f|]; [apply H|]; reflexivity. }
  rewrite E. destruct (fetch_info ak code xq) as [call reply]. reflexivity.
Qed.

(** X18. [get_stock_info] reads its cache first: when no refresh is forced
    and [info.json] holds a JSON document, that document is returned, no
    endpoint is called and no file is written. *)
Theorem info_cache_hit disk infos symbol code xq ak f v :
  _parse_symbol symbol = inr (code, xq) ->
  infos !! code = Some f ->
  json_load f = Some v ->
  let o := get_stock_info disk infos symbol false ak in
  info_returned o = inr v /\
  info_calls o = [] /\
  info_files_after o = infos /\
  (forall c, files (info_disk_after o) c = files disk c).
Proof.
  intros Hp Hf Hv o. unfold o, get_stock_info. rewrite Hp. simpl. rewrite Hf, Hv. simpl.
  repeat split. intros c. apply files_get_stock_dir.
Qed.

Lemma info_cache_hit_witness :
  let o := get_stock_info ∅ {[ "000858" := InfoOther "[1, 2]" ]} "000858.sz" false
             (xq_always (inl (ProviderError "Connection aborted"))) in
  info_returned o = inr (InfoDocument "[1, 2]") /\
  info_calls o = [] /\
  info_files_after o = {[ "000858" := InfoOther "[1, 2]" ]} /\
  (forall c, files (info_disk_after o) c = files ∅ c).
Proof.
  apply (info_cache_hit ∅ {[ "000858" := InfoOther "[1, 2]" ]} "000858.sz" "000858"
           "SZ000858" (xq_always (inl (ProviderError "Connection aborted")))
           (InfoOther "[1, 2]") (InfoDocument "[1, 2]"));
    reflexivity.
Defined.

(** X19. Fetch, store, load: when [get_stock_info] fetches a reply whose
    values can all be written as JSON, it returns the dictionary made of
    the reply and stores it, and the next call, not forced, returns the
    same dictionary without calling any endpoint. *)
Theorem info_round_trip disk infos symbol code xq force ak df data ak' :
  _parse_symbol symbol = inr (code, xq) ->
  force = true \/ (forall f, infos !! code = Some f -> json_load f = None) ->
  snd (fetch_info ak code xq) = inr df ->
  to_data df = inr data ->
  (forall k v, data !! k = Some v -> is_jsonable v = true) ->
  let o := get_stock_info disk infos symbol force ak in
  let again :=
    get_stock_info (info_disk_after o) (info_files_after o) symbol false ak' in
  info_returned o = inr (InfoDict data) /\
  info_calls o = [fst (fetch_info ak code xq)] /\
  info_returned again = inr (InfoDict data) /\
  info_calls again = [] /\
  info_files_after again = info_files_after o.
Proof.
  intros Hp Hmiss Hf Hd Hj o again.
  assert (Hw : json_dump data = Some (omap json_text data)).
  { unfold json_dump. rewrite bool_decide_eq_true_2; [reflexivity|exact Hj]. }
  assert (Ho : o = mkInfoOutcome (inr (InfoDict data)) (_get_stock_dir disk code)
                 (<[code := InfoObject (omap json_text data)]> infos)
                 [fst (fetch_info ak code xq)]).
  { unfold o. rewrite (get_stock_info_fetches _ _ _ _ _ _ _ Hp Hmiss), Hf, Hd, Hw.
    reflexivity. }
  unfold again. rewrite Ho. simpl. split; [reflexivity|]. split; [reflexivity|].
  unfold get_stock_info. rewrite Hp. simpl. rewrite lookup_insert_eq. simpl.
  rewrite (json_dump_load _ _ Hw). repeat split.
Qed.

Lemma info_round_trip_witness :
  let ak := xq_always (inr (ItemValueFrame company_rows)) in
  let o := get_stock_info ∅ ∅ "000858.sz" false ak in
  let again :=
    get_stock_info (info_disk_after o) (info_files_after o) "000858.sz" false
      (xq_always (inl (ProviderError "Connection aborted"))) in
  info_returned o = inr (InfoDict (dict_zip company_rows)) /\
  info_calls o = [fst (fetch_info ak "000858" "SZ000858")] /\
  info_returned again = inr (InfoDict (dict_zip company_rows)) /\
  info_calls again = [] /\
  info_files_after again = info_files_after o.
Proof.
  apply (info_round_trip ∅ ∅ "000858.sz" "000858" "SZ000858" false
           (xq_always (inr (ItemValueFrame company_rows)))
           (ItemValueFrame company_rows) (dict_zip company_rows)
           (xq_always (inl (ProviderError "Connection aborted"))));
    [reflexivity | right; intros f H; rewrite lookup_empty in H; discriminate
    | reflexivity | reflexivity |].
  assert (Hall : map_Forall (fun (_ : string) v => is_jsonable v = true)
                   (dict_zip company_rows)).
  { apply (bool_decide_unpack _). vm_compute. exact I. }
  exact Hall.
Defined.

(** X20. A reply that [json.dump] cannot write costs the cache: when the
    dictionary made of the reply holds a value that is not JSON, the call
    raises the [TypeError] of [json.dump] with [info.json] already opened
    for writing, so the
    file is left unreadable, whatever it held before, and the next call,
    though not forced, asks the remote source again. *)
Theorem info_dump_failure disk infos symbol code xq force ak df data k repr ak' :
  _parse_symbol symbol = inr (code, xq) ->
  force = true \/ (forall f, infos !! code = Some f -> json_load f = None) ->
  snd (fetch_info ak code xq) = inr df ->
  to_data df = inr data ->
  data !! k = Some (NotJsonable repr) ->
  let o := get_stock_info disk infos symbol force ak in
  let again :=
    get_stock_info (info_disk_after o) (info_files_after o) symbol false ak' in
  info_returned o = inl NotSerializable /\
  info_files_after o !! code = Some BadInfo /\
  info_calls again = [fst (fetch_info ak' code xq)].
Proof.
  intros Hp Hmiss Hf Hd Hk o again.
  assert (Ho : o = mkInfoOutcome (inl NotSerializable)
                 (_get_stock_dir disk code) (<[code := BadInfo]> infos)
                 [fst (fetch_info ak code xq)]).
  { unfold o. rewrite (get_stock_info_fetches _ _ _ _ _ _ _ Hp Hmiss), Hf, Hd,
      (json_dump_fails _ _ _ Hk). reflexivity. }
  unfold again. rewrite Ho. simpl.
  split; [reflexivity|]. split; [apply lookup_insert_eq|].
  rewrite (get_stock_info_fetches _ _ _ code xq).
  - destruct (snd (fetch_info ak' code xq)) as [e|df']; [reflexivity|].
    destruct (to_data df') as [e|data']; [reflexivity|].
    destruct (json_dump data'); reflexivity.
  - exact Hp.
  - right. intros f. rewrite lookup_insert_eq. intros H. inversion H. reflexivity.
Qed.

Lemma info_dump_failure_witness :
  let infos : gmap string InfoFile := {[ "000858" := InfoObject {[ "name" := "WLY" ]} ]} in
  let ak := xq_always (inr (OtherFrame [{[ "listed" := NotJsonable "Timestamp" ]}])) in
  let o := get_stock_info ∅ infos "000858.sz" true ak in
  let again :=
    get_stock_info (info_disk_after o) (info_files_after o) "000858.sz" false ak in
  info_returned o = inl NotSerializable /\
  info_files_after o !! "000858" = Some BadInfo /\
  info_calls again = [fst (fetch_info ak "000858" "SZ000858")].
Proof.
  apply (info_dump_failure ∅ {[ "000858" := InfoObject {[ "name" := "WLY" ]} ]}
           "000858.sz" "000858" "SZ000858" true
           (xq_always (inr (OtherFrame [{[ "listed" := NotJsonable "Timestamp" ]}])))
           (OtherFrame [{[ "listed" := NotJsonable "Timestamp" ]}])
           {[ "listed" := NotJsonable "Timestamp" ]} "listed" "Timestamp");
    [reflexivity | left; reflexivity | reflexivity | reflexivity | reflexivity].
Defined.

(** X21. Which endpoint [get_stock_info] asks, and what becomes of its
    failure: the newer XueQiu endpoint when the module has it, else the
    older one, both with the exchange-prefixed code, else the EastMoney
    one with the pure code; when the endpoint raises, or the reply cannot
    be made a dictionary, that exception is raised to the caller and
    [info.json] is not touched. *)
Theorem info_fetch_error disk infos symbol code xq force ak :
  _parse_symbol symbol = inr (code, xq) ->
  force = true \/ (forall f, infos !! code = Some f -> json_load f = None) ->
  let o := get_stock_info disk infos symbol force ak in
  info_calls o = [endpoint_asked ak code xq] /\
  (forall e, snd (fetch_info ak code xq) = inl e ->
             info_returned o = inl (Raised e) /\ info_files_after o = infos) /\
  (forall df e, snd (fetch_info ak code xq) = inr df -> to_data df = inl e ->
                info_returned o = inl e /\ info_files_after o = infos).
Proof.
  intros Hp Hmiss o. unfold o. rewrite (get_stock_info_fetches _ _ _ _ _ _ _ Hp Hmiss).
  split; [|split].
  - assert (E : fst (fetch_info ak code xq) = endpoint_asked ak code xq).
    { unfold fetch_info, endpoint_asked.
      destruct (stock_individual_basic_info_xq ak); [reflexivity|].
      destruct (stock_individual_info_xq ak); reflexivity. }
    rewrite <- E.
    destruct (snd (fetch_info ak code xq)) as [e|df]; [reflexivity|].
    destruct (to_data df) as [e|data]; [reflexivity|].
    destruct (json_dump data); reflexivity.
  - intros e He. rewrite He. split; reflexivity.
  - intros df e Hdf He. rewrite Hdf, He. split; reflexivity.
Qed.

Lemma info_fetch_error_witness :
  let ak := mkAkInfo None None (fun _ => inl (ProviderError "Connection aborted")) in
  let o := get_stock_info ∅ ∅ "000858.sz" true ak in
  info_calls o = [call_info_em "000858"] /\
  (forall e, snd (fetch_info ak "000858" "SZ000858") = inl e ->
             info_returned o = inl (Raised e) /\ info_files_after o = ∅) /\
  (forall df e, snd (fetch_info ak "000858" "SZ000858") = inr df -> to_data df = inl e ->
                info_returned o = inl e /\ info_files_after o = ∅).
Proof.
  apply (info_fetch_error ∅ ∅ "000858.sz" "000858" "SZ000858" true
           (mkAkInfo None None (fun _ => inl (ProviderError "Connection aborted"))));
    [reflexivity | left; reflexivity].
Defined.

Lemma dict_zip_snoc rows p : dict_zip (rows ++ [p]) = <[fst p := snd p]> (dict_zip rows).
Proof. unfold dict_zip. rewrite fold_left_app. reflexivity. Qed.

(** X22. The dictionary made of an item/value frame maps each item to the
    value of the last row that has it: a later row replaces an earlier one
    with the same item, and an item is in the dictionary exactly when
    some row has it. *)
Theorem dict_zip_last rows k v :
  dict_zip rows !! k = Some v <->
  exists before after,
    rows = (before ++ (k, v) :: after)%list /\ ~ In k (map fst after).
Proof.
  induction rows as [|[k' v'] rows IH] using rev_ind.
  - split; [intros H; unfold dict_zip in H; simpl in H; rewrite lookup_empty in H;
            discriminate|].
    intros (before & after & E & _). destruct before; discriminate.
  - rewrite dict_zip_snoc. simpl. destruct (decide (k' = k)) as [->|Hne].
    + rewrite lookup_insert_eq. split.
      * intros H. inversion H; subst. exists rows, []. split; [reflexivity|tauto].
      * intros (before & after & E & Hn).
        destruct after as [|q after] using rev_ind.
        -- apply app_inj_tail in E as [_ E]. congruence.
        -- clear IHafter. rewrite app_comm_cons, app_assoc in E.
           apply app_inj_tail in E as [_ <-].
           contradiction Hn. rewrite map_app, in_app_iff. right. left. reflexivity.
    + rewrite lookup_insert_ne by exact Hne. rewrite IH. split.
      * intros (before & after & -> & Hn).
        exists before, (after ++ [(k', v')])%list. split.
        -- rewrite <- app_assoc. reflexivity.
        -- rewrite map_app, in_app_iff. simpl. intros [H|[H|[]]]; [tauto|congruence].
      * intros (before & after & E & Hn).
        destruct after as [|q after] using rev_ind.
        -- apply app_inj_tail in E as [_ E]. congruence.
        -- clear IHafter. rewrite app_comm_cons, app_assoc in E.
           apply app_inj_tail in E as [-> <-].
           exists before, after. split; [reflexivity|].
           intros H. apply Hn. rewrite map_app, in_app_iff. left. exact H.
Qed.

(** ** The palette *)

Lemma list_times_length {A : Type} (l : list A) k :
  length (list_times l k) = (k * length l)%nat.
Proof. induction k as [|k IH]; simpl; [reflexivity|]. rewrite length_app, IH. reflexivity. Qed.

(** Indexing a repeated list wraps around. *)
Lemma list_times_nth {A : Type} (l : list A) k i :
  (i < k * length l)%nat ->
  nth_error (list_times l k) i = nth_error l (i mod length l).
Proof.
  revert i. induction k as [|k IH]; simpl; intros i Hi; [lia|].
  assert (Hl : (0 < length l)%nat) by (destruct l; simpl in *; lia).
  destruct (Nat.lt_ge_cases i (length l)) as [Hlt|Hge].
  - rewrite nth_error_app1 by exact Hlt. rewrite Nat.mod_small by exact Hlt. reflexivity.
  - rewrite nth_error_app2 by exact Hge. rewrite IH by lia.
    f_equal. replace i with ((i - length l) + 1 * length l)%nat at 2 by lia.
    rewrite Nat.Div0.mod_add. reflexivity.
Qed.

(** X23. The colours of the charts.  In [plot_valuation_history] the colour
    list is always long enough: for any number of series, the series at
    position [i] finds a colour, the palette entry [i mod 9], so colours
    repeat from the tenth series on and the lookup never runs off the
    list.  In [plot_pie_chart] at most nine colours are passed, however
    many sectors there are. *)
Theorem palette_lookup n i :
  (i < n)%nat ->
  (exists colour,
     nth_error (valuation_colors n) i = Some colour /\
     nth_error echarts_colors (i mod 9) = Some colour) /\
  length (pie_colors n) = Nat.min n 9.
Proof.
  intros Hi. split.
  - unfold valuation_colors.
    assert (Hlen : length echarts_colors = 9%nat) by reflexivity.
    rewrite list_times_nth.
    + rewrite Hlen.
      destruct (nth_error echarts_colors (i mod 9)) as [c|] eqn:E; [eauto|].
      apply nth_error_None in E. rewrite Hlen in E.
      pose proof (Nat.mod_upper_bound i 9). lia.
    + rewrite Hlen. pose proof (Nat.div_mod_eq n 9).
      pose proof (Nat.mod_upper_bound n 9). lia.
  - unfold pie_colors. rewrite length_firstn. reflexivity.
Qed.

Lemma palette_lookup_witness :
  (exists colour,
     nth_error (valuation_colors 12) 10 = Some colour /\
     nth_error echarts_colors (10 mod 9) = Some colour) /\
  length (pie_colors 12) = Nat.min 12 9.
Proof. apply (palette_lookup 12 10). lia. Defined.

(** ** RangeCoverageCache: the remote calls *)

(** The coverage test raises for a dated request exactly when the start
    read is [NaT], or the start read is a date not after the requested
    start and the end read is [NaT]. *)
Lemma covers_raises_dated covered s e :
  (exists err, covers covered (PyDate s) (PyDate e) = inl err) <->
  exists a b,
    covered = (Some a, Some b) /\
    (a = PyNaT \/ exists cs, a = PyDate cs /\ cs <= s /\ b = PyNaT).
Proof.
  unfold covers. split.
  - intros [err H]. destruct covered as [[a|] [b|]]; try discriminate.
    exists a, b. split; [reflexivity|].
    destruct a as [cs|]; [|left; reflexivity]. right. simpl in H.
    destruct (cs <=? s) eqn:E; [|discriminate]. apply Z.leb_le in E.
    destruct b as [ce|]; [discriminate|]. exists cs. repeat split. exact E.
  - intros (a & b & -> & [->|(cs & -> & Hs & ->)]); simpl; [eauto|].
    replace (cs <=? s) with true by (symmetry; apply Z.leb_le; exact Hs). eauto.
Qed.

(** X24. A call of [get_stock_history] with two well-formed dates asks the
    remote source at most once, and then for the whole requested interval
    as given, never for the part that the cache is missing.  It asks
    unless the metadata holds two dates that span the request next to a
    table that can be read, or a value of the metadata next to a table
    file that is not empty reads as [NaT] where the coverage test meets
    it; in these two cases, and in no other, no remote call is made. *)
Theorem history_one_fetch disk symbol code xq s e adjust ak now :
  _parse_symbol symbol = inr (code, xq) ->
  let o := get_stock_history disk symbol (Ymd s) (Ymd e) adjust ak now in
  (calls o = [] \/ calls o = [call_hist code (Ymd s) (Ymd e) adjust]) /\
  (calls o = [] <->
   fully_covered (files disk code) s e \/ coverage_test_raises (files disk code) s).
Proof.
  intros Hp o. unfold o. rewrite (get_stock_history_parsed _ _ _ _ _ _ _ _ _ Hp).
  assert (Hhit : fully_covered (files disk code) s e ->
            exists df, serve_from_cache (files disk code) (read_coverage (files disk code))
                         (PyDate s) (PyDate e) = inr (Some df)).
  { intros (cs & ce & lu & raw & Hm & Hd & Hnt & Hs & He).
    destruct (to_datetime_col_total _ (written_no_text (map data raw) _ Hnt)) as [rows Hc].
    eexists.
    apply (serve_full_hit _ s e cs ce lu (Csv (Dated raw))
             (map (reread_row (map data raw)) raw) rows); try assumption.
    reflexivity. }
  assert (Hraise : coverage_test_raises (files disk code) s ->
            exists err, serve_from_cache (files disk code) (read_coverage (files disk code))
                          (PyDate s) (PyDate e) = inl err).
  { intros (a & b & lu & f & Hm & Hd & Hne & Hnat).
    assert (Hr : read_coverage (files disk code) = (Some a, Some b)).
    { apply (read_coverage_dated _ _ _ lu f Hm Hd).
      destruct f; [contradiction| |]; reflexivity. }
    destruct (proj2 (covers_raises_dated (Some a, Some b) s e)) as [err Herr];
      [exists a, b; split; [reflexivity|exact Hnat]|].
    exists err. rewrite Hr. unfold serve_from_cache. rewrite Herr. reflexivity. }
  destruct (serve_from_cache _ _ (PyDate s) (PyDate e)) as [err|[df|]] eqn:Es.
  - simpl. split; [left; reflexivity|]. split; [|reflexivity]. intros _. right.
    unfold serve_from_cache in Es.
    destruct (covers _ (PyDate s) (PyDate e)) as [err'|[|]] eqn:Ec; try discriminate.
    destruct (proj1 (covers_raises_dated _ s e) (ex_intro _ err' Ec))
      as (a & b & Hr & Hnat).
    apply read_coverage_some in Hr as (lu & f & Hm & Hd & Hn).
    exists a, b, lu, f. repeat split; try assumption.
    intros ->. discriminate.
  - simpl. split; [left; reflexivity|]. split; [|reflexivity]. intros _. left.
    apply serve_from_cache_inv in Es
      as (cs & ce & s' & e' & raw & rows & Hr & Hs' & He' & Hs & He & (f & Hd & Hf) & Hc & _).
    inversion Hs'; inversion He'; subst s' e'.
    apply read_coverage_some in Hr as (lu & f' & Hm & _ & _).
    apply read_csv_dated_inv in Hf as (written & -> & ->).
    exists cs, ce, lu, written. repeat split; try assumption.
    eapply reread_no_text_inv, to_datetime_col_source. exact Hc.
  - rewrite fetch_and_merge_calls. split; [right; reflexivity|].
    split; [discriminate|].
    intros [H|H]; [destruct (Hhit H) as [df E]|destruct (Hraise H) as [err E]];
      discriminate.
Qed.

Lemma history_one_fetch_witness :
  let o := get_stock_history disk_january "000858.sz" (Ymd 5) (Ymd 40) "qfq" offline 7 in
  (calls o = [] \/ calls o = [call_hist "000858" (Ymd 5) (Ymd 40) "qfq"]) /\
  (calls o = [] <->
   fully_covered (files disk_january "000858") 5 40 \/
   coverage_test_raises (files disk_january "000858") 5).
Proof.
  apply (history_one_fetch disk_january "000858.sz" "000858" "SZ000858" 5 40 "qfq"
           offline 7).
  reflexivity.
Defined.

(** The three cases on the disks of the examples: a request reaching past
    the coverage is fetched, one inside it is not, and next to metadata
    that reads as [NaT] nothing is fetched either. *)
Example history_calls_by_case :
  calls (get_stock_history disk_january "000858.sz" (Ymd 5) (Ymd 40) "qfq" offline 7)
  = [call_hist "000858" (Ymd 5) (Ymd 40) "qfq"] /\
  calls (get_stock_history disk_january "000858.sz" (Ymd 5) (Ymd 31) "qfq" offline 7) = [] /\
  calls (get_stock_history disk_nat "000858.sz" (Ymd 5) (Ymd 31) "qfq" offline 7) = [].
Proof. repeat split. Qed.
